(** * UEJsonCRDT: the document engine of the JSON CRDT plugin

    A shallow embedding of [JsonCRDTDocument.cpp],
    [JsonCRDTDefaultConflictResolver.cpp] and [JsonCRDTDefaultLogger.cpp],
    and the properties of patch application, path resolution, conflict
    resolution, history bookkeeping and recovery that hold of them. *)

From Stdlib Require Import List String Ascii ZArith Bool Lia Arith.
Import ListNotations.

Set Warnings "-register-all".

Local Open Scope string_scope.
Local Open Scope Z_scope.
Local Open Scope list_scope.

(** ** Integers of the engine *)

(** [int64] counters ([Version]) live in [Z]; an increment is reduced back
    into the signed 64-bit range. *)
Definition Int64Max : Z := 2 ^ 63 - 1.
Definition Int64Min : Z := - 2 ^ 63.

Definition wrap64 (z : Z) : Z := (z + 2 ^ 63) mod 2 ^ 64 - 2 ^ 63.

Definition InInt64 (z : Z) : bool := (Int64Min <=? z) && (z <=? Int64Max).

(** The conversion of an [int64] to [double], as an argument of type
    [double] takes it: the nearest value with a mantissa of 53 bits, a tie
    going to the even mantissa.  Up to 2^53 in size every integer is kept. *)
Definition Int64ToDouble (z : Z) : Z :=
  let a := Z.abs z in
  if a <? 2 ^ 53 then z
  else
    let e := Z.log2 a - 52 in
    let q := Z.shiftr a e in
    let rest := a - Z.shiftl q e in
    let half := Z.shiftl 1 (e - 1) in
    let q := if (rest >? half) || ((rest =? half) && Z.odd q) then q + 1
             else q in
    Z.sgn z * Z.shiftl q e.

(** [TArray::Num()] *)
Definition Num {A : Type} (l : list A) : Z := Z.of_nat (List.length l).

(** ** JSON values ([Dom/JsonValue.h], [Dom/JsonObject.h])

    [FJsonObject] keeps its fields in insertion order.  Numbers are kept as
    integers. *)
Inductive FJsonValue : Type :=
| FJsonValueNull
| FJsonValueBoolean (b : bool)
| FJsonValueNumber (n : Z)
| FJsonValueString (s : string)
| FJsonValueArray (a : list FJsonValue)
| FJsonValueObject (o : list (string * FJsonValue)).

Definition FJsonObject : Type := list (string * FJsonValue).

(** ** String helpers of [FString] *)

Definition StartsWithSlash (s : string) : bool :=
  match s with
  | String c _ => Ascii.eqb c "/"
  | EmptyString => false
  end.

(** [PathCopy.RemoveAt(0, 1)] *)
Definition RemoveFirstChar (s : string) : string :=
  match s with
  | String _ r => r
  | EmptyString => EmptyString
  end.

(** [ParseIntoArray(Parts, TEXT("/"))] with its default [InCullEmpty = true]:
    the pieces between slashes, empty pieces dropped.  [cur] is the piece
    being read, reversed. *)
Fixpoint ParseIntoArray_go (s : string) (cur : list ascii) : list string :=
  let flush (rest : list string) :=
    match cur with
    | [] => rest
    | _ => string_of_list_ascii (rev cur) :: rest
    end in
  match s with
  | EmptyString => flush []
  | String c r =>
      if Ascii.eqb c "/" then flush (ParseIntoArray_go r [])
      else ParseIntoArray_go r (c :: cur)
  end.

Definition ParseIntoArray (s : string) : list string := ParseIntoArray_go s [].

(** [Part.ReplaceInline(From, To)] for a two-character [From]: every
    occurrence, left to right. *)
Fixpoint ReplaceInline2 (a b : ascii) (To : string) (s : string) : string :=
  match s with
  | EmptyString => EmptyString
  | String x r =>
      match r with
      | String y r' =>
          if Ascii.eqb x a && Ascii.eqb y b
          then (To ++ ReplaceInline2 a b To r')%string
          else String x (ReplaceInline2 a b To r)
      | EmptyString => String x EmptyString
      end
  end.

(** The two [ReplaceInline] calls of [GetValueAtPath], in the order of the
    source. *)
Definition UnescapePart (Part : string) : string :=
  ReplaceInline2 "~" "0" "~" (ReplaceInline2 "~" "1" "/" Part).

(** ** The data shapes of [JsonCRDTTypes.h] and [JsonCRDTConflictResolver.h]

    Each struct is a record in a module of its own name, so that fields
    keep the names of the source.  [FDateTime] is its tick count. *)

Module EJsonCRDTOperationType.
Inductive t : Set := Add | Remove | Replace | Move | Copy | Test.

Definition eqb (a b : t) : bool :=
  match a, b with
  | Add, Add | Remove, Remove | Replace, Replace
  | Move, Move | Copy, Copy | Test, Test => true
  | _, _ => false
  end.
End EJsonCRDTOperationType.

Module FJsonCRDTOperation.
Record t : Type := Build {
  Type_ : EJsonCRDTOperationType.t;
  Path : string;
  FromPath : string;
  Value : string;
  Timestamp : Z;
  ClientID : string
}.

(** The default constructor: [Type(Add)], [Timestamp(FDateTime::UtcNow())]. *)
Definition Default (now : Z) : t :=
  Build EJsonCRDTOperationType.Add "" "" "" now "".

Definition SetValue (v : string) (op : t) : t :=
  Build (Type_ op) (Path op) (FromPath op) v (Timestamp op) (ClientID op).
End FJsonCRDTOperation.

Module FJsonCRDTPatch.
Record t : Type := Build {
  DocumentID : string;
  BaseVersion : Z;
  Operations : list FJsonCRDTOperation.t;
  Timestamp : Z;
  ClientID : string
}.
End FJsonCRDTPatch.

Module FJsonCRDTSnapshot.
Record t : Type := Build {
  DocumentID : string;
  Version : Z;
  Timestamp : Z;
  Content : string
}.
End FJsonCRDTSnapshot.

Module FJsonCRDTConflict.
Record t : Type := Build {
  Path : string;
  LocalValue : string;
  RemoteValue : string;
  LocalOperation : FJsonCRDTOperation.t;
  RemoteOperation : FJsonCRDTOperation.t;
  ResolvedValue : string;
  bResolved : bool
}.

Definition Default (now : Z) : t :=
  Build "" "" "" (FJsonCRDTOperation.Default now) (FJsonCRDTOperation.Default now)
        "" false.

(** [Conflict.ResolvedValue = v; Conflict.bResolved = true;] *)
Definition Resolve (v : string) (c : t) : t :=
  Build (Path c) (LocalValue c) (RemoteValue c) (LocalOperation c)
        (RemoteOperation c) v true.
End FJsonCRDTConflict.

Module EJsonCRDTConflictStrategy.
Inductive t : Set := LastWriterWins | LocalWins | RemoteWins | Custom.

Definition eqb (a b : t) : bool :=
  match a, b with
  | LastWriterWins, LastWriterWins | LocalWins, LocalWins
  | RemoteWins, RemoteWins | Custom, Custom => true
  | _, _ => false
  end.
End EJsonCRDTConflictStrategy.

(** ** The default conflict resolver
    ([JsonCRDTDefaultConflictResolver.cpp])

    [ResolveConflict] takes the conflict by reference and returns a flag:
    here it returns the flag and the conflict as it leaves it. *)
Module FJsonCRDTDefaultConflictResolver.
Import FJsonCRDTConflict.

Definition ResolveLastWriterWins (Conflict : FJsonCRDTConflict.t)
  : bool * FJsonCRDTConflict.t :=
  if FJsonCRDTOperation.Timestamp (LocalOperation Conflict)
     >? FJsonCRDTOperation.Timestamp (RemoteOperation Conflict)
  then (true, Resolve (LocalValue Conflict) Conflict)
  else (true, Resolve (RemoteValue Conflict) Conflict).

Definition ResolveLocalWins (Conflict : FJsonCRDTConflict.t)
  : bool * FJsonCRDTConflict.t :=
  (true, Resolve (LocalValue Conflict) Conflict).

Definition ResolveRemoteWins (Conflict : FJsonCRDTConflict.t)
  : bool * FJsonCRDTConflict.t :=
  (true, Resolve (RemoteValue Conflict) Conflict).

Definition ResolveConflict (Strategy : EJsonCRDTConflictStrategy.t)
  (Conflict : FJsonCRDTConflict.t) : bool * FJsonCRDTConflict.t :=
  match Strategy with
  | EJsonCRDTConflictStrategy.LastWriterWins => ResolveLastWriterWins Conflict
  | EJsonCRDTConflictStrategy.LocalWins => ResolveLocalWins Conflict
  | EJsonCRDTConflictStrategy.RemoteWins => ResolveRemoteWins Conflict
  | EJsonCRDTConflictStrategy.Custom => (false, Conflict)
  end.
End FJsonCRDTDefaultConflictResolver.

(** [IJsonCRDTConflictResolver]: the default resolver with its strategy, or
    a resolver of the host, given by what its two methods return. *)
Inductive IJsonCRDTConflictResolver : Type :=
| DefaultConflictResolver (Strategy : EJsonCRDTConflictStrategy.t)
| HostConflictResolver
    (Resolve : FJsonCRDTConflict.t -> bool * FJsonCRDTConflict.t)
    (Strategy : EJsonCRDTConflictStrategy.t).

Definition Resolver_ResolveConflict (r : IJsonCRDTConflictResolver)
  (Conflict : FJsonCRDTConflict.t) : bool * FJsonCRDTConflict.t :=
  match r with
  | DefaultConflictResolver Strategy =>
      FJsonCRDTDefaultConflictResolver.ResolveConflict Strategy Conflict
  | HostConflictResolver Resolve _ => Resolve Conflict
  end.

Definition Resolver_GetStrategy (r : IJsonCRDTConflictResolver)
  : EJsonCRDTConflictStrategy.t :=
  match r with
  | DefaultConflictResolver Strategy => Strategy
  | HostConflictResolver _ Strategy => Strategy
  end.

(** ** Log entries and the default logger ([JsonCRDTLogger.h],
    [JsonCRDTDefaultLogger.cpp]) *)

Module FJsonCRDTLogEntry.
Record t : Type := Build {
  LogID : string;
  DocumentID : string;
  OperationType : string;
  Path : string;
  OldValue : string;
  NewValue : string;
  Timestamp : Z;
  bHadConflict : bool;
  Conflict : FJsonCRDTConflict.t;
  ClientID : string;
  Source : string
}.
End FJsonCRDTLogEntry.

Module FJsonCRDTDefaultLogger.
Record t : Type := Build {
  LogEntries : list FJsonCRDTLogEntry.t;
  MaxLogEntries : Z;
  bLoggingEnabled : bool
}.

(** The constructor, with its default [InMaxLogEntries = 1000]. *)
Definition New : t := Build [] 1000 true.

Definition IsLoggingEnabled (l : t) : bool := bLoggingEnabled l.

Definition SetLoggingEnabled (bEnable : bool) (l : t) : t :=
  Build (LogEntries l) (MaxLogEntries l) bEnable.

Definition LogOperation (LogEntry : FJsonCRDTLogEntry.t) (l : t) : t :=
  if negb (bLoggingEnabled l) then l
  else
    let added := LogEntries l ++ [LogEntry] in
    let kept := if Num added >? MaxLogEntries l then tl added else added in
    Build kept (MaxLogEntries l) (bLoggingEnabled l).
End FJsonCRDTDefaultLogger.

(** ** The document ([JsonCRDTDocument.h])

    [ConflictResolver] and [Logger] are shared pointers and may be null.
    [SyncManager] and [PendingOperations] are never written by the code
    below and are left out. *)
Module UJsonCRDTDocument.
Record t : Type := Build {
  DocumentID : string;
  Version : Z;
  Content : FJsonObject;
  OperationHistory : list FJsonCRDTOperation.t;
  SnapshotHistory : list FJsonCRDTSnapshot.t;
  MaxOperationHistory : Z;
  MaxSnapshotHistory : Z;
  bAutoLocalSave : bool;
  LastErrorMessage : string;
  ConflictStrategy : EJsonCRDTConflictStrategy.t;
  ConflictResolver : option IJsonCRDTConflictResolver;
  Logger : option FJsonCRDTDefaultLogger.t
}.

(** The constructor. *)
Definition New : t :=
  Build "" 1 [] [] [] 100 10 false ""
        EJsonCRDTConflictStrategy.LastWriterWins
        (Some (DefaultConflictResolver EJsonCRDTConflictStrategy.LastWriterWins))
        (Some FJsonCRDTDefaultLogger.New).
End UJsonCRDTDocument.

(** ** The world around a document

    The platform file system, the clock, the GUID source, and the calls the
    document makes outwards, oldest first: delegate broadcasts and calls of
    [Logger->LogOperation].  [OperationApplied] records a call of
    [ApplyOperation].  Handlers of the delegates only observe.  [UtcNow] is
    what [FDateTime::UtcNow()] gives to the call at hand: no method sets it,
    and it stands for one reading of the clock, not for a clock that is
    held still between calls. *)
Inductive FileEntry : Type :=
| NoFile
| Unreadable
| FileText (text : string).

Inductive Event : Type :=
| DocumentChanged (DocumentID : string)
| ConflictDetected (Conflict : FJsonCRDTConflict.t)
| DocumentRecovered (DocumentID RecoverySource : string)
| LoggerLogOperation (LogEntry : FJsonCRDTLogEntry.t)
| OperationApplied (Operation : FJsonCRDTOperation.t).

Record World : Type := BuildWorld {
  Files : string -> FileEntry;
  Directories : string -> bool;
  CreatableDirectory : string -> bool;
  WritableFile : string -> bool;
  UtcNow : Z;
  GuidsDrawn : nat;
  Events : list Event
}.

Record State : Type := BuildState {
  self : UJsonCRDTDocument.t;
  world : World
}.

(** *** Field updates *)

Import UJsonCRDTDocument.

Definition SetDoc (f : UJsonCRDTDocument.t -> UJsonCRDTDocument.t) (s : State)
  : State :=
  BuildState (f (self s)) (world s).

Definition SetWorld (f : World -> World) (s : State) : State :=
  BuildState (self s) (f (world s)).

Definition set_DocumentID (v : string) (d : UJsonCRDTDocument.t) :=
  Build v (Version d) (Content d) (OperationHistory d) (SnapshotHistory d)
        (MaxOperationHistory d) (MaxSnapshotHistory d) (bAutoLocalSave d)
        (LastErrorMessage d) (ConflictStrategy d) (ConflictResolver d) (Logger d).

Definition set_Version (v : Z) (d : UJsonCRDTDocument.t) :=
  Build (DocumentID d) v (Content d) (OperationHistory d) (SnapshotHistory d)
        (MaxOperationHistory d) (MaxSnapshotHistory d) (bAutoLocalSave d)
        (LastErrorMessage d) (ConflictStrategy d) (ConflictResolver d) (Logger d).

Definition set_Content (v : FJsonObject) (d : UJsonCRDTDocument.t) :=
  Build (DocumentID d) (Version d) v (OperationHistory d) (SnapshotHistory d)
        (MaxOperationHistory d) (MaxSnapshotHistory d) (bAutoLocalSave d)
        (LastErrorMessage d) (ConflictStrategy d) (ConflictResolver d) (Logger d).

Definition set_OperationHistory (v : list FJsonCRDTOperation.t)
  (d : UJsonCRDTDocument.t) :=
  Build (DocumentID d) (Version d) (Content d) v (SnapshotHistory d)
        (MaxOperationHistory d) (MaxSnapshotHistory d) (bAutoLocalSave d)
        (LastErrorMessage d) (ConflictStrategy d) (ConflictResolver d) (Logger d).

Definition set_SnapshotHistory (v : list FJsonCRDTSnapshot.t)
  (d : UJsonCRDTDocument.t) :=
  Build (DocumentID d) (Version d) (Content d) (OperationHistory d) v
        (MaxOperationHistory d) (MaxSnapshotHistory d) (bAutoLocalSave d)
        (LastErrorMessage d) (ConflictStrategy d) (ConflictResolver d) (Logger d).

Definition set_bAutoLocalSave (v : bool) (d : UJsonCRDTDocument.t) :=
  Build (DocumentID d) (Version d) (Content d) (OperationHistory d)
        (SnapshotHistory d) (MaxOperationHistory d) (MaxSnapshotHistory d) v
        (LastErrorMessage d) (ConflictStrategy d) (ConflictResolver d) (Logger d).

Definition set_LastErrorMessage (v : string) (d : UJsonCRDTDocument.t) :=
  Build (DocumentID d) (Version d) (Content d) (OperationHistory d)
        (SnapshotHistory d) (MaxOperationHistory d) (MaxSnapshotHistory d)
        (bAutoLocalSave d) v (ConflictStrategy d) (ConflictResolver d) (Logger d).

Definition set_ConflictStrategy (v : EJsonCRDTConflictStrategy.t)
  (d : UJsonCRDTDocument.t) :=
  Build (DocumentID d) (Version d) (Content d) (OperationHistory d)
        (SnapshotHistory d) (MaxOperationHistory d) (MaxSnapshotHistory d)
        (bAutoLocalSave d) (LastErrorMessage d) v (ConflictResolver d) (Logger d).

Definition set_ConflictResolver (v : option IJsonCRDTConflictResolver)
  (d : UJsonCRDTDocument.t) :=
  Build (DocumentID d) (Version d) (Content d) (OperationHistory d)
        (SnapshotHistory d) (MaxOperationHistory d) (MaxSnapshotHistory d)
        (bAutoLocalSave d) (LastErrorMessage d) (ConflictStrategy d) v (Logger d).

Definition set_Logger (v : option FJsonCRDTDefaultLogger.t)
  (d : UJsonCRDTDocument.t) :=
  Build (DocumentID d) (Version d) (Content d) (OperationHistory d)
        (SnapshotHistory d) (MaxOperationHistory d) (MaxSnapshotHistory d)
        (bAutoLocalSave d) (LastErrorMessage d) (ConflictStrategy d)
        (ConflictResolver d) v.

Definition set_Files (v : string -> FileEntry) (w : World) :=
  BuildWorld v (Directories w) (CreatableDirectory w) (WritableFile w)
             (UtcNow w) (GuidsDrawn w) (Events w).

Definition set_Directories (v : string -> bool) (w : World) :=
  BuildWorld (Files w) v (CreatableDirectory w) (WritableFile w)
             (UtcNow w) (GuidsDrawn w) (Events w).

Definition set_GuidsDrawn (v : nat) (w : World) :=
  BuildWorld (Files w) (Directories w) (CreatableDirectory w) (WritableFile w)
             (UtcNow w) v (Events w).

Definition set_Events (v : list Event) (w : World) :=
  BuildWorld (Files w) (Directories w) (CreatableDirectory w) (WritableFile w)
             (UtcNow w) (GuidsDrawn w) v.

(** A delegate's [Broadcast], or a call outwards, joins the events. *)
Definition Emit (e : Event) (s : State) : State :=
  SetWorld (fun w => set_Events (Events w ++ [e]) w) s.

(** *** The platform file ([IPlatformFile], [FFileHelper], [FPaths]) *)

Definition IsSlash (c : ascii) : bool := Ascii.eqb c "/" || Ascii.eqb c "\".

Fixpoint EndsWithSlash (s : string) : bool :=
  match s with
  | EmptyString => false
  | String c EmptyString => IsSlash c
  | String _ r => EndsWithSlash r
  end.

Fixpoint HasSlash (s : string) : bool :=
  match s with
  | EmptyString => false
  | String c r => IsSlash c || HasSlash r
  end.

(** [FString::operator/]: a separator joins the two unless one is there. *)
Definition PathAppend (a b : string) : string :=
  match b with
  | EmptyString =>
      if negb (String.eqb a "") && negb (EndsWithSlash a)
      then (a ++ "/")%string else a
  | _ =>
      if negb (String.eqb a "") && negb (EndsWithSlash a)
         && negb (StartsWithSlash b)
      then (a ++ "/" ++ b)%string else (a ++ b)%string
  end.

(** [FPaths::GetPath]: what stands before the last slash. *)
Fixpoint GetPath (s : string) : string :=
  match s with
  | EmptyString => EmptyString
  | String c r => if HasSlash r then String c (GetPath r) else EmptyString
  end.

Definition FileExists (w : World) (p : string) : bool :=
  match Files w p with NoFile => false | _ => true end.

Definition LoadFileToString (w : World) (p : string) : option string :=
  match Files w p with FileText text => Some text | _ => None end.

Definition CreateDirectoryTree (p : string) (w : World) : bool * World :=
  if CreatableDirectory w p
  then (true, set_Directories
                (fun q => if String.eqb q p then true else Directories w q) w)
  else (false, w).

Definition SaveStringToFile (text p : string) (w : World) : bool * World :=
  if WritableFile w p
  then (true, set_Files
                (fun q => if String.eqb q p then FileText text else Files w q) w)
  else (false, w).

(** [TArray::Last()], when there is one. *)
Definition Last {A : Type} (l : list A) : option A :=
  nth_error l (List.length l - 1)%nat.

(** ** What the code asks of Unreal Engine

    The string comparison of [FString], [FCString::Atoi], the JSON writer
    and reader, the date conversions, the GUID source and the project
    directory are the engine's, not this plugin's; the development is
    parametric in them. *)
Class UnrealEngine : Type := {
  (** [FString::operator==] *)
  FString_eq : string -> string -> bool;
  (** [FCString::Atoi], an [int32] *)
  Atoi : string -> Z;
  (** [FJsonSerializer::Serialize]: the success flag and the text written *)
  Serialize : FJsonValue -> bool * string;
  (** [FJsonSerializer::Deserialize] into a [TSharedPtr<FJsonObject>] *)
  Deserialize : string -> option FJsonObject;
  (** [FJsonValue::TryGetString] and [FJsonValue::TryGetNumber] into an
      [int64]: what a value gives when it is asked for a text or for a
      number, whatever its type *)
  TryGetString : FJsonValue -> option string;
  TryGetNumber : FJsonValue -> option Z;
  (** [FDateTime::ToString] and [FDateTime::Parse], on ticks *)
  DateTimeToString : Z -> string;
  DateTimeParse : string -> option Z;
  (** [FGuid::NewGuid().ToString()], by the number of GUIDs drawn so far *)
  GuidToString : nat -> string;
  (** [FPaths::ProjectSavedDir()] *)
  ProjectSavedDir : string
}.

Section Engine.
Context {UE : UnrealEngine}.

Definition FString_ne (a b : string) : bool := negb (FString_eq a b).

(** ** [FJsonObject] accessors *)

Fixpoint FindField (o : FJsonObject) (FieldName : string) : option FJsonValue :=
  match o with
  | [] => None
  | (k, v) :: r => if FString_eq k FieldName then Some v else FindField r FieldName
  end.

Definition HasField (o : FJsonObject) (FieldName : string) : bool :=
  match FindField o FieldName with Some _ => true | None => false end.

(** [GetField<EJson::None>]: the field, or a null value when it is absent. *)
Definition GetField (o : FJsonObject) (FieldName : string) : FJsonValue :=
  match FindField o FieldName with Some v => v | None => FJsonValueNull end.

(** The field, when there is one, is asked for a text by the engine's
    [TryGetString]. *)
Definition TryGetStringField (o : FJsonObject) (FieldName : string) : option string :=
  match FindField o FieldName with
  | Some v => TryGetString v
  | None => None
  end.

(** The [int64] overload: the field is asked by the engine's
    [TryGetNumber]. *)
Definition TryGetNumberField (o : FJsonObject) (FieldName : string) : option Z :=
  match FindField o FieldName with
  | Some v => TryGetNumber v
  | None => None
  end.

Definition TryGetObjectField (o : FJsonObject) (FieldName : string) : option FJsonObject :=
  match FindField o FieldName with
  | Some (FJsonValueObject f) => Some f
  | _ => None
  end.

(** ** Path resolver: [UJsonCRDTDocument::GetValueAtPath] *)

(** The body of the [for] loop over [PathParts]; [rest] is what follows the
    current part, so [i < PathParts.Num() - 1] reads [rest <> []]. *)
Fixpoint WalkPath (CurrentValue : FJsonValue) (PathParts : list string)
  : option FJsonValue :=
  match PathParts with
  | [] => Some CurrentValue
  | Part :: rest =>
      let Part := UnescapePart Part in
      match CurrentValue with
      | FJsonValueObject CurrentObject =>
          if negb (HasField CurrentObject Part) then None
          else WalkPath (GetField CurrentObject Part) rest
      | FJsonValueArray Array =>
          let Index := Atoi Part in
          if (Index <? 0) || (Index >=? Num Array) then None
          else match nth_error Array (Z.to_nat Index) with
               | Some v => WalkPath v rest
               | None => None
               end
      | _ =>
          match rest with
          | _ :: _ => None
          | [] => WalkPath CurrentValue rest
          end
      end
  end.

(** The parts of a path: the leading slash removed, then split. *)
Definition PathPartsOf (Path : string) : list string :=
  let PathCopy := if StartsWithSlash Path then RemoveFirstChar Path else Path in
  ParseIntoArray PathCopy.

Definition GetValueAtPath (JsonObject : option FJsonObject) (Path : string)
  : option FJsonValue :=
  match JsonObject with
  | None => None
  | Some root =>
      if String.eqb Path "" then None
      else
        let PathParts := PathPartsOf Path in
        match PathParts with
        | [] => Some (FJsonValueObject root)
        | _ => WalkPath (FJsonValueObject root) PathParts
        end
  end.

(** ** The document's methods ([JsonCRDTDocument.cpp])

    A method that returns [bool] returns the flag and the state it leaves;
    a [void] method returns the state. *)

Definition GetContentAsString (s : State) : string :=
  snd (Serialize (FJsonValueObject (Content (self s)))).

Definition CreateSnapshot (s : State) : FJsonCRDTSnapshot.t :=
  FJsonCRDTSnapshot.Build (DocumentID (self s)) (Version (self s))
    (UtcNow (world s)) (GetContentAsString s).

(** [SnapshotHistory.Add(Snapshot)], then
    [RemoveAt(0, Num() - MaxSnapshotHistory)] when over the maximum. *)
Definition CreateAndAddSnapshot (s : State) : State :=
  let Snapshot := CreateSnapshot s in
  SetDoc (fun d =>
    let added := SnapshotHistory d ++ [Snapshot] in
    set_SnapshotHistory
      (if Num added >? MaxSnapshotHistory d
       then skipn (Z.to_nat (Num added - MaxSnapshotHistory d)) added
       else added) d) s.

Definition SetLastErrorMessage (ErrorMessage : string) (s : State) : State :=
  SetDoc (set_LastErrorMessage ErrorMessage) s.

Definition GetLocalStoragePath (s : State) : string :=
  (PathAppend (PathAppend ProjectSavedDir "JsonCRDT") (DocumentID (self s))
   ++ ".json")%string.

(** The record [SaveLocally] writes.  [SetNumberField] takes a [double]:
    the two versions are converted. *)
Definition SaveData (s : State) : FJsonObject :=
  [ ("documentId", FJsonValueString (DocumentID (self s)));
    ("version", FJsonValueNumber (Int64ToDouble (Version (self s))));
    ("timestamp", FJsonValueString (DateTimeToString (UtcNow (world s))));
    ("content", FJsonValueObject (Content (self s))) ]
  ++ match Last (SnapshotHistory (self s)) with
     | Some snap =>
         [ ("latestSnapshot", FJsonValueObject
              [ ("documentId", FJsonValueString (FJsonCRDTSnapshot.DocumentID snap));
                ("version", FJsonValueNumber
                   (Int64ToDouble (FJsonCRDTSnapshot.Version snap)));
                ("timestamp", FJsonValueString
                   (DateTimeToString (FJsonCRDTSnapshot.Timestamp snap)));
                ("content", FJsonValueString (FJsonCRDTSnapshot.Content snap)) ]) ]
     | None => []
     end.

Definition SaveLocally (s : State) : bool * State :=
  let FilePath := GetLocalStoragePath s in
  let DirectoryPath := GetPath FilePath in
  let '(bDirectory, w) :=
    if Directories (world s) DirectoryPath then (true, world s)
    else CreateDirectoryTree DirectoryPath (world s) in
  if negb bDirectory then
    (false, SetLastErrorMessage
              ("Failed to create directory: " ++ DirectoryPath)%string s)
  else
    let s := BuildState (self s) w in
    let '(bSerialized, SaveString) := Serialize (FJsonValueObject (SaveData s)) in
    if negb bSerialized then
      (false, SetLastErrorMessage "Failed to serialize document data" s)
    else
      let '(bSaved, w) := SaveStringToFile SaveString FilePath (world s) in
      if negb bSaved then
        (false, SetLastErrorMessage
                  ("Failed to save document to file: " ++ FilePath)%string s)
      else (true, BuildState (self s) w).

Definition NotifyDocumentChanged (s : State) : State :=
  let s := Emit (DocumentChanged (DocumentID (self s))) s in
  if bAutoLocalSave (self s) then snd (SaveLocally s) else s.

Definition Initialize (InDocumentID : string) (s : State) : State :=
  CreateAndAddSnapshot (SetDoc (set_DocumentID InDocumentID) s).

(** [Version++] *)
Definition IncrementVersion (s : State) : State :=
  SetDoc (fun d => set_Version (wrap64 (Version d + 1)) d) s.

Definition SetContent (JsonObject : option FJsonObject) (s : State)
  : bool * State :=
  match JsonObject with
  | None => (false, s)
  | Some o =>
      let s := SetDoc (set_Content o) s in
      let s := IncrementVersion s in
      let s := CreateAndAddSnapshot s in
      let s := NotifyDocumentChanged s in
      (true, s)
  end.

Definition SetContentFromString (JsonString : string) (s : State)
  : bool * State :=
  match Deserialize JsonString with
  | Some o => SetContent (Some o) s
  | None => (false, s)
  end.

(** Every case of the [switch] is empty; the call is recorded. *)
Definition ApplyOperation (Operation : FJsonCRDTOperation.t) (s : State)
  : State :=
  match FJsonCRDTOperation.Type_ Operation with
  | EJsonCRDTOperationType.Add
  | EJsonCRDTOperationType.Remove
  | EJsonCRDTOperationType.Replace
  | EJsonCRDTOperationType.Move
  | EJsonCRDTOperationType.Copy
  | EJsonCRDTOperationType.Test => Emit (OperationApplied Operation) s
  end.

(** [UJsonCRDTDocument::ResolveConflict]: a missing resolver is replaced by
    a default one with the document's strategy, then asked. *)
Definition ResolveConflict (Conflict : FJsonCRDTConflict.t) (s : State)
  : bool * FJsonCRDTConflict.t * State :=
  let r := match ConflictResolver (self s) with
           | Some r => r
           | None => DefaultConflictResolver (ConflictStrategy (self s))
           end in
  let s := SetDoc (set_ConflictResolver (Some r)) s in
  let '(b, Conflict) := Resolver_ResolveConflict r Conflict in
  (b, Conflict, s).

Definition OperationTypeName (ty : EJsonCRDTOperationType.t) : string :=
  match ty with
  | EJsonCRDTOperationType.Add => "Add"
  | EJsonCRDTOperationType.Remove => "Remove"
  | EJsonCRDTOperationType.Replace => "Replace"
  | EJsonCRDTOperationType.Move => "Move"
  | EJsonCRDTOperationType.Copy => "Copy"
  | EJsonCRDTOperationType.Test => "Test"
  end.

(** The entry [UJsonCRDTDocument::LogOperation] builds. *)
Definition MakeLogEntry (Operation : FJsonCRDTOperation.t)
  (OldValue NewValue : string) (bHadConflict : bool)
  (Conflict : FJsonCRDTConflict.t) (s : State) : FJsonCRDTLogEntry.t :=
  FJsonCRDTLogEntry.Build
    (GuidToString (GuidsDrawn (world s)))
    (DocumentID (self s))
    (OperationTypeName (FJsonCRDTOperation.Type_ Operation))
    (FJsonCRDTOperation.Path Operation)
    OldValue NewValue
    (UtcNow (world s))
    bHadConflict
    (if bHadConflict then Conflict
     else FJsonCRDTConflict.Default (UtcNow (world s)))
    (FJsonCRDTOperation.ClientID Operation)
    "Remote".

Definition LogOperation (Operation : FJsonCRDTOperation.t)
  (OldValue NewValue : string) (bHadConflict : bool)
  (Conflict : FJsonCRDTConflict.t) (s : State) : State :=
  match Logger (self s) with
  | None => s
  | Some L =>
      if negb (FJsonCRDTDefaultLogger.IsLoggingEnabled L) then s
      else
        let LogEntry :=
          MakeLogEntry Operation OldValue NewValue bHadConflict Conflict s in
        let s := SetWorld (fun w => set_GuidsDrawn (S (GuidsDrawn w)) w) s in
        let s := Emit (LoggerLogOperation LogEntry) s in
        SetDoc (set_Logger (Some (FJsonCRDTDefaultLogger.LogOperation LogEntry L))) s
  end.

(** [OperationHistory.Add(Op); if (Num() > MaxOperationHistory) RemoveAt(0);] *)
Definition PushHistory (Max : Z) (History : list FJsonCRDTOperation.t)
  (Op : FJsonCRDTOperation.t) : list FJsonCRDTOperation.t :=
  let added := History ++ [Op] in
  if Num added >? Max then tl added else added.

Definition AddToOperationHistory (Op : FJsonCRDTOperation.t) (s : State)
  : State :=
  SetDoc (fun d =>
    set_OperationHistory
      (PushHistory (MaxOperationHistory d) (OperationHistory d) Op) d) s.

(** The value logged as the old one. *)
Definition OldValueOf (Operation : FJsonCRDTOperation.t) (s : State) : string :=
  match FJsonCRDTOperation.Type_ Operation with
  | EJsonCRDTOperationType.Replace
  | EJsonCRDTOperationType.Remove
  | EJsonCRDTOperationType.Test =>
      match GetValueAtPath (Some (Content (self s)))
                           (FJsonCRDTOperation.Path Operation) with
      | Some CurrentValue => snd (Serialize CurrentValue)
      | None => ""
      end
  | _ => ""
  end.

(** The five assignments that fill [Conflict] when a local operation
    collides with the incoming one; the other two fields stay. *)
Definition FillConflict (LocalOperation Operation : FJsonCRDTOperation.t)
  (Conflict : FJsonCRDTConflict.t) : FJsonCRDTConflict.t :=
  FJsonCRDTConflict.Build
    (FJsonCRDTOperation.Path Operation)
    (FJsonCRDTOperation.Value LocalOperation)
    (FJsonCRDTOperation.Value Operation)
    LocalOperation Operation
    (FJsonCRDTConflict.ResolvedValue Conflict)
    (FJsonCRDTConflict.bResolved Conflict).

(** The test of the inner loop: same path, a [Replace], another value. *)
Definition Collides (LocalOperation Operation : FJsonCRDTOperation.t) : bool :=
  FString_eq (FJsonCRDTOperation.Path LocalOperation)
             (FJsonCRDTOperation.Path Operation)
  && EJsonCRDTOperationType.eqb
       (FJsonCRDTOperation.Type_ LocalOperation)
       EJsonCRDTOperationType.Replace
  && FString_ne (FJsonCRDTOperation.Value LocalOperation)
                (FJsonCRDTOperation.Value Operation).

(** The inner loop of [ApplyPatch],
    [for (i = OperationHistory.Num() - 1; i >= 0; --i)]: [n] is [i + 1].
    [OperationHistory] is read afresh at each index, as the loop body adds
    to it and removes from it.  The [continue] of the source sits in this
    loop and goes on to index [i - 1]. *)
Fixpoint ScanHistory (n : nat) (Operation : FJsonCRDTOperation.t)
  (OldValue : string) (bHadConflict : bool) (Conflict : FJsonCRDTConflict.t)
  (s : State) : bool * FJsonCRDTConflict.t * State :=
  match n with
  | O => (bHadConflict, Conflict, s)
  | S i =>
      match nth_error (OperationHistory (self s)) i with
      | None => (bHadConflict, Conflict, s)
      | Some LocalOperation =>
          if Collides LocalOperation Operation then
            let Conflict := FillConflict LocalOperation Operation Conflict in
            let '(bResolvedNow, Conflict, s) := ResolveConflict Conflict s in
            if bResolvedNow then
              let ResolvedOperation :=
                FJsonCRDTOperation.SetValue
                  (FJsonCRDTConflict.ResolvedValue Conflict) Operation in
              let s := ApplyOperation ResolvedOperation s in
              let s := Emit (ConflictDetected Conflict) s in
              let s := LogOperation ResolvedOperation OldValue
                         (FJsonCRDTConflict.ResolvedValue Conflict)
                         true Conflict s in
              let s := AddToOperationHistory ResolvedOperation s in
              ScanHistory i Operation OldValue true Conflict s
            else ScanHistory i Operation OldValue true Conflict s
          else ScanHistory i Operation OldValue bHadConflict Conflict s
      end
  end.

(** The block under [if (!bHadConflict)]: the operation as it came is
    applied, logged without a conflict, and added to the history. *)
Definition ApplyVerbatim (OldValue : string) (Operation : FJsonCRDTOperation.t)
  (s : State) : State :=
  let NewValue := FJsonCRDTOperation.Value Operation in
  let s := ApplyOperation Operation s in
  let s := LogOperation Operation OldValue NewValue false
             (FJsonCRDTConflict.Default (UtcNow (world s))) s in
  AddToOperationHistory Operation s.

(** The body of the outer loop of [ApplyPatch], for one operation. *)
Definition ProcessOperation (s : State) (Operation : FJsonCRDTOperation.t)
  : State :=
  let OldValue := OldValueOf Operation s in
  let '(bHadConflict, _, s) :=
    if EJsonCRDTOperationType.eqb (FJsonCRDTOperation.Type_ Operation)
         EJsonCRDTOperationType.Replace
    then ScanHistory (List.length (OperationHistory (self s))) Operation
           OldValue false (FJsonCRDTConflict.Default (UtcNow (world s))) s
    else (false, FJsonCRDTConflict.Default (UtcNow (world s)), s) in
  if negb bHadConflict then ApplyVerbatim OldValue Operation s else s.

Definition ApplyPatch (Patch : FJsonCRDTPatch.t) (s : State) : bool * State :=
  if FString_ne (FJsonCRDTPatch.DocumentID Patch) (DocumentID (self s))
  then (false, s)
  else
    let s := fold_left ProcessOperation (FJsonCRDTPatch.Operations Patch) s in
    let s := IncrementVersion s in
    let s := CreateAndAddSnapshot s in
    let s := NotifyDocumentChanged s in
    (true, s).

(** [RestoreFromSnapshot] takes its snapshot by reference.  The reference
    is to an object of the caller, or, in [RecoverDocument], to the last
    slot of [SnapshotHistory]: such a reference is read again after the
    array has changed, and gives what the slot then holds (what it held
    when bound, once the slot lies beyond the end of the array). *)
Inductive SnapshotRef : Type :=
| CallerSnapshot (Snapshot : FJsonCRDTSnapshot.t)
| HistorySlot (i : nat) (bound : FJsonCRDTSnapshot.t).

Definition ReadSnapshot (r : SnapshotRef) (s : State) : FJsonCRDTSnapshot.t :=
  match r with
  | CallerSnapshot Snapshot => Snapshot
  | HistorySlot i bound => nth i (SnapshotHistory (self s)) bound
  end.

Definition RestoreFromSnapshotRef (r : SnapshotRef) (s : State)
  : bool * State :=
  if FString_ne (FJsonCRDTSnapshot.DocumentID (ReadSnapshot r s))
                (DocumentID (self s))
  then (false, s)
  else
    let '(bSet, s) :=
      SetContentFromString (FJsonCRDTSnapshot.Content (ReadSnapshot r s)) s in
    if negb bSet then (false, s)
    else
      let s := SetDoc (set_Version
                         (FJsonCRDTSnapshot.Version (ReadSnapshot r s))) s in
      let s := NotifyDocumentChanged s in
      (true, s).

(** The method as a caller reaches it, with a snapshot of its own. *)
Definition RestoreFromSnapshot (Snapshot : FJsonCRDTSnapshot.t) (s : State)
  : bool * State :=
  RestoreFromSnapshotRef (CallerSnapshot Snapshot) s.

(** The [latestSnapshot] part of [LoadFromLocal]. *)
Definition LoadLatestSnapshot (LoadData : FJsonObject) (s : State) : State :=
  match TryGetObjectField LoadData "latestSnapshot" with
  | None => s
  | Some SnapshotObject =>
      let SnapshotDocumentID :=
        match TryGetStringField SnapshotObject "documentId" with
        | Some id => id
        | None => ""
        end in
      if match TryGetStringField SnapshotObject "documentId" with
         | Some _ => false
         | None => true
         end || FString_ne SnapshotDocumentID (DocumentID (self s))
      then s
      else
        let SnapshotVersion :=
          match TryGetNumberField SnapshotObject "version" with
          | Some v => v
          | None => 0
          end in
        let SnapshotTimestamp :=
          match TryGetStringField SnapshotObject "timestamp" with
          | Some TimestampString =>
              match DateTimeParse TimestampString with
              | Some t => t
              | None => UtcNow (world s)
              end
          | None => UtcNow (world s)
          end in
        let SnapshotContent :=
          match TryGetStringField SnapshotObject "content" with
          | Some c => c
          | None => ""
          end in
        let Snapshot :=
          FJsonCRDTSnapshot.Build SnapshotDocumentID SnapshotVersion
            SnapshotTimestamp SnapshotContent in
        SetDoc (fun d => set_SnapshotHistory (SnapshotHistory d ++ [Snapshot]) d) s
  end.

Definition LoadFromLocal (s : State) : bool * State :=
  let FilePath := GetLocalStoragePath s in
  if negb (FileExists (world s) FilePath) then
    (false, SetLastErrorMessage
              ("Local file does not exist: " ++ FilePath)%string s)
  else
    match LoadFileToString (world s) FilePath with
    | None =>
        (false, SetLastErrorMessage
                  ("Failed to load document from file: " ++ FilePath)%string s)
    | Some LoadString =>
        match Deserialize LoadString with
        | None =>
            (false, SetLastErrorMessage "Failed to deserialize document data" s)
        | Some LoadData =>
            let LoadedDocumentID :=
              match TryGetStringField LoadData "documentId" with
              | Some id => id
              | None => ""
              end in
            if match TryGetStringField LoadData "documentId" with
               | Some _ => false
               | None => true
               end || FString_ne LoadedDocumentID (DocumentID (self s))
            then
              (false, SetLastErrorMessage
                        ("Document ID mismatch: " ++ LoadedDocumentID ++ " != "
                         ++ DocumentID (self s))%string s)
            else
              let s := match TryGetNumberField LoadData "version" with
                       | Some LoadedVersion => SetDoc (set_Version LoadedVersion) s
                       | None => s
                       end in
              match TryGetObjectField LoadData "content" with
              | None =>
                  (false, SetLastErrorMessage
                            "Failed to get content from loaded data" s)
              | Some ContentObject =>
                  let s := SetDoc (set_Content ContentObject) s in
                  let s := LoadLatestSnapshot LoadData s in
                  let s := NotifyDocumentChanged s in
                  (true, s)
              end
        end
    end.

Definition SetAutoLocalSave (bEnable : bool) (s : State) : State :=
  let s := SetDoc (set_bAutoLocalSave bEnable) s in
  if bAutoLocalSave (self s) then snd (SaveLocally s) else s.

Definition RecoverDocument (s : State) : bool * State :=
  let '(bLoaded, s) := LoadFromLocal s in
  if bLoaded then
    (true, Emit (DocumentRecovered (DocumentID (self s)) "LocalStorage") s)
  else
    let Failed (s : State) :=
      (false, SetLastErrorMessage "Failed to recover document from any source" s) in
    match Last (SnapshotHistory (self s)) with
    | Some newest =>
        let '(bRestored, s) :=
          RestoreFromSnapshotRef
            (HistorySlot (List.length (SnapshotHistory (self s)) - 1) newest) s in
        if bRestored then
          (true, Emit (DocumentRecovered (DocumentID (self s)) "Snapshot") s)
        else Failed s
    | None => Failed s
    end.

(** [SetConflictStrategy]: a default resolver takes the new strategy.  The
    source casts any resolver to the default one without a check; a
    resolver of the host is left as it is here. *)
Definition SetConflictStrategy (Strategy : EJsonCRDTConflictStrategy.t)
  (s : State) : State :=
  let s := SetDoc (set_ConflictStrategy Strategy) s in
  match ConflictResolver (self s) with
  | Some (DefaultConflictResolver old) =>
      if negb (EJsonCRDTConflictStrategy.eqb old Strategy)
      then SetDoc (set_ConflictResolver (Some (DefaultConflictResolver Strategy))) s
      else s
  | _ => s
  end.

Definition SetConflictResolver
  (InConflictResolver : option IJsonCRDTConflictResolver) (s : State) : State :=
  match InConflictResolver with
  | Some r =>
      let s := SetDoc (set_ConflictResolver (Some r)) s in
      SetDoc (set_ConflictStrategy (Resolver_GetStrategy r)) s
  | None => s
  end.

Definition SetLogger (InLogger : option FJsonCRDTDefaultLogger.t) (s : State)
  : State :=
  SetDoc (set_Logger InLogger) s.

Definition SetLoggingEnabled (bEnable : bool) (s : State) : State :=
  match Logger (self s) with
  | Some L =>
      SetDoc (set_Logger (Some (FJsonCRDTDefaultLogger.SetLoggingEnabled bEnable L))) s
  | None => s
  end.

End Engine.


(** ** A reference engine

    One engine to run the code on: case-insensitive string comparison, a
    decimal [Atoi], a compact JSON writer and a reader for what it writes,
    decimal dates and GUIDs.  The theorems below hold of every engine; the
    examples are run on this one. *)
Module Reference.
Local Open Scope string_scope.
Local Open Scope Z_scope.

Definition ToLower (c : ascii) : ascii :=
  let n := nat_of_ascii c in
  if (65 <=? n)%nat && (n <=? 90)%nat then ascii_of_nat (n + 32) else c.

Fixpoint ToLowerString (s : string) : string :=
  match s with
  | EmptyString => EmptyString
  | String c r => String (ToLower c) (ToLowerString r)
  end.

Definition Stricmp_eq (a b : string) : bool :=
  String.eqb (ToLowerString a) (ToLowerString b).

Definition DigitOf (c : ascii) : option Z :=
  let n := nat_of_ascii c in
  if (48 <=? n)%nat && (n <=? 57)%nat then Some (Z.of_nat (n - 48)) else None.

(** The digits at the head of [s], as a number, and what follows them. *)
Fixpoint ReadDigits (s : string) (acc : Z) : Z * string :=
  match s with
  | EmptyString => (acc, s)
  | String c r =>
      match DigitOf c with
      | Some d => ReadDigits r (10 * acc + d)
      | None => (acc, s)
      end
  end.

Definition IsSpace (c : ascii) : bool :=
  let n := nat_of_ascii c in
  (n =? 32)%nat || (n =? 9)%nat || (n =? 10)%nat || (n =? 13)%nat.

Fixpoint SkipSpace (s : string) : string :=
  match s with
  | EmptyString => s
  | String c r => if IsSpace c then SkipSpace r else s
  end.

Definition wrap32 (z : Z) : Z := (z + 2 ^ 31) mod 2 ^ 32 - 2 ^ 31.

Definition AtoiDecimal (s : string) : Z :=
  match SkipSpace s with
  | String "-" r => wrap32 (- fst (ReadDigits r 0))
  | String "+" r => wrap32 (fst (ReadDigits r 0))
  | r => wrap32 (fst (ReadDigits r 0))
  end.

Fixpoint DigitsOf (fuel : nat) (n : Z) (acc : string) : string :=
  match fuel with
  | O => acc
  | S fuel =>
      let acc := String (ascii_of_nat (48 + Z.to_nat (n mod 10))) acc in
      if n <? 10 then acc else DigitsOf fuel (n / 10) acc
  end.

Definition ZToString (n : Z) : string :=
  if n <? 0 then String "-" (DigitsOf (S (Z.to_nat (Z.log2 (- n)))) (- n) "")
  else DigitsOf (S (Z.to_nat (Z.log2 n))) n "".

Definition ReadZ (s : string) : option (Z * string) :=
  let signed (r : string) (k : Z -> Z) :=
    match r with
    | String c _ =>
        match DigitOf c with
        | Some _ => let '(n, rest) := ReadDigits r 0 in Some (k n, rest)
        | None => None
        end
    | EmptyString => None
    end in
  match s with
  | String "-" r => signed r Z.opp
  | _ => signed s (fun n => n)
  end.

Definition Quote : ascii := "034".
Definition Backslash : ascii := "\".

Fixpoint EscapeString (s : string) : string :=
  match s with
  | EmptyString => EmptyString
  | String c r =>
      if Ascii.eqb c Quote || Ascii.eqb c Backslash
      then String Backslash (String c (EscapeString r))
      else String c (EscapeString r)
  end.

Definition Quoted (s : string) : string :=
  String Quote (EscapeString s ++ String Quote "").

Fixpoint Join (l : list string) : string :=
  match l with
  | [] => ""
  | [x] => x
  | x :: r => x ++ "," ++ Join r
  end.

Fixpoint WriteValue (v : FJsonValue) : string :=
  match v with
  | FJsonValueNull => "null"
  | FJsonValueBoolean true => "true"
  | FJsonValueBoolean false => "false"
  | FJsonValueNumber n => ZToString n
  | FJsonValueString s => Quoted s
  | FJsonValueArray a => "[" ++ Join (map WriteValue a) ++ "]"
  | FJsonValueObject o =>
      "{" ++ Join (map (fun kv : string * FJsonValue =>
                          let (k, x) := kv in Quoted k ++ ":" ++ WriteValue x) o)
          ++ "}"
  end.

(** What follows an opening quote, up to the closing one. *)
Fixpoint ReadString (s : string) : option (string * string) :=
  match s with
  | EmptyString => None
  | String c r =>
      if Ascii.eqb c Quote then Some (EmptyString, r)
      else if Ascii.eqb c Backslash then
        match r with
        | String e r' =>
            match ReadString r' with
            | Some (t, rest) => Some (String e t, rest)
            | None => None
            end
        | EmptyString => None
        end
      else
        match ReadString r with
        | Some (t, rest) => Some (String c t, rest)
        | None => None
        end
  end.

Fixpoint StripPrefix (p s : string) : option string :=
  match p, s with
  | EmptyString, _ => Some s
  | String a p', String b s' => if Ascii.eqb a b then StripPrefix p' s' else None
  | _, _ => None
  end.

Fixpoint ReadValue (fuel : nat) (s : string) : option (FJsonValue * string) :=
  match fuel with
  | O => None
  | S fuel =>
      match SkipSpace s with
      | EmptyString => None
      | String c r =>
          if Ascii.eqb c Quote then
            match ReadString r with
            | Some (t, rest) => Some (FJsonValueString t, rest)
            | None => None
            end
          else if Ascii.eqb c "[" then
            match SkipSpace r with
            | String "]" rest => Some (FJsonValueArray [], rest)
            | _ =>
                match ReadElements fuel r with
                | Some (a, rest) => Some (FJsonValueArray a, rest)
                | None => None
                end
            end
          else if Ascii.eqb c "{" then
            match SkipSpace r with
            | String "}" rest => Some (FJsonValueObject [], rest)
            | _ =>
                match ReadMembers fuel r with
                | Some (o, rest) => Some (FJsonValueObject o, rest)
                | None => None
                end
            end
          else
            match StripPrefix "null" (String c r),
                  StripPrefix "true" (String c r),
                  StripPrefix "false" (String c r) with
            | Some rest, _, _ => Some (FJsonValueNull, rest)
            | _, Some rest, _ => Some (FJsonValueBoolean true, rest)
            | _, _, Some rest => Some (FJsonValueBoolean false, rest)
            | None, None, None =>
                match ReadZ (String c r) with
                | Some (n, rest) => Some (FJsonValueNumber n, rest)
                | None => None
                end
            end
      end
  end
with ReadElements (fuel : nat) (s : string)
  : option (list FJsonValue * string) :=
  match fuel with
  | O => None
  | S fuel =>
      match ReadValue fuel s with
      | Some (v, rest) =>
          match SkipSpace rest with
          | String "," r =>
              match ReadElements fuel r with
              | Some (a, rest') => Some (v :: a, rest')
              | None => None
              end
          | String "]" r => Some ([v], r)
          | _ => None
          end
      | None => None
      end
  end
with ReadMembers (fuel : nat) (s : string)
  : option (list (string * FJsonValue) * string) :=
  match fuel with
  | O => None
  | S fuel =>
      match SkipSpace s with
      | String c r =>
          if Ascii.eqb c Quote then
            match ReadString r with
            | Some (k, afterKey) =>
                match SkipSpace afterKey with
                | String ":" afterColon =>
                    match ReadValue fuel afterColon with
                    | Some (v, rest) =>
                        match SkipSpace rest with
                        | String "," r' =>
                            match ReadMembers fuel r' with
                            | Some (o, rest') => Some ((k, v) :: o, rest')
                            | None => None
                            end
                        | String "}" r' => Some ([(k, v)], r')
                        | _ => None
                        end
                    | None => None
                    end
                | _ => None
                end
            | None => None
            end
          else None
      | EmptyString => None
      end
  end.

Definition ReadObject (s : string) : option FJsonObject :=
  match ReadValue (4 + 2 * String.length s) s with
  | Some (FJsonValueObject o, rest) =>
      match SkipSpace rest with
      | EmptyString => Some o
      | _ => None
      end
  | _ => None
  end.

Definition ReadDate (s : string) : option Z :=
  match ReadZ s with
  | Some (n, EmptyString) => Some n
  | _ => None
  end.

(** A text is itself; a number and a boolean are written out. *)
Definition ValueAsString (v : FJsonValue) : option string :=
  match v with
  | FJsonValueString t => Some t
  | FJsonValueNumber n => Some (ZToString n)
  | FJsonValueBoolean b => Some (if b then "true" else "false")
  | _ => None
  end.

(** A number within the [int64] range is itself; a text that is a decimal
    number within the range is that number; a boolean is 1 or 0. *)
Definition ValueAsInt64 (v : FJsonValue) : option Z :=
  match v with
  | FJsonValueNumber n => if InInt64 n then Some n else None
  | FJsonValueString t =>
      match ReadZ t with
      | Some (n, EmptyString) => if InInt64 n then Some n else None
      | _ => None
      end
  | FJsonValueBoolean b => Some (if b then 1 else 0)
  | _ => None
  end.

#[export] Instance Engine : UnrealEngine := {|
  FString_eq := Stricmp_eq;
  Atoi := AtoiDecimal;
  Serialize := fun v => (true, WriteValue v);
  Deserialize := ReadObject;
  TryGetString := ValueAsString;
  TryGetNumber := ValueAsInt64;
  DateTimeToString := ZToString;
  DateTimeParse := ReadDate;
  GuidToString := fun n => ZToString (Z.of_nat n);
  ProjectSavedDir := "Saved"
|}.

End Reference.

(** * Vocabulary of the properties *)

Section Vocabulary.
Context {UE : UnrealEngine}.

(** The fields that neither a local save nor the handling of one incoming
    operation writes. *)
Definition Core (d : UJsonCRDTDocument.t) :=
  (DocumentID d, Version d, Content d, SnapshotHistory d,
   MaxOperationHistory d, MaxSnapshotHistory d, bAutoLocalSave d,
   ConflictStrategy d).

(** The part of [LoadFromLocal] that decides it: the text of the record,
    read and parsed, with the document's id. *)
Definition LoadableRecord (s : State) : option FJsonObject :=
  let FilePath := GetLocalStoragePath s in
  if negb (FileExists (world s) FilePath) then None
  else
    match LoadFileToString (world s) FilePath with
    | None => None
    | Some LoadString =>
        match Deserialize LoadString with
        | None => None
        | Some LoadData =>
            match TryGetStringField LoadData "documentId" with
            | None => None
            | Some LoadedDocumentID =>
                if FString_ne LoadedDocumentID (DocumentID (self s)) then None
                else
                  match TryGetObjectField LoadData "content" with
                  | None => None
                  | Some _ => Some LoadData
                  end
            end
        end
    end.

Definition RecoveryFailure : string :=
  "Failed to recover document from any source".

(** The operations handed to [ApplyOperation], the entries handed to the
    logger and the conflicts broadcast, among some events. *)
Definition AppliedOperations (evs : list Event) : list FJsonCRDTOperation.t :=
  flat_map (fun ev => match ev with OperationApplied op => [op] | _ => [] end) evs.

Definition LoggedEntries (evs : list Event) : list FJsonCRDTLogEntry.t :=
  flat_map (fun ev => match ev with LoggerLogOperation e => [e] | _ => [] end) evs.

Definition ConflictsDetected (evs : list Event) : list FJsonCRDTConflict.t :=
  flat_map (fun ev => match ev with ConflictDetected c => [c] | _ => [] end) evs.

(** Whether [LogOperation] gets past its first test. *)
Definition LoggingEnabled (s : State) : bool :=
  match Logger (self s) with
  | Some L => FJsonCRDTDefaultLogger.IsLoggingEnabled L
  | None => false
  end.

(** [s'] has the events of [s] and, after them, new ones that satisfy [P]. *)
Definition Emitted (P : list Event -> Prop) (s s' : State) : Prop :=
  exists new, Events (world s') = Events (world s) ++ new /\ P new.

Definition LogsRemote (evs : list Event) : Prop :=
  forall e, In (LoggerLogOperation e) evs ->
            FJsonCRDTLogEntry.Source e = "Remote".

(** What a log entry says of its operation. *)
Definition EntrySummary (e : FJsonCRDTLogEntry.t) :=
  (FJsonCRDTLogEntry.OperationType e, FJsonCRDTLogEntry.Path e,
   FJsonCRDTLogEntry.NewValue e, FJsonCRDTLogEntry.bHadConflict e,
   FJsonCRDTLogEntry.ClientID e, FJsonCRDTLogEntry.Source e).

Definition IsTest (op : FJsonCRDTOperation.t) : Prop :=
  FJsonCRDTOperation.Type_ op = EJsonCRDTOperationType.Test.

(** What the entry logged for a [Test] operation says. *)
Definition TestSummary (op : FJsonCRDTOperation.t) :=
  ("Test", FJsonCRDTOperation.Path op, FJsonCRDTOperation.Value op, false,
   FJsonCRDTOperation.ClientID op, "Remote").

(** The entries of a history that collide with an incoming operation. *)
Definition Collisions (Operation : FJsonCRDTOperation.t)
  (History : list FJsonCRDTOperation.t) : list FJsonCRDTOperation.t :=
  filter (fun LocalOperation => Collides LocalOperation Operation) History.

(** A resolver that never resolves, as the default one under Custom, and
    one that always does, as the default one under the other strategies. *)
Definition NeverResolves (r : IJsonCRDTConflictResolver) : Prop :=
  forall c, fst (Resolver_ResolveConflict r c) = false.

Definition AlwaysResolves (r : IJsonCRDTConflictResolver) : Prop :=
  forall c, fst (Resolver_ResolveConflict r c) = true.

(** The bounds of the two histories. *)
Definition OperationHistoryBounded (d : UJsonCRDTDocument.t) : Prop :=
  Num (OperationHistory d) <= MaxOperationHistory d.

Definition SnapshotHistoryBounded (d : UJsonCRDTDocument.t) : Prop :=
  Num (SnapshotHistory d) <= MaxSnapshotHistory d.

(** The fields only [ApplyPatch] writes, with the two maxima. *)
Definition OperationPart (d : UJsonCRDTDocument.t) :=
  (OperationHistory d, MaxOperationHistory d, MaxSnapshotHistory d).

(** ** Sequences of calls on one document *)

Inductive Command : Type :=
| CallInitialize (InDocumentID : string)
| CallSetContent (JsonObject : option FJsonObject)
| CallSetContentFromString (JsonString : string)
| CallApplyPatch (Patch : FJsonCRDTPatch.t)
| CallSaveLocally
| CallLoadFromLocal
| CallRestoreFromSnapshot (Snapshot : FJsonCRDTSnapshot.t)
| CallRecoverDocument
| CallSetAutoLocalSave (bEnable : bool)
| CallSetConflictStrategy (Strategy : EJsonCRDTConflictStrategy.t)
| CallSetConflictResolver (InConflictResolver : option IJsonCRDTConflictResolver)
| CallSetLoggingEnabled (bEnable : bool).

Definition Call (s : State) (c : Command) : State :=
  match c with
  | CallInitialize InDocumentID => Initialize InDocumentID s
  | CallSetContent JsonObject => snd (SetContent JsonObject s)
  | CallSetContentFromString JsonString => snd (SetContentFromString JsonString s)
  | CallApplyPatch Patch => snd (ApplyPatch Patch s)
  | CallSaveLocally => snd (SaveLocally s)
  | CallLoadFromLocal => snd (LoadFromLocal s)
  | CallRestoreFromSnapshot Snapshot => snd (RestoreFromSnapshot Snapshot s)
  | CallRecoverDocument => snd (RecoverDocument s)
  | CallSetAutoLocalSave bEnable => SetAutoLocalSave bEnable s
  | CallSetConflictStrategy Strategy => SetConflictStrategy Strategy s
  | CallSetConflictResolver r => SetConflictResolver r s
  | CallSetLoggingEnabled bEnable => SetLoggingEnabled bEnable s
  end.

Definition Calls (cs : list Command) (s : State) : State := fold_left Call cs s.

End Vocabulary.

(** * Inputs of the examples

    A disk with no file on it, where every directory can be made and every
    file written; a document built, initialised as [doc] and given the
    content of one field; operations on that field.  All run on the
    reference engine. *)

Definition Disk0 : World :=
  BuildWorld (fun _ => NoFile) (fun _ => false) (fun _ => true) (fun _ => true)
             1000 0 [].

Definition Fresh : State := BuildState UJsonCRDTDocument.New Disk0.

Definition Doc0 : State := Initialize (UE := Reference.Engine) "doc" Fresh.

Definition ContentX : FJsonObject := [("content", FJsonValueString "X")].

Definition DocX : State :=
  Calls (UE := Reference.Engine) [CallSetContent (Some ContentX)] Doc0.

Definition ReplaceContent (Value : string) (Timestamp : Z)
  : FJsonCRDTOperation.t :=
  FJsonCRDTOperation.Build EJsonCRDTOperationType.Replace "/content" "" Value
    Timestamp "peer".

Definition TestContent : FJsonCRDTOperation.t :=
  FJsonCRDTOperation.Build EJsonCRDTOperationType.Test "/content" "" "X" 5 "peer".

Definition PatchOf (DocumentID : string) (ops : list FJsonCRDTOperation.t)
  : FJsonCRDTPatch.t :=
  FJsonCRDTPatch.Build DocumentID 1 ops 7 "peer".

(** Two patches have been applied: the history holds a [Replace] of the
    field by A and one by Y. *)
Definition DocAY : State :=
  Calls (UE := Reference.Engine)
    [ CallApplyPatch (PatchOf "doc" [ReplaceContent "A" 1]);
      CallApplyPatch (PatchOf "doc" [ReplaceContent "Y" 2]) ] DocX.

(** A full history of a hundred entries, of which the one at index 50
    alone is a [Replace] of the field. *)
Definition AddOther : FJsonCRDTOperation.t :=
  FJsonCRDTOperation.Build EJsonCRDTOperationType.Add "/other" "" "1" 0 "peer".

Definition DocFull : State :=
  Calls (UE := Reference.Engine)
    [ CallApplyPatch (PatchOf "doc" (repeat AddOther 50));
      CallApplyPatch (PatchOf "doc" [ReplaceContent "Y" 5]);
      CallApplyPatch (PatchOf "doc" (repeat AddOther 49)) ] DocX.

(** The default resolver has been given the strategy Custom, and one patch
    applied: the history holds a [Replace] of the field by Y. *)
Definition DocCustomY : State :=
  Calls (UE := Reference.Engine)
    [ CallSetConflictStrategy EJsonCRDTConflictStrategy.Custom;
      CallApplyPatch (PatchOf "doc" [ReplaceContent "Y" 1]) ] DocX.

(** Ten snapshots taken, then the document saved and loaded back. *)
Definition TenSnapshots : list Command :=
  CallInitialize "doc" :: repeat (CallSetContent (Some ContentX)) 9.

Definition SavedAndLoaded : State :=
  Calls (UE := Reference.Engine)
    (TenSnapshots ++ [CallSaveLocally; CallLoadFromLocal]) Fresh.

(** Logging switched off. *)
Definition DocSilent : State :=
  Calls (UE := Reference.Engine) [CallSetLoggingEnabled false] DocX.

Definition ConflictYZ : FJsonCRDTConflict.t :=
  FillConflict (ReplaceContent "Y" 2) (ReplaceContent "Z" 1)
    (FJsonCRDTConflict.Default 0).

Definition ContentWithArray : FJsonObject :=
  [("a", FJsonValueArray [FJsonValueNumber 1])].

(** * The other methods of the default logger ([JsonCRDTDefaultLogger.cpp])

    [FString::Contains] is the engine's; the methods are parametric in
    it.  [FDateTime] is its tick count, and the default filter has both
    times at tick 0. *)

Module FJsonCRDTLogFilter.
Record t : Type := Build {
  DocumentID : string;
  StartTime : Z;
  EndTime : Z;
  OperationType : string;
  Path : string;
  bConflictsOnly : bool;
  ClientID : string;
  Source : string
}.

Definition Default : t := Build "" 0 0 "" "" false "" "".
End FJsonCRDTLogFilter.

Section DefaultLoggerMethods.
Context {UE : UnrealEngine}.
Variable Contains : string -> string -> bool.

(** [FString::IsEmpty] *)
Definition IsEmpty (s : string) : bool := String.eqb s "".

Definition ApplyFilter (LogEntry : FJsonCRDTLogEntry.t)
  (Filter : FJsonCRDTLogFilter.t) : bool :=
  if negb (IsEmpty (FJsonCRDTLogFilter.DocumentID Filter))
     && FString_ne (FJsonCRDTLogEntry.DocumentID LogEntry)
                   (FJsonCRDTLogFilter.DocumentID Filter)
  then false
  else if (FJsonCRDTLogFilter.StartTime Filter >? 0)
          && (FJsonCRDTLogEntry.Timestamp LogEntry
              <? FJsonCRDTLogFilter.StartTime Filter)
  then false
  else if (FJsonCRDTLogFilter.EndTime Filter >? 0)
          && (FJsonCRDTLogEntry.Timestamp LogEntry
              >? FJsonCRDTLogFilter.EndTime Filter)
  then false
  else if negb (IsEmpty (FJsonCRDTLogFilter.OperationType Filter))
          && FString_ne (FJsonCRDTLogEntry.OperationType LogEntry)
                        (FJsonCRDTLogFilter.OperationType Filter)
  then false
  else if negb (IsEmpty (FJsonCRDTLogFilter.Path Filter))
          && negb (Contains (FJsonCRDTLogEntry.Path LogEntry)
                            (FJsonCRDTLogFilter.Path Filter))
  then false
  else if FJsonCRDTLogFilter.bConflictsOnly Filter
          && negb (FJsonCRDTLogEntry.bHadConflict LogEntry)
  then false
  else if negb (IsEmpty (FJsonCRDTLogFilter.ClientID Filter))
          && FString_ne (FJsonCRDTLogEntry.ClientID LogEntry)
                        (FJsonCRDTLogFilter.ClientID Filter)
  then false
  else if negb (IsEmpty (FJsonCRDTLogFilter.Source Filter))
          && FString_ne (FJsonCRDTLogEntry.Source LogEntry)
                        (FJsonCRDTLogFilter.Source Filter)
  then false
  else true.

(** The range-based [for] of [GetLogs]: the entries that pass, in order. *)
Fixpoint GetLogs_loop (Entries : list FJsonCRDTLogEntry.t)
  (Filter : FJsonCRDTLogFilter.t) (FilteredLogs : list FJsonCRDTLogEntry.t)
  : list FJsonCRDTLogEntry.t :=
  match Entries with
  | [] => FilteredLogs
  | LogEntry :: rest =>
      if ApplyFilter LogEntry Filter
      then GetLogs_loop rest Filter (FilteredLogs ++ [LogEntry])
      else GetLogs_loop rest Filter FilteredLogs
  end.

Definition GetLogs (Filter : FJsonCRDTLogFilter.t)
  (l : FJsonCRDTDefaultLogger.t) : list FJsonCRDTLogEntry.t :=
  GetLogs_loop (FJsonCRDTDefaultLogger.LogEntries l) Filter [].

(** [TArray::RemoveAt(i)] *)
Definition RemoveAt {A : Type} (i : nat) (l : list A) : list A :=
  firstn i l ++ skipn (S i) l.

(** The loop of [ClearLogs],
    [for (i = LogEntries.Num() - 1; i >= 0; --i)]: [n] is [i + 1], and the
    array is read at [i] as the loop has left it. *)
Fixpoint ClearLogs_loop (n : nat) (Filter : FJsonCRDTLogFilter.t)
  (Entries : list FJsonCRDTLogEntry.t) : list FJsonCRDTLogEntry.t :=
  match n with
  | O => Entries
  | S i =>
      match nth_error Entries i with
      | Some LogEntry =>
          if ApplyFilter LogEntry Filter
          then ClearLogs_loop i Filter (RemoveAt i Entries)
          else ClearLogs_loop i Filter Entries
      | None => Entries
      end
  end.

(** The first test of [ClearLogs]. *)
Definition IsEmptyFilter (Filter : FJsonCRDTLogFilter.t) : bool :=
  IsEmpty (FJsonCRDTLogFilter.DocumentID Filter)
  && IsEmpty (FJsonCRDTLogFilter.OperationType Filter)
  && IsEmpty (FJsonCRDTLogFilter.Path Filter)
  && IsEmpty (FJsonCRDTLogFilter.ClientID Filter)
  && IsEmpty (FJsonCRDTLogFilter.Source Filter)
  && negb (FJsonCRDTLogFilter.bConflictsOnly Filter)
  && (FJsonCRDTLogFilter.StartTime Filter =? 0)
  && (FJsonCRDTLogFilter.EndTime Filter =? 0).

Definition ClearLogs (Filter : FJsonCRDTLogFilter.t)
  (l : FJsonCRDTDefaultLogger.t) : FJsonCRDTDefaultLogger.t :=
  let Entries := FJsonCRDTDefaultLogger.LogEntries l in
  FJsonCRDTDefaultLogger.Build
    (if IsEmptyFilter Filter then []
     else ClearLogs_loop (List.length Entries) Filter Entries)
    (FJsonCRDTDefaultLogger.MaxLogEntries l)
    (FJsonCRDTDefaultLogger.bLoggingEnabled l).

(** The loop of [SetMaxLogEntries],
    [while (LogEntries.Num() > MaxLogEntries) LogEntries.RemoveAt(0);].
    [RemoveAt(0)] on an empty array is out of range: there is no result
    then. *)
Fixpoint TrimOldest (MaxLogEntries : Z) (Entries : list FJsonCRDTLogEntry.t)
  : option (list FJsonCRDTLogEntry.t) :=
  if Num Entries >? MaxLogEntries then
    match Entries with
    | [] => None
    | _ :: rest => TrimOldest MaxLogEntries rest
    end
  else Some Entries.

Definition SetMaxLogEntries (InMaxLogEntries : Z)
  (l : FJsonCRDTDefaultLogger.t) : option FJsonCRDTDefaultLogger.t :=
  match TrimOldest InMaxLogEntries (FJsonCRDTDefaultLogger.LogEntries l) with
  | Some kept =>
      Some (FJsonCRDTDefaultLogger.Build kept InMaxLogEntries
              (FJsonCRDTDefaultLogger.bLoggingEnabled l))
  | None => None
  end.

(** A run of [LogOperation] calls, oldest first. *)
Definition LogOperations (LogEntries : list FJsonCRDTLogEntry.t)
  (l : FJsonCRDTDefaultLogger.t) : FJsonCRDTDefaultLogger.t :=
  fold_left (fun l LogEntry => FJsonCRDTDefaultLogger.LogOperation LogEntry l)
    LogEntries l.

(** The newest [Max] of some entries. *)
Definition Newest {A : Type} (Max : Z) (l : list A) : list A :=
  skipn (Z.to_nat (Num l - Max)) l.

End DefaultLoggerMethods.

(** * The CSV field escape of the visualizer ([JsonCRDTVisualizer.cpp])

    The lambda [EscapeCSV] of [LogEntryToCSVRow].  Its [ReplaceInline] and
    its three [Contains] are on texts of one character. *)

Definition DoubleQuote : ascii := "034".
Definition LineFeed : ascii := "010".

(** [Result.ReplaceInline(DoubleQuote, DoubleQuote DoubleQuote)] *)
Fixpoint ReplaceQuotes (s : string) : string :=
  match s with
  | EmptyString => EmptyString
  | String c r =>
      if Ascii.eqb c DoubleQuote
      then String DoubleQuote (String DoubleQuote (ReplaceQuotes r))
      else String c (ReplaceQuotes r)
  end.

Fixpoint ContainsChar (c : ascii) (s : string) : bool :=
  match s with
  | EmptyString => false
  | String x r => Ascii.eqb x c || ContainsChar c r
  end.

Definition EscapeCSV (Field : string) : string :=
  let Result := ReplaceQuotes Field in
  if ContainsChar "," Result || ContainsChar DoubleQuote Result
     || ContainsChar LineFeed Result
  then String DoubleQuote (Result ++ String DoubleQuote EmptyString)
  else Result.

(** * Vocabulary of the further properties *)

Section FurtherVocabulary.
Context {UE : UnrealEngine}.

(** The document-changed broadcasts among some events. *)
Definition DocumentChanges (evs : list Event) : list string :=
  flat_map (fun ev => match ev with DocumentChanged id => [id] | _ => [] end) evs.

(** The events the handling of the operations of a patch can give: none
    of them is a broadcast of a change or of a recovery. *)
Definition PatchEvent (ev : Event) : Prop :=
  match ev with
  | DocumentChanged _ | DocumentRecovered _ _ => False
  | _ => True
  end.

(** [s'] has the events of [s] and then events of a patch's operations. *)
Definition EmittedByOperations (s s' : State) : Prop :=
  Emitted (Forall PatchEvent) s s'.

(** What the entry logged for an operation applied as it came says. *)
Definition VerbatimSummary (op : FJsonCRDTOperation.t) :=
  (OperationTypeName (FJsonCRDTOperation.Type_ op), FJsonCRDTOperation.Path op,
   FJsonCRDTOperation.Value op, false, FJsonCRDTOperation.ClientID op, "Remote").

Definition IsReplace (op : FJsonCRDTOperation.t) : bool :=
  EJsonCRDTOperationType.eqb (FJsonCRDTOperation.Type_ op)
    EJsonCRDTOperationType.Replace.

(** The conflict the default resolver leaves for a local operation and an
    incoming one, and the incoming operation with the resolved value. *)
Definition ResolutionOf (Strategy : EJsonCRDTConflictStrategy.t)
  (LocalOperation Operation : FJsonCRDTOperation.t) : FJsonCRDTConflict.t :=
  snd (FJsonCRDTDefaultConflictResolver.ResolveConflict Strategy
         (FillConflict LocalOperation Operation (FJsonCRDTConflict.Default 0))).

Definition ResolvedOperationOf (Strategy : EJsonCRDTConflictStrategy.t)
  (Operation LocalOperation : FJsonCRDTOperation.t) : FJsonCRDTOperation.t :=
  FJsonCRDTOperation.SetValue
    (FJsonCRDTConflict.ResolvedValue
       (ResolutionOf Strategy LocalOperation Operation)) Operation.

(** The engine's reader gives back the object its writer wrote. *)
Definition ReadsBack (o : FJsonObject) : Prop :=
  Deserialize (snd (Serialize (FJsonValueObject o))) = Some o.

(** The engine's comparison tells these names apart as they are spelt. *)
Definition KeysApart (keys : list string) : Prop :=
  forall a b, In a keys -> In b keys -> FString_eq a b = String.eqb a b.

Definition RecordKeys : list string :=
  ["documentId"; "version"; "timestamp"; "content"; "latestSnapshot"].

(** The local record holds the document as it is now. *)
Definition SavedOnDisk (s : State) : Prop :=
  LoadFileToString (world s) (GetLocalStoragePath s)
  = Some (snd (Serialize (FJsonValueObject (SaveData s)))).

(** The three messages a failed [SaveLocally] leaves. *)
Definition SaveFailureMessage (s : State) (msg : string) : Prop :=
  msg = ("Failed to create directory: " ++ GetPath (GetLocalStoragePath s))%string
  \/ msg = "Failed to serialize document data"
  \/ msg = ("Failed to save document to file: " ++ GetLocalStoragePath s)%string.

Definition IsInitialize (c : Command) : bool :=
  match c with CallInitialize _ => true | _ => false end.

(** The calls that read the local record. *)
Definition LoadsFromDisk (c : Command) : bool :=
  match c with CallLoadFromLocal | CallRecoverDocument => true | _ => false end.

Definition InstallsResolver (c : Command) : bool :=
  match c with CallSetConflictResolver _ => true | _ => false end.

(** The resolver is the default one and has the document's strategy. *)
Definition DefaultResolverAgrees (d : UJsonCRDTDocument.t) : Prop :=
  ConflictResolver d = Some (DefaultConflictResolver (ConflictStrategy d)).

(** What the entry logged for an operation applied with the value the
    default resolver gave says. *)
Definition ResolvedSummary (Strategy : EJsonCRDTConflictStrategy.t)
  (Operation LocalOperation : FJsonCRDTOperation.t) :=
  (OperationTypeName (FJsonCRDTOperation.Type_ Operation),
   FJsonCRDTOperation.Path Operation,
   FJsonCRDTConflict.ResolvedValue (ResolutionOf Strategy LocalOperation Operation),
   true, FJsonCRDTOperation.ClientID Operation, "Remote").

(** A snapshot records the document as it is: its id, its version and the
    text of its content. *)
Definition SnapshotMatches (snap : FJsonCRDTSnapshot.t) (s : State) : Prop :=
  FJsonCRDTSnapshot.DocumentID snap = DocumentID (self s)
  /\ FJsonCRDTSnapshot.Version snap = Version (self s)
  /\ FJsonCRDTSnapshot.Content snap = GetContentAsString s.

(** The snapshot history is within a maximum that is not negative. *)
Definition SnapshotsKept (d : UJsonCRDTDocument.t) : Prop :=
  0 <= MaxSnapshotHistory d /\ SnapshotHistoryBounded d.

(** The file system after the directory of the record has been made, when
    it was not there, and after the record has been written. *)
Definition WithDirectory (s : State) : World :=
  let DirectoryPath := GetPath (GetLocalStoragePath s) in
  if Directories (world s) DirectoryPath then world s
  else set_Directories
         (fun q => if String.eqb q DirectoryPath then true
                   else Directories (world s) q) (world s).

Definition WithRecord (s : State) : World :=
  set_Files
    (fun q => if String.eqb q (GetLocalStoragePath s)
              then FileText (snd (Serialize (FJsonValueObject (SaveData s))))
              else Files (world s) q) (WithDirectory s).

(** The engine reads a value that is a text as that text. *)
Definition TextsReadAsTexts : Prop :=
  forall t, TryGetString (FJsonValueString t) = Some t.

(** The version read from a record written for the version [v]: the
    number the record carries, which is [v] converted to [double], as the
    engine reads it into an [int64]; [kept] when the engine reads none. *)
Definition RecordedVersion (v kept : Z) : Z :=
  match TryGetNumber (FJsonValueNumber (Int64ToDouble v)) with
  | Some n => n
  | None => kept
  end.

(** The snapshot [LoadFromLocal] adds when it reads the record [SaveLocally]
    wrote: the newest snapshot, when it is of this document, with its
    fields as the record carries them; [now] is the time the load reads,
    taken when the time of the record is not parsed. *)
Definition ReloadedSnapshot (now : Z) (s : State) : list FJsonCRDTSnapshot.t :=
  match Last (SnapshotHistory (self s)) with
  | None => []
  | Some snap =>
      if FString_ne (FJsonCRDTSnapshot.DocumentID snap) (DocumentID (self s))
      then []
      else
        [FJsonCRDTSnapshot.Build
           (FJsonCRDTSnapshot.DocumentID snap)
           (RecordedVersion (FJsonCRDTSnapshot.Version snap) 0)
           (match DateTimeParse
                    (DateTimeToString (FJsonCRDTSnapshot.Timestamp snap)) with
            | Some t => t
            | None => now
            end)
           (FJsonCRDTSnapshot.Content snap)]
  end.

(** A value that is neither an object nor an array. *)
Definition IsScalar (v : FJsonValue) : bool :=
  match v with
  | FJsonValueObject _ | FJsonValueArray _ => false
  | _ => true
  end.

(** The file system and the clock: what of the world is not the events or
    the GUID source. *)
Definition Disk (w : World) :=
  (Files w, Directories w, CreatableDirectory w, WritableFile w, UtcNow w).

(** After a change with automatic saving on: the record holds the document,
    or the last error message says why it does not. *)
Definition SavedOrReported (s : State) : Prop :=
  SavedOnDisk s \/ SaveFailureMessage s (LastErrorMessage (self s)).

(** The resolver and the strategy of a document. *)
Definition ResolverPart (d : UJsonCRDTDocument.t) :=
  (ConflictResolver d, ConflictStrategy d).

(** The settings of a document, and the calls that are their setters. *)
Definition Settings (d : UJsonCRDTDocument.t) :=
  (DocumentID d, MaxOperationHistory d, MaxSnapshotHistory d,
   bAutoLocalSave d, ConflictStrategy d).

Definition IsSetter (c : Command) : bool :=
  match c with
  | CallInitialize _ | CallSetAutoLocalSave _
  | CallSetConflictStrategy _ | CallSetConflictResolver _ => true
  | _ => false
  end.

(** [s'] has the events of [s] and new ones after them, and its logger is
    the logger of [s] after the entries logged among the new events. *)
Definition Stored (s s' : State) : Prop :=
  exists new,
    Events (world s') = Events (world s) ++ new
    /\ Logger (self s')
       = option_map (LogOperations (LoggedEntries new)) (Logger (self s)).

End FurtherVocabulary.

(** * Inputs of the further examples *)

(** A [Replace] of another field than the one the history of [DocAY]
    writes. *)
Definition ReplaceOther : FJsonCRDTOperation.t :=
  FJsonCRDTOperation.Build EJsonCRDTOperationType.Replace "/other" "" "1" 3 "peer".

Definition ContentNested : FJsonObject :=
  [("a", FJsonValueObject [("b", FJsonValueNumber 1)])].

(** The document [DocX] with a given record on its disk. *)
Definition WithRecordOnDisk (LoadData : FJsonObject) : State :=
  BuildState (self DocX)
    (set_Files
       (fun q =>
          if String.eqb q (GetLocalStoragePath (UE := Reference.Engine) DocX)
          then FileText (Reference.WriteValue (FJsonValueObject LoadData))
          else NoFile)
       (world DocX)).



(** A record of the document [doc] with a version, written as a text, and
    a content. *)
Definition RecordWithTextVersion : FJsonObject :=
  [("documentId", FJsonValueString "doc"); ("version", FJsonValueString "7");
   ("content", FJsonValueObject ContentNested)].

Definition DocTextVersion : State := WithRecordOnDisk RecordWithTextVersion.

(** The document [DocX] at a version one past 2^53. *)
Definition DocBig : State := SetDoc (set_Version (2 ^ 53 + 1)) DocX.

(** The document [DocX] after a local save. *)
Definition DocSaved : State := snd (SaveLocally (UE := Reference.Engine) DocX).

(** A log entry written at a given time. *)
Definition EntryAt (Timestamp : Z) : FJsonCRDTLogEntry.t :=
  FJsonCRDTLogEntry.Build "" "doc" "Replace" "/content" "" "" Timestamp false
    (FJsonCRDTConflict.Default 0) "peer" "Remote".

(** Ten snapshots taken: the snapshot history is full, and its newest
    entry is of version 10. *)
Definition DocTenSnapshots : State :=
  Calls (UE := Reference.Engine) TenSnapshots Fresh.

Definition NewestOfTen : FJsonCRDTSnapshot.t :=
  FJsonCRDTSnapshot.Build "doc" 10 1000
    (Reference.WriteValue (FJsonValueObject ContentX)).

(** * Properties *)

Section Properties.
Context {UE : UnrealEngine}.

(** ** Conflict resolution *)

Lemma ResolveLastWriterWins_value (c : FJsonCRDTConflict.t) :
  FJsonCRDTDefaultConflictResolver.ResolveLastWriterWins c
  = (true,
     FJsonCRDTConflict.Resolve
       (if FJsonCRDTOperation.Timestamp (FJsonCRDTConflict.LocalOperation c)
           >? FJsonCRDTOperation.Timestamp (FJsonCRDTConflict.RemoteOperation c)
        then FJsonCRDTConflict.LocalValue c
        else FJsonCRDTConflict.RemoteValue c) c).
Proof.
  unfold FJsonCRDTDefaultConflictResolver.ResolveLastWriterWins.
  destruct (_ >? _); reflexivity.
Qed.

(** C7. Under LastWriterWins the resolver reports success and marks the
    conflict resolved; the resolved value is the local one when the local
    timestamp is strictly greater than the remote one and the remote one
    otherwise, a tie included, so that for a conflict (two different
    values) it is the local value exactly when the local timestamp is
    strictly greater; it is a function of the two values and timestamps,
    which for a conflict filled by [ApplyPatch] are those of the two
    operations. *)
Theorem LastWriterWins_resolves_by_timestamp (c : FJsonCRDTConflict.t) :
  let T1 := FJsonCRDTOperation.Timestamp (FJsonCRDTConflict.LocalOperation c) in
  let T2 := FJsonCRDTOperation.Timestamp (FJsonCRDTConflict.RemoteOperation c) in
  let r := FJsonCRDTDefaultConflictResolver.ResolveConflict
             EJsonCRDTConflictStrategy.LastWriterWins c in
  fst r = true
  /\ FJsonCRDTConflict.bResolved (snd r) = true
  /\ (T1 > T2 ->
      FJsonCRDTConflict.ResolvedValue (snd r) = FJsonCRDTConflict.LocalValue c)
  /\ (T1 <= T2 ->
      FJsonCRDTConflict.ResolvedValue (snd r) = FJsonCRDTConflict.RemoteValue c)
  /\ (FJsonCRDTConflict.LocalValue c <> FJsonCRDTConflict.RemoteValue c ->
      (FJsonCRDTConflict.ResolvedValue (snd r) = FJsonCRDTConflict.LocalValue c
       <-> T1 > T2)
      /\ (FJsonCRDTConflict.ResolvedValue (snd r) = FJsonCRDTConflict.RemoteValue c
          <-> T1 <= T2))
  /\ FJsonCRDTConflict.ResolvedValue (snd r)
     = (if T1 >? T2 then FJsonCRDTConflict.LocalValue c
        else FJsonCRDTConflict.RemoteValue c)
  /\ (forall Local Remote prev,
        c = FillConflict Local Remote prev ->
        FJsonCRDTConflict.ResolvedValue (snd r)
        = if FJsonCRDTOperation.Timestamp Local
             >? FJsonCRDTOperation.Timestamp Remote
          then FJsonCRDTOperation.Value Local
          else FJsonCRDTOperation.Value Remote).
Proof.
  intros T1 T2 r.
  assert (Hr : r = (true,
                    FJsonCRDTConflict.Resolve
                      (if T1 >? T2 then FJsonCRDTConflict.LocalValue c
                       else FJsonCRDTConflict.RemoteValue c) c)).
  { subst r T1 T2. cbn. apply ResolveLastWriterWins_value. }
  rewrite Hr; cbn.
  split; [reflexivity|]. split; [reflexivity|].
  split; [|split; [|split; [|split]]].
  - intros H. destruct (Z.gtb_spec T1 T2); [reflexivity | lia].
  - intros H. destruct (Z.gtb_spec T1 T2); [lia | reflexivity].
  - intros Hdiff. split; split.
    + destruct (Z.gtb_spec T1 T2); [lia | intros E; symmetry in E; contradiction].
    + intros H. destruct (Z.gtb_spec T1 T2); [reflexivity | lia].
    + destruct (Z.gtb_spec T1 T2); [intros E; contradiction | lia].
    + intros H. destruct (Z.gtb_spec T1 T2); [lia | reflexivity].
  - reflexivity.
  - intros Local Remote prev ->. subst T1 T2. reflexivity.
Qed.

(** ** What each step leaves alone *)

Lemma Core_fields d d' :
  Core d' = Core d ->
  DocumentID d' = DocumentID d /\ Version d' = Version d
  /\ Content d' = Content d /\ SnapshotHistory d' = SnapshotHistory d
  /\ MaxOperationHistory d' = MaxOperationHistory d
  /\ MaxSnapshotHistory d' = MaxSnapshotHistory d
  /\ bAutoLocalSave d' = bAutoLocalSave d
  /\ ConflictStrategy d' = ConflictStrategy d.
Proof. unfold Core. intros H. injection H. intros. repeat split; assumption. Qed.

(** A local save writes the file system and, on failure, the error
    message; nothing else. *)
Lemma SaveLocally_self (s : State) :
  self (snd (SaveLocally s)) = self s
  \/ exists msg, self (snd (SaveLocally s)) = set_LastErrorMessage msg (self s).
Proof.
  unfold SaveLocally.
  destruct (Directories (world s) _).
  - cbn. destruct (Serialize _) as [[] SaveString]; cbn.
    + unfold SaveStringToFile. destruct (WritableFile _ _); cbn; eauto.
    + eauto.
  - unfold CreateDirectoryTree. destruct (CreatableDirectory _ _); cbn.
    + destruct (Serialize _) as [[] SaveString]; cbn.
      * unfold SaveStringToFile; cbn. destruct (WritableFile _ _); cbn; eauto.
      * eauto.
    + eauto.
Qed.

Lemma SaveLocally_Core (s : State) :
  Core (self (snd (SaveLocally s))) = Core (self s).
Proof.
  destruct (SaveLocally_self s) as [-> | [msg ->]]; reflexivity.
Qed.

Lemma SaveLocally_OperationHistory (s : State) :
  OperationHistory (self (snd (SaveLocally s))) = OperationHistory (self s).
Proof.
  destruct (SaveLocally_self s) as [-> | [msg ->]]; reflexivity.
Qed.

Lemma NotifyDocumentChanged_Core (s : State) :
  Core (self (NotifyDocumentChanged s)) = Core (self s).
Proof.
  unfold NotifyDocumentChanged. cbn.
  destruct (bAutoLocalSave (self s)); [|reflexivity].
  rewrite SaveLocally_Core. reflexivity.
Qed.

Lemma NotifyDocumentChanged_OperationHistory (s : State) :
  OperationHistory (self (NotifyDocumentChanged s)) = OperationHistory (self s).
Proof.
  unfold NotifyDocumentChanged. cbn.
  destruct (bAutoLocalSave (self s)); [|reflexivity].
  rewrite SaveLocally_OperationHistory. reflexivity.
Qed.

Lemma LogOperation_Core Operation OldValue NewValue b Conflict (s : State) :
  Core (self (LogOperation Operation OldValue NewValue b Conflict s))
  = Core (self s).
Proof.
  unfold LogOperation. destruct (Logger (self s)) as [L|]; [|reflexivity].
  destruct (negb _); reflexivity.
Qed.

Lemma ApplyOperation_self Operation (s : State) :
  self (ApplyOperation Operation s) = self s.
Proof. unfold ApplyOperation. destruct (FJsonCRDTOperation.Type_ _); reflexivity. Qed.

Lemma ResolveConflict_Core Conflict (s : State) :
  Core (self (snd (ResolveConflict Conflict s))) = Core (self s).
Proof.
  unfold ResolveConflict. destruct (Resolver_ResolveConflict _ _). reflexivity.
Qed.

Lemma ScanHistory_Core n Operation OldValue :
  forall b Conflict (s : State),
    Core (self (snd (ScanHistory n Operation OldValue b Conflict s)))
    = Core (self s).
Proof.
  induction n as [|i IH]; intros b Conflict s; cbn [ScanHistory]; [reflexivity|].
  destruct (nth_error _ i) as [LocalOperation|]; [|reflexivity].
  destruct (Collides _ _); [|apply IH].
  pose proof (ResolveConflict_Core (FillConflict LocalOperation Operation Conflict) s)
    as HR.
  destruct (ResolveConflict _ s) as [[[] c'] s']; cbn in HR.
  - rewrite IH. unfold AddToOperationHistory; cbn.
    rewrite <- HR.
    transitivity
      (Core (self (LogOperation
                     (FJsonCRDTOperation.SetValue
                        (FJsonCRDTConflict.ResolvedValue c') Operation)
                     OldValue (FJsonCRDTConflict.ResolvedValue c') true c'
                     (Emit (ConflictDetected c')
                        (ApplyOperation
                           (FJsonCRDTOperation.SetValue
                              (FJsonCRDTConflict.ResolvedValue c') Operation) s'))))).
    + reflexivity.
    + rewrite LogOperation_Core. cbn. rewrite ApplyOperation_self. reflexivity.
  - rewrite IH. exact HR.
Qed.

Lemma ProcessOperation_Core (s : State) Operation :
  Core (self (ProcessOperation s Operation)) = Core (self s).
Proof.
  unfold ProcessOperation.
  set (OldValue := OldValueOf Operation s).
  destruct (EJsonCRDTOperationType.eqb _ _).
  - pose proof (ScanHistory_Core (List.length (OperationHistory (self s)))
                  Operation OldValue false
                  (FJsonCRDTConflict.Default (UtcNow (world s))) s) as HS.
    destruct (ScanHistory _ _ _ _ _ _) as [[[] c] s']; cbn in HS |- *.
    + exact HS.
    + unfold AddToOperationHistory; cbn.
      transitivity
        (Core (self (LogOperation Operation OldValue
                       (FJsonCRDTOperation.Value Operation) false
                       (FJsonCRDTConflict.Default
                          (UtcNow (world (ApplyOperation Operation s'))))
                       (ApplyOperation Operation s')))).
      * reflexivity.
      * rewrite LogOperation_Core, ApplyOperation_self. exact HS.
  - cbn. unfold AddToOperationHistory; cbn.
    transitivity
      (Core (self (LogOperation Operation OldValue
                     (FJsonCRDTOperation.Value Operation) false
                     (FJsonCRDTConflict.Default
                        (UtcNow (world (ApplyOperation Operation s))))
                     (ApplyOperation Operation s)))).
    + reflexivity.
    + rewrite LogOperation_Core, ApplyOperation_self. reflexivity.
Qed.

Lemma fold_ProcessOperation_Core ops :
  forall s : State,
    Core (self (fold_left ProcessOperation ops s)) = Core (self s).
Proof.
  induction ops as [|op ops IH]; intros s; cbn; [reflexivity|].
  rewrite IH. apply ProcessOperation_Core.
Qed.

(** ** Patch validation and the version counter *)

(** C8. [ApplyPatch] fails exactly when the patch's document id differs
    from the document's; a failed call leaves the whole state (content,
    version, both histories and all the rest) as it was; a patch with the
    document's id succeeds whatever its base version and operations. *)
Theorem ApplyPatch_fails_iff_DocumentID_differs
  (Patch : FJsonCRDTPatch.t) (s : State) :
  let differs :=
    FString_ne (FJsonCRDTPatch.DocumentID Patch) (DocumentID (self s)) in
  (fst (ApplyPatch Patch s) = false <-> differs = true)
  /\ (differs = true ->
      snd (ApplyPatch Patch s) = s
      /\ Content (self (snd (ApplyPatch Patch s))) = Content (self s)
      /\ Version (self (snd (ApplyPatch Patch s))) = Version (self s)
      /\ OperationHistory (self (snd (ApplyPatch Patch s)))
         = OperationHistory (self s)
      /\ SnapshotHistory (self (snd (ApplyPatch Patch s)))
         = SnapshotHistory (self s))
  /\ (differs = false ->
      forall BaseVersion Operations Timestamp ClientID,
        fst (ApplyPatch
               (FJsonCRDTPatch.Build (FJsonCRDTPatch.DocumentID Patch)
                  BaseVersion Operations Timestamp ClientID) s) = true).
Proof.
  intros differs. subst differs. unfold ApplyPatch.
  destruct (FString_ne (FJsonCRDTPatch.DocumentID Patch) (DocumentID (self s)))
    eqn:E; cbn [fst snd].
  - split; [tauto|]. split; [intros _; repeat split; reflexivity | discriminate].
  - split; [split; discriminate|]. split; [discriminate|].
    intros _ BaseVersion Operations Timestamp ClientID. cbn.
    rewrite E. reflexivity.
Qed.

Lemma wrap64_succ (v : Z) :
  Int64Min <= v < Int64Max -> wrap64 (v + 1) = v + 1.
Proof.
  unfold wrap64, Int64Min, Int64Max.
  change (2 ^ 63) with 9223372036854775808.
  change (2 ^ 64) with 18446744073709551616.
  intros H. rewrite Z.mod_small; lia.
Qed.

Lemma CreateAndAddSnapshot_Version (s : State) :
  Version (self (CreateAndAddSnapshot s)) = Version (self s).
Proof. reflexivity. Qed.

Lemma NotifyDocumentChanged_Version (s : State) :
  Version (self (NotifyDocumentChanged s)) = Version (self s).
Proof. apply (Core_fields _ _ (NotifyDocumentChanged_Core s)). Qed.

Lemma SetContent_Version o (s : State) :
  Version (self (snd (SetContent (Some o) s))) = wrap64 (Version (self s) + 1).
Proof.
  unfold SetContent; cbn [snd].
  rewrite NotifyDocumentChanged_Version, CreateAndAddSnapshot_Version.
  reflexivity.
Qed.

Lemma ApplyPatch_Version Patch (s : State) :
  fst (ApplyPatch Patch s) = true ->
  Version (self (snd (ApplyPatch Patch s))) = wrap64 (Version (self s) + 1).
Proof.
  unfold ApplyPatch. destruct (FString_ne _ _); [discriminate|]. intros _.
  cbn [snd].
  rewrite NotifyDocumentChanged_Version, CreateAndAddSnapshot_Version.
  unfold IncrementVersion; cbn.
  f_equal. f_equal.
  apply (Core_fields _ _ (fold_ProcessOperation_Core _ s)).
Qed.

(** The parts of C6 that hold.  A successful [SetContent] and a successful
    [ApplyPatch] each raise the version by exactly one, whatever the patch
    holds (the counter being below the largest [int64]); a successful
    [RestoreFromSnapshot] of a snapshot object of the caller's leaves the
    version of the snapshot. *)
Theorem Version_after_success
  (s : State) (JsonObject : option FJsonObject) (Patch : FJsonCRDTPatch.t)
  (Snapshot : FJsonCRDTSnapshot.t) :
  (fst (SetContent JsonObject s) = true ->
   Int64Min <= Version (self s) < Int64Max ->
   Version (self (snd (SetContent JsonObject s))) = Version (self s) + 1)
  /\ (fst (ApplyPatch Patch s) = true ->
      Int64Min <= Version (self s) < Int64Max ->
      Version (self (snd (ApplyPatch Patch s))) = Version (self s) + 1)
  /\ (fst (RestoreFromSnapshot Snapshot s) = true ->
      Version (self (snd (RestoreFromSnapshot Snapshot s)))
      = FJsonCRDTSnapshot.Version Snapshot).
Proof.
  repeat split.
  - destruct JsonObject as [o|]; [intros _ Hrange | discriminate].
    rewrite SetContent_Version. apply wrap64_succ, Hrange.
  - intros H Hrange.
    rewrite (ApplyPatch_Version _ _ H). apply wrap64_succ, Hrange.
  - unfold RestoreFromSnapshot, RestoreFromSnapshotRef. cbn [ReadSnapshot].
    destruct (FString_ne _ _); [discriminate|].
    destruct (SetContentFromString _ s) as [[] s1]; cbn; [intros _|discriminate].
    rewrite NotifyDocumentChanged_Version. reflexivity.
Qed.

(** Through a reference, the version left is the one the referenced object
    holds once the content has been set. *)
Lemma RestoreFromSnapshotRef_Version (r : SnapshotRef) (s : State) :
  fst (RestoreFromSnapshotRef r s) = true ->
  Version (self (snd (RestoreFromSnapshotRef r s)))
  = FJsonCRDTSnapshot.Version
      (ReadSnapshot r
         (snd (SetContentFromString
                 (FJsonCRDTSnapshot.Content (ReadSnapshot r s)) s))).
Proof.
  unfold RestoreFromSnapshotRef.
  destruct (FString_ne _ _); [discriminate|].
  destruct (SetContentFromString _ s) as [[] s1]; cbn; [intros _|discriminate].
  rewrite NotifyDocumentChanged_Version. reflexivity.
Qed.

(** ** Path resolution *)

Lemma WalkPath_app (pre rest : list string) :
  forall v w : FJsonValue,
    WalkPath v pre = Some w ->
    (exists o, w = FJsonValueObject o) \/ (exists a, w = FJsonValueArray a) ->
    WalkPath v (pre ++ rest) = WalkPath w rest.
Proof.
  induction pre as [|p pre IH]; intros v w Hw Hshape.
  - cbn in Hw. injection Hw as ->. reflexivity.
  - cbn [WalkPath app] in Hw |- *.
    destruct v as [ | b | n | t | a | o ].
    1-4: destruct pre as [|q pre]; [|discriminate];
         cbn in Hw; injection Hw as <-;
         destruct Hshape as [[x Hx] | [x Hx]]; discriminate.
    + destruct (_ || _); [discriminate|].
      destruct (nth_error a _) as [x|]; [|discriminate].
      apply IH; assumption.
    + destruct (negb _); [discriminate|]. apply IH; assumption.
Qed.

Lemma WalkPath_missing_key (o : FJsonObject) (Part : string) rest :
  HasField o (UnescapePart Part) = false ->
  WalkPath (FJsonValueObject o) (Part :: rest) = None.
Proof. intros H. cbn. rewrite H. reflexivity. Qed.

Lemma WalkPath_index_out_of_range (a : list FJsonValue) (Part : string) rest :
  Atoi (UnescapePart Part) < 0 \/ Num a <= Atoi (UnescapePart Part) ->
  WalkPath (FJsonValueArray a) (Part :: rest) = None.
Proof.
  intros H. cbn.
  destruct (Z.ltb_spec (Atoi (UnescapePart Part)) 0); [reflexivity|].
  destruct (Z.geb_spec (Atoi (UnescapePart Part)) (Num a)); [reflexivity|lia].
Qed.

Lemma GetValueAtPath_walks (root : FJsonObject) (Path : string) :
  Path <> "" ->
  GetValueAtPath (Some root) Path
  = WalkPath (FJsonValueObject root) (PathPartsOf Path).
Proof.
  intros H. unfold GetValueAtPath.
  destruct (String.eqb_spec Path ""); [contradiction|].
  destruct (PathPartsOf Path); reflexivity.
Qed.

(** C4, as the code has it. The empty path resolves to nothing; a path
    without segments that is not empty, such as the single slash, gives the
    whole root; and on a non-empty path, a segment that names a key its
    object lacks, or an index outside its array, makes the resolution
    return nothing, at whatever depth the segment stands. *)
Theorem GetValueAtPath_empty_and_missing (root : FJsonObject) :
  GetValueAtPath (Some root) "" = None
  /\ GetValueAtPath (Some root) "/" = Some (FJsonValueObject root)
  /\ (forall Path, Path <> "" -> PathPartsOf Path = [] ->
        GetValueAtPath (Some root) Path = Some (FJsonValueObject root))
  /\ (forall Path pre Part post,
        Path <> "" ->
        PathPartsOf Path = pre ++ Part :: post ->
        (forall o,
           WalkPath (FJsonValueObject root) pre = Some (FJsonValueObject o) ->
           HasField o (UnescapePart Part) = false ->
           GetValueAtPath (Some root) Path = None)
        /\ (forall a,
              WalkPath (FJsonValueObject root) pre = Some (FJsonValueArray a) ->
              Atoi (UnescapePart Part) < 0 \/ Num a <= Atoi (UnescapePart Part) ->
              GetValueAtPath (Some root) Path = None)).
Proof.
  split; [reflexivity|]. split; [reflexivity|]. split.
  - intros Path Hne Hparts. unfold GetValueAtPath.
    destruct (String.eqb_spec Path ""); [contradiction|].
    rewrite Hparts. reflexivity.
  - intros Path pre Part post Hne Hparts.
    rewrite (GetValueAtPath_walks _ _ Hne), Hparts. split.
    + intros o Hpre Hmiss.
      rewrite (WalkPath_app pre (Part :: post) _ _ Hpre) by eauto.
      apply WalkPath_missing_key, Hmiss.
    + intros a Hpre Hout.
      rewrite (WalkPath_app pre (Part :: post) _ _ Hpre) by eauto.
      apply WalkPath_index_out_of_range, Hout.
Qed.

(** ** Recovery *)

Lemma NotifyDocumentChanged_DocumentID (s : State) :
  DocumentID (self (NotifyDocumentChanged s)) = DocumentID (self s).
Proof. apply (Core_fields _ _ (NotifyDocumentChanged_Core s)). Qed.

Lemma SetContent_DocumentID JsonObject (s : State) :
  DocumentID (self (snd (SetContent JsonObject s))) = DocumentID (self s).
Proof.
  destruct JsonObject as [o|]; [|reflexivity].
  unfold SetContent; cbn [snd]. rewrite NotifyDocumentChanged_DocumentID.
  reflexivity.
Qed.

Lemma SetContentFromString_DocumentID JsonString (s : State) :
  DocumentID (self (snd (SetContentFromString JsonString s)))
  = DocumentID (self s).
Proof.
  unfold SetContentFromString. destruct (Deserialize _); [|reflexivity].
  apply SetContent_DocumentID.
Qed.

Lemma LoadLatestSnapshot_DocumentID LoadData (s : State) :
  DocumentID (self (LoadLatestSnapshot LoadData s)) = DocumentID (self s).
Proof.
  unfold LoadLatestSnapshot.
  destruct (TryGetObjectField _ _); [|reflexivity].
  destruct (_ || _); reflexivity.
Qed.

Lemma LoadFromLocal_success_iff (s : State) :
  fst (LoadFromLocal s) = true <-> LoadableRecord s <> None.
Proof.
  unfold LoadFromLocal, LoadableRecord.
  destruct (negb (FileExists _ _)); cbn; [intuition congruence|].
  destruct (LoadFileToString _ _); cbn; [|intuition congruence].
  destruct (Deserialize _) as [LoadData|]; cbn; [|intuition congruence].
  destruct (TryGetStringField LoadData "documentId"); cbn; [|intuition congruence].
  destruct (FString_ne _ _); cbn; [intuition congruence|].
  destruct (TryGetNumberField _ _); cbn;
    destruct (TryGetObjectField LoadData "content"); cbn; intuition congruence.
Qed.

(** A failed local load writes the error message, and the version when
    the record has one but lacks the content; it writes nothing else. *)
Lemma LoadFromLocal_failure (s : State) :
  fst (LoadFromLocal s) = false ->
  DocumentID (self (snd (LoadFromLocal s))) = DocumentID (self s)
  /\ SnapshotHistory (self (snd (LoadFromLocal s))) = SnapshotHistory (self s)
  /\ OperationHistory (self (snd (LoadFromLocal s))) = OperationHistory (self s)
  /\ Content (self (snd (LoadFromLocal s))) = Content (self s)
  /\ world (snd (LoadFromLocal s)) = world s.
Proof.
  unfold LoadFromLocal.
  destruct (negb (FileExists _ _)); cbn; [auto|].
  destruct (LoadFileToString _ _); cbn; [|auto].
  destruct (Deserialize _) as [LoadData|]; cbn; [|auto].
  destruct (_ || _); cbn; [auto|].
  destruct (TryGetNumberField _ _); cbn;
    destruct (TryGetObjectField LoadData "content"); cbn; auto; discriminate.
Qed.

Lemma LoadFromLocal_DocumentID (s : State) :
  DocumentID (self (snd (LoadFromLocal s))) = DocumentID (self s).
Proof.
  unfold LoadFromLocal.
  destruct (negb (FileExists _ _)); cbn; [auto|].
  destruct (LoadFileToString _ _); cbn; [|auto].
  destruct (Deserialize _) as [LoadData|]; cbn; [|auto].
  destruct (_ || _); cbn; [auto|].
  destruct (TryGetNumberField _ _); cbn;
    destruct (TryGetObjectField LoadData "content"); cbn; auto;
    rewrite NotifyDocumentChanged_DocumentID, LoadLatestSnapshot_DocumentID;
    reflexivity.
Qed.

Lemma RestoreFromSnapshotRef_DocumentID r (s : State) :
  DocumentID (self (snd (RestoreFromSnapshotRef r s))) = DocumentID (self s).
Proof.
  unfold RestoreFromSnapshotRef.
  destruct (FString_ne _ _); [reflexivity|].
  pose proof (SetContentFromString_DocumentID
                (FJsonCRDTSnapshot.Content (ReadSnapshot r s)) s) as H.
  destruct (SetContentFromString _ s) as [[] s1]; cbn in H |- *; [|exact H].
  rewrite NotifyDocumentChanged_DocumentID. exact H.
Qed.

Lemma Last_Some_nth {A : Type} (l : list A) (x d : A) :
  Last l = Some x -> nth (List.length l - 1) l d = x.
Proof. unfold Last. intros H. apply nth_error_nth. exact H. Qed.

(** C9. [RecoverDocument] tries the local load first.  When the load
    succeeds nothing else is tried: the result is the loaded state with a
    document-recovered notification tagged LocalStorage.  Only when it fails
    is the newest snapshot restored, and a successful restore is tagged
    Snapshot.  When the load fails and there is no snapshot, or the restore
    fails too, the call fails and the error message is recorded. *)
Theorem RecoverDocument_order (s : State) :
  let loaded := LoadFromLocal s in
  let id := DocumentID (self s) in
  (fst loaded = true ->
   RecoverDocument s
   = (true, Emit (DocumentRecovered id "LocalStorage") (snd loaded)))
  /\ (fst loaded = false ->
      SnapshotHistory (self (snd loaded)) = SnapshotHistory (self s)
      /\ match Last (SnapshotHistory (self s)) with
         | None =>
             RecoverDocument s
             = (false, SetLastErrorMessage RecoveryFailure (snd loaded))
         | Some newest =>
             let slot :=
               HistorySlot (List.length (SnapshotHistory (self s)) - 1) newest in
             let restored := RestoreFromSnapshotRef slot (snd loaded) in
             ReadSnapshot slot (snd loaded) = newest
             /\ (fst restored = true ->
                 RecoverDocument s
                 = (true, Emit (DocumentRecovered id "Snapshot") (snd restored)))
             /\ (fst restored = false ->
                 RecoverDocument s
                 = (false, SetLastErrorMessage RecoveryFailure (snd restored)))
         end)
  /\ (fst (RecoverDocument s) = false ->
      LastErrorMessage (self (snd (RecoverDocument s))) = RecoveryFailure)
  /\ (fst (RecoverDocument s) = true ->
      exists before tag,
        Events (world (snd (RecoverDocument s)))
        = before ++ [DocumentRecovered id tag]
        /\ (tag = "LocalStorage" <-> fst loaded = true)
        /\ (tag = "Snapshot" <-> fst loaded = false)).
Proof.
  intros loaded id.
  pose proof (LoadFromLocal_DocumentID s) as Hid.
  pose proof (LoadFromLocal_failure s) as Hfail.
  fold loaded in Hid, Hfail.
  unfold RecoverDocument. fold loaded.
  destruct loaded as [[] s1]; cbn [fst snd] in *.
  - rewrite Hid. fold id.
    split; [reflexivity|]. split; [discriminate|]. split; [discriminate|].
    intros _. exists (Events (world s1)), "LocalStorage".
    split; [reflexivity|]. split; [tauto|]. split; discriminate.
  - destruct (Hfail eq_refl) as (_ & Hsnap & _).
    split; [discriminate|].
    rewrite Hsnap.
    destruct (Last (SnapshotHistory (self s))) as [newest|] eqn:HL.
    + set (slot := HistorySlot (List.length (SnapshotHistory (self s)) - 1) newest).
      pose proof (RestoreFromSnapshotRef_DocumentID slot s1) as Hid2.
      assert (Hread : ReadSnapshot slot s1 = newest).
      { subst slot. cbn. rewrite Hsnap. apply Last_Some_nth, HL. }
      destruct (RestoreFromSnapshotRef slot s1) as [[] s2]; cbn [fst snd] in *.
      * rewrite Hid2, Hid. fold id.
        split; [split; [reflexivity|]; split; [exact Hread|];
                split; [reflexivity|discriminate]|].
        split; [discriminate|].
        intros _. exists (Events (world s2)), "Snapshot".
        split; [reflexivity|]. split; [split; discriminate|tauto].
      * split; [split; [reflexivity|]; split; [exact Hread|];
                split; [discriminate|reflexivity]|].
        split; [reflexivity|discriminate].
    + split; [split; reflexivity|]. split; [reflexivity|discriminate].
Qed.

(** ** Log entries *)

Lemma LogsRemote_nil : LogsRemote [].
Proof. intros e []. Qed.

Lemma LogsRemote_app a b : LogsRemote a -> LogsRemote b -> LogsRemote (a ++ b).
Proof.
  intros Ha Hb e H. apply in_app_or in H. destruct H; [apply Ha|apply Hb]; assumption.
Qed.

Lemma Emitted_same (s s' : State) :
  Events (world s') = Events (world s) -> Emitted LogsRemote s s'.
Proof.
  intros H. exists []. rewrite app_nil_r. split; [exact H|apply LogsRemote_nil].
Qed.

Lemma Emitted_trans (s s1 s2 : State) :
  Emitted LogsRemote s s1 -> Emitted LogsRemote s1 s2 -> Emitted LogsRemote s s2.
Proof.
  intros [a [Ea Ha]] [b [Eb Hb]]. exists (a ++ b).
  rewrite Eb, Ea, app_assoc. split; [reflexivity|apply LogsRemote_app; assumption].
Qed.

Lemma Emitted_Emit (ev : Event) (s : State) :
  match ev with
  | LoggerLogOperation e => FJsonCRDTLogEntry.Source e = "Remote"
  | _ => True
  end ->
  Emitted LogsRemote s (Emit ev s).
Proof.
  intros H. exists [ev]. split; [reflexivity|].
  intros e [-> | []]. exact H.
Qed.

Lemma SaveLocally_Events (s : State) :
  Events (world (snd (SaveLocally s))) = Events (world s).
Proof.
  unfold SaveLocally.
  destruct (Directories (world s) _).
  - cbn. destruct (Serialize _) as [[] SaveString]; cbn; [|reflexivity].
    unfold SaveStringToFile. destruct (WritableFile _ _); reflexivity.
  - unfold CreateDirectoryTree. destruct (CreatableDirectory _ _); cbn; [|reflexivity].
    destruct (Serialize _) as [[] SaveString]; cbn; [|reflexivity].
    unfold SaveStringToFile; cbn. destruct (WritableFile _ _); reflexivity.
Qed.

Lemma NotifyDocumentChanged_Events (s : State) :
  Events (world (NotifyDocumentChanged s))
  = Events (world s) ++ [DocumentChanged (DocumentID (self s))].
Proof.
  unfold NotifyDocumentChanged. cbn [Emit SetWorld self].
  destruct (bAutoLocalSave (self s)); [|reflexivity].
  rewrite SaveLocally_Events. reflexivity.
Qed.

Lemma NotifyDocumentChanged_Emitted (s : State) :
  Emitted LogsRemote s (NotifyDocumentChanged s).
Proof.
  exists [DocumentChanged (DocumentID (self s))].
  split; [apply NotifyDocumentChanged_Events|].
  intros e [H | []]. discriminate.
Qed.

Lemma LogOperation_Events Operation OldValue NewValue b Conflict (s : State) :
  Events (world (LogOperation Operation OldValue NewValue b Conflict s))
  = Events (world s)
    ++ (if LoggingEnabled s
        then [LoggerLogOperation
                (MakeLogEntry Operation OldValue NewValue b Conflict s)]
        else []).
Proof.
  unfold LogOperation, LoggingEnabled.
  destruct (Logger (self s)) as [L|]; [|symmetry; apply app_nil_r].
  destruct (FJsonCRDTDefaultLogger.IsLoggingEnabled L); cbn;
    [reflexivity | symmetry; apply app_nil_r].
Qed.

Lemma LogOperation_Emitted Operation OldValue NewValue b Conflict (s : State) :
  Emitted LogsRemote s (LogOperation Operation OldValue NewValue b Conflict s).
Proof.
  eexists. split; [apply LogOperation_Events|].
  destruct (LoggingEnabled s); [|apply LogsRemote_nil].
  intros e [H | []]. injection H as <-. reflexivity.
Qed.

Lemma ApplyOperation_Events Operation (s : State) :
  Events (world (ApplyOperation Operation s))
  = Events (world s) ++ [OperationApplied Operation].
Proof. unfold ApplyOperation. destruct (FJsonCRDTOperation.Type_ _); reflexivity. Qed.

Lemma ApplyOperation_Emitted Operation (s : State) :
  Emitted LogsRemote s (ApplyOperation Operation s).
Proof.
  exists [OperationApplied Operation]. split; [apply ApplyOperation_Events|].
  intros e [H | []]. discriminate.
Qed.

Lemma ResolveConflict_world Conflict (s : State) :
  world (snd (ResolveConflict Conflict s)) = world s.
Proof.
  unfold ResolveConflict. destruct (Resolver_ResolveConflict _ _). reflexivity.
Qed.

Lemma ApplyVerbatim_Emitted OldValue Operation (s : State) :
  Emitted LogsRemote s (ApplyVerbatim OldValue Operation s).
Proof.
  unfold ApplyVerbatim.
  eapply Emitted_trans; [apply ApplyOperation_Emitted|].
  eapply Emitted_trans; [apply LogOperation_Emitted|].
  apply Emitted_same. reflexivity.
Qed.

Lemma ScanHistory_Emitted n Operation OldValue :
  forall b Conflict (s : State),
    Emitted LogsRemote s (snd (ScanHistory n Operation OldValue b Conflict s)).
Proof.
  induction n as [|i IH]; intros b Conflict s; cbn [ScanHistory].
  - apply Emitted_same. reflexivity.
  - destruct (nth_error _ i) as [LocalOperation|];
      [|apply Emitted_same; reflexivity].
    destruct (Collides _ _); [|apply IH].
    pose proof (ResolveConflict_world
                  (FillConflict LocalOperation Operation Conflict) s) as HW.
    destruct (ResolveConflict _ s) as [[[] c'] s']; cbn in HW.
    + eapply Emitted_trans; [|apply IH].
      eapply Emitted_trans; [apply Emitted_same; rewrite HW; reflexivity|].
      eapply Emitted_trans; [apply ApplyOperation_Emitted|].
      eapply Emitted_trans; [apply (Emitted_Emit (ConflictDetected c')); exact I|].
      eapply Emitted_trans; [apply LogOperation_Emitted|].
      apply Emitted_same. reflexivity.
    + eapply Emitted_trans; [|apply IH].
      apply Emitted_same. rewrite HW. reflexivity.
Qed.

Lemma ProcessOperation_Emitted (s : State) Operation :
  Emitted LogsRemote s (ProcessOperation s Operation).
Proof.
  unfold ProcessOperation.
  set (OldValue := OldValueOf Operation s).
  destruct (EJsonCRDTOperationType.eqb _ _).
  - pose proof (ScanHistory_Emitted (List.length (OperationHistory (self s)))
                  Operation OldValue false
                  (FJsonCRDTConflict.Default (UtcNow (world s))) s) as HS.
    destruct (ScanHistory _ _ _ _ _ _) as [[[] c] s']; cbn in HS |- *.
    + exact HS.
    + eapply Emitted_trans; [exact HS|apply ApplyVerbatim_Emitted].
  - cbn. apply ApplyVerbatim_Emitted.
Qed.

Lemma fold_ProcessOperation_Emitted ops :
  forall s : State, Emitted LogsRemote s (fold_left ProcessOperation ops s).
Proof.
  induction ops as [|op ops IH]; intros s; cbn.
  - apply Emitted_same. reflexivity.
  - eapply Emitted_trans; [apply ProcessOperation_Emitted|apply IH].
Qed.

Lemma ApplyPatch_Emitted Patch (s : State) :
  Emitted LogsRemote s (snd (ApplyPatch Patch s)).
Proof.
  unfold ApplyPatch. destruct (FString_ne _ _); cbn [snd].
  - apply Emitted_same. reflexivity.
  - eapply Emitted_trans; [apply fold_ProcessOperation_Emitted|].
    eapply Emitted_trans; [|apply NotifyDocumentChanged_Emitted].
    apply Emitted_same. reflexivity.
Qed.

Lemma SetContent_Emitted JsonObject (s : State) :
  Emitted LogsRemote s (snd (SetContent JsonObject s)).
Proof.
  destruct JsonObject as [o|]; cbn [SetContent snd].
  - eapply Emitted_trans; [|apply NotifyDocumentChanged_Emitted].
    apply Emitted_same. reflexivity.
  - apply Emitted_same. reflexivity.
Qed.

Lemma SetContentFromString_Emitted JsonString (s : State) :
  Emitted LogsRemote s (snd (SetContentFromString JsonString s)).
Proof.
  unfold SetContentFromString. destruct (Deserialize _).
  - apply SetContent_Emitted.
  - apply Emitted_same. reflexivity.
Qed.

Lemma LoadLatestSnapshot_world LoadData (s : State) :
  world (LoadLatestSnapshot LoadData s) = world s.
Proof.
  unfold LoadLatestSnapshot.
  destruct (TryGetObjectField _ _); [|reflexivity].
  destruct (_ || _); reflexivity.
Qed.

Lemma LoadFromLocal_Emitted (s : State) :
  Emitted LogsRemote s (snd (LoadFromLocal s)).
Proof.
  unfold LoadFromLocal.
  destruct (negb (FileExists _ _)); cbn; [apply Emitted_same; reflexivity|].
  destruct (LoadFileToString _ _); cbn; [|apply Emitted_same; reflexivity].
  destruct (Deserialize _) as [LoadData|]; cbn; [|apply Emitted_same; reflexivity].
  destruct (_ || _); cbn; [apply Emitted_same; reflexivity|].
  destruct (TryGetNumberField _ _); cbn;
    destruct (TryGetObjectField LoadData "content"); cbn;
    try (apply Emitted_same; reflexivity);
    (eapply Emitted_trans; [|apply NotifyDocumentChanged_Emitted]);
    apply Emitted_same; rewrite LoadLatestSnapshot_world; reflexivity.
Qed.

Lemma RestoreFromSnapshotRef_Emitted r (s : State) :
  Emitted LogsRemote s (snd (RestoreFromSnapshotRef r s)).
Proof.
  unfold RestoreFromSnapshotRef.
  destruct (FString_ne _ _); [apply Emitted_same; reflexivity|].
  pose proof (SetContentFromString_Emitted
                (FJsonCRDTSnapshot.Content (ReadSnapshot r s)) s) as H.
  destruct (SetContentFromString _ s) as [[] s1]; cbn in H |- *; [|exact H].
  eapply Emitted_trans; [exact H|].
  eapply Emitted_trans; [|apply NotifyDocumentChanged_Emitted].
  apply Emitted_same. reflexivity.
Qed.

Lemma RecoverDocument_Emitted (s : State) :
  Emitted LogsRemote s (snd (RecoverDocument s)).
Proof.
  unfold RecoverDocument.
  pose proof (LoadFromLocal_Emitted s) as HL.
  destruct (LoadFromLocal s) as [[] s1]; cbn in HL |- *.
  - eapply Emitted_trans; [exact HL|]. apply Emitted_Emit. exact I.
  - destruct (Last _) as [newest|].
    + pose proof (RestoreFromSnapshotRef_Emitted
                    (HistorySlot (List.length (SnapshotHistory (self s1)) - 1)
                       newest) s1) as HR.
      destruct (RestoreFromSnapshotRef _ s1) as [[] s2]; cbn in HR |- *.
      * eapply Emitted_trans; [exact HL|].
        eapply Emitted_trans; [exact HR|]. apply Emitted_Emit. exact I.
      * eapply Emitted_trans; [exact HL|].
        eapply Emitted_trans; [exact HR|]. apply Emitted_same. reflexivity.
    + eapply Emitted_trans; [exact HL|]. apply Emitted_same. reflexivity.
Qed.

Lemma Call_Emitted (s : State) (c : Command) :
  Emitted LogsRemote s (Call s c).
Proof.
  destruct c; cbn [Call].
  - apply Emitted_same. reflexivity.
  - apply SetContent_Emitted.
  - apply SetContentFromString_Emitted.
  - apply ApplyPatch_Emitted.
  - apply Emitted_same, SaveLocally_Events.
  - apply LoadFromLocal_Emitted.
  - apply RestoreFromSnapshotRef_Emitted.
  - apply RecoverDocument_Emitted.
  - unfold SetAutoLocalSave. destruct bEnable; cbn.
    + apply Emitted_same. rewrite SaveLocally_Events. reflexivity.
    + apply Emitted_same. reflexivity.
  - unfold SetConflictStrategy. cbn.
    destruct (ConflictResolver (self s)) as [[old|f st]|];
      try (apply Emitted_same; reflexivity).
    destruct (negb _); apply Emitted_same; reflexivity.
  - destruct InConflictResolver; apply Emitted_same; reflexivity.
  - unfold SetLoggingEnabled. destruct (Logger (self s));
      apply Emitted_same; reflexivity.
Qed.

(** C10. Every entry the document hands to its logger while a patch is
    applied has the source Remote, whatever the patch and wherever it was
    made; and over any sequence of calls on the document no entry with the
    source Local is handed to the logger. *)
Theorem LogEntries_have_Source_Remote :
  (forall (Patch : FJsonCRDTPatch.t) (s : State),
      exists new,
        Events (world (snd (ApplyPatch Patch s))) = Events (world s) ++ new
        /\ forall e, In e (LoggedEntries new) ->
                     FJsonCRDTLogEntry.Source e = "Remote")
  /\ (forall (cs : list Command) (s : State),
        exists new,
          Events (world (Calls cs s)) = Events (world s) ++ new
          /\ forall e, In e (LoggedEntries new) ->
                       FJsonCRDTLogEntry.Source e = "Remote"
                       /\ FJsonCRDTLogEntry.Source e <> "Local").
Proof.
  assert (HIn : forall new e, In e (LoggedEntries new) ->
                              In (LoggerLogOperation e) new).
  { intros new e H. unfold LoggedEntries in H. apply in_flat_map in H.
    destruct H as [ev [Hev He]]. destruct ev; try contradiction.
    destruct He as [<- | []]. exact Hev. }
  split.
  - intros Patch s. destruct (ApplyPatch_Emitted Patch s) as [new [E H]].
    exists new. split; [exact E|]. intros e He. apply H, HIn, He.
  - intros cs. induction cs as [|c cs IH]; intros s.
    + exists []. split; [cbn; symmetry; apply app_nil_r|]. intros e [].
    + destruct (Call_Emitted s c) as [a [Ea Ha]].
      destruct (IH (Call s c)) as [b [Eb Hb]].
      exists (a ++ b). cbn [Calls fold_left]. unfold Calls in Eb.
      rewrite Eb, Ea, app_assoc. split; [reflexivity|].
      intros e He. unfold LoggedEntries in He. rewrite flat_map_app in He.
      apply in_app_or in He. destruct He as [He | He].
      * assert (FJsonCRDTLogEntry.Source e = "Remote") as -> by apply Ha, HIn, He.
        split; [reflexivity|discriminate].
      * apply Hb, He.
Qed.

(** ** Patches of [Test] operations *)

Lemma ProcessOperation_Test (s : State) (op : FJsonCRDTOperation.t) :
  IsTest op -> ProcessOperation s op = ApplyVerbatim (OldValueOf op s) op s.
Proof. unfold IsTest, ProcessOperation. intros ->. reflexivity. Qed.

Lemma LogOperation_LoggingEnabled Operation OldValue NewValue b Conflict (s : State) :
  LoggingEnabled (LogOperation Operation OldValue NewValue b Conflict s)
  = LoggingEnabled s.
Proof.
  unfold LogOperation, LoggingEnabled.
  destruct (Logger (self s)) as [L|] eqn:EL; [|rewrite EL; reflexivity].
  destruct (FJsonCRDTDefaultLogger.IsLoggingEnabled L) eqn:E; cbn.
  - unfold FJsonCRDTDefaultLogger.LogOperation,
      FJsonCRDTDefaultLogger.IsLoggingEnabled in *.
    rewrite E. reflexivity.
  - rewrite EL. exact E.
Qed.

Lemma ApplyVerbatim_LoggingEnabled OldValue op (s : State) :
  LoggingEnabled (ApplyVerbatim OldValue op s) = LoggingEnabled s.
Proof.
  unfold ApplyVerbatim.
  transitivity (LoggingEnabled (ApplyOperation op s)).
  - rewrite <- (LogOperation_LoggingEnabled op OldValue
                  (FJsonCRDTOperation.Value op) false
                  (FJsonCRDTConflict.Default (UtcNow (world (ApplyOperation op s))))
                  (ApplyOperation op s)).
    reflexivity.
  - unfold LoggingEnabled. rewrite ApplyOperation_self. reflexivity.
Qed.

Lemma ApplyVerbatim_OperationHistory OldValue op (s : State) :
  OperationHistory (self (ApplyVerbatim OldValue op s))
  = PushHistory (MaxOperationHistory (self s)) (OperationHistory (self s)) op.
Proof.
  unfold ApplyVerbatim, AddToOperationHistory. cbn.
  set (s1 := LogOperation _ _ _ _ _ _).
  assert (H : MaxOperationHistory (self s1) = MaxOperationHistory (self s)
              /\ OperationHistory (self s1) = OperationHistory (self s)).
  { subst s1. unfold LogOperation. rewrite ApplyOperation_self.
    destruct (Logger (self s)) as [L|]; [|rewrite ApplyOperation_self; auto].
    destruct (negb _); cbn; rewrite ApplyOperation_self; auto. }
  destruct H as [-> ->]. reflexivity.
Qed.

Lemma ApplyVerbatim_Events OldValue op (s : State) :
  exists entry,
    EntrySummary entry
    = (OperationTypeName (FJsonCRDTOperation.Type_ op),
       FJsonCRDTOperation.Path op, FJsonCRDTOperation.Value op, false,
       FJsonCRDTOperation.ClientID op, "Remote")
    /\ Events (world (ApplyVerbatim OldValue op s))
       = Events (world s)
         ++ OperationApplied op
            :: (if LoggingEnabled s then [LoggerLogOperation entry] else []).
Proof.
  unfold ApplyVerbatim.
  eexists. split; [|].
  2:{ change (world (AddToOperationHistory op ?x)) with (world x).
      rewrite LogOperation_Events, ApplyOperation_Events, <- app_assoc.
      cbn [app]. f_equal. f_equal.
      unfold LoggingEnabled. rewrite ApplyOperation_self. reflexivity. }
  reflexivity.
Qed.

Lemma fold_ProcessOperation_Tests ops :
  forall s : State,
    Forall IsTest ops ->
    OperationHistory (self (fold_left ProcessOperation ops s))
    = fold_left (PushHistory (MaxOperationHistory (self s))) ops
                (OperationHistory (self s))
    /\ exists new,
         Events (world (fold_left ProcessOperation ops s))
         = Events (world s) ++ new
         /\ AppliedOperations new = ops
         /\ map EntrySummary (LoggedEntries new)
            = if LoggingEnabled s then map TestSummary ops else [].
Proof.
  induction ops as [|op ops IH]; intros s Hall.
  - cbn. split; [reflexivity|]. exists []. rewrite app_nil_r.
    destruct (LoggingEnabled s); auto.
  - inversion Hall as [|? ? Hop Hops]; subst.
    cbn [fold_left]. rewrite (ProcessOperation_Test s op Hop).
    set (s1 := ApplyVerbatim (OldValueOf op s) op s).
    destruct (IH s1 Hops) as [Hhist [new [Hev [Happ Hlog]]]].
    assert (Hmax : MaxOperationHistory (self s1) = MaxOperationHistory (self s)).
    { subst s1. rewrite <- (ProcessOperation_Test s op Hop).
      apply (Core_fields _ _ (ProcessOperation_Core s op)). }
    split.
    + rewrite Hhist, Hmax. subst s1.
      rewrite ApplyVerbatim_OperationHistory. reflexivity.
    + destruct (ApplyVerbatim_Events (OldValueOf op s) op s)
        as [entry [Hsum Hev1]].
      fold s1 in Hev1.
      rewrite Hop in Hsum. cbn [OperationTypeName] in Hsum.
      exists ((OperationApplied op
               :: (if LoggingEnabled s then [LoggerLogOperation entry] else []))
              ++ new).
      rewrite Hev, Hev1, <- app_assoc. split; [reflexivity|].
      unfold AppliedOperations, LoggedEntries in *.
      rewrite !flat_map_app.
      assert (HL : LoggingEnabled s1 = LoggingEnabled s)
        by apply ApplyVerbatim_LoggingEnabled.
      rewrite HL in Hlog.
      destruct (LoggingEnabled s); cbn; rewrite ?Happ, ?Hlog.
      * split; [reflexivity|]. rewrite Hsum. reflexivity.
      * split; reflexivity.
Qed.

(** C3, as the code has it. A patch of [Test] operations with the
    document's id succeeds and leaves the content as it was, but the
    version goes up by one as for any patch; each operation is handed to
    [ApplyOperation] and added to the history in order, the oldest entry
    leaving once the maximum is passed; and when a logger is set and
    enabled, each operation gives one log entry, in order, of type Test,
    without conflict. *)
Theorem Test_patch_effects (Patch : FJsonCRDTPatch.t) (s : State) :
  FString_ne (FJsonCRDTPatch.DocumentID Patch) (DocumentID (self s)) = false ->
  Forall IsTest (FJsonCRDTPatch.Operations Patch) ->
  let ops := FJsonCRDTPatch.Operations Patch in
  let s' := snd (ApplyPatch Patch s) in
  fst (ApplyPatch Patch s) = true
  /\ Content (self s') = Content (self s)
  /\ Version (self s') = wrap64 (Version (self s) + 1)
  /\ (Int64Min <= Version (self s) < Int64Max ->
      Version (self s') = Version (self s) + 1)
  /\ OperationHistory (self s')
     = fold_left (PushHistory (MaxOperationHistory (self s))) ops
                 (OperationHistory (self s))
  /\ exists new,
       Events (world s') = Events (world s) ++ new
       /\ AppliedOperations new = ops
       /\ map EntrySummary (LoggedEntries new)
          = if LoggingEnabled s then map TestSummary ops else [].
Proof.
  intros Hid Hall ops s'.
  assert (Hok : fst (ApplyPatch Patch s) = true).
  { unfold ApplyPatch. rewrite Hid. reflexivity. }
  pose proof (ApplyPatch_Version Patch s Hok) as HV. fold s' in HV.
  destruct (fold_ProcessOperation_Tests ops s Hall)
    as [Hhist [new [Hev [Happ Hlog]]]].
  assert (Hs' : s' = NotifyDocumentChanged
                       (CreateAndAddSnapshot
                          (IncrementVersion (fold_left ProcessOperation ops s)))).
  { subst s'. unfold ApplyPatch. rewrite Hid. reflexivity. }
  split; [exact Hok|]. split; [|split; [exact HV|split; [|split]]].
  - rewrite Hs'.
    rewrite (proj1 (proj2 (proj2 (Core_fields _ _ (NotifyDocumentChanged_Core _))))).
    cbn. apply (Core_fields _ _ (fold_ProcessOperation_Core ops s)).
  - intros Hrange. rewrite HV. apply wrap64_succ, Hrange.
  - rewrite Hs', NotifyDocumentChanged_OperationHistory. cbn. exact Hhist.
  - exists (new ++ [DocumentChanged (DocumentID (self s))]).
    rewrite Hs', NotifyDocumentChanged_Events. cbn [CreateAndAddSnapshot
      IncrementVersion SetDoc world self DocumentID set_SnapshotHistory
      set_Version].
    rewrite Hev, <- app_assoc.
    rewrite (proj1 (Core_fields _ _ (fold_ProcessOperation_Core ops s))).
    split; [reflexivity|].
    unfold AppliedOperations, LoggedEntries in *. rewrite !flat_map_app.
    cbn. rewrite !app_nil_r. split; assumption.
Qed.

(** ** The bounds of the histories *)

Lemma Num_app_one {A : Type} (l : list A) (x : A) : Num (l ++ [x]) = Num l + 1.
Proof. unfold Num. rewrite length_app. cbn. lia. Qed.

(** Adding to the history drops nothing, or the oldest entry alone. *)
Lemma PushHistory_evicts_oldest Max History Op :
  PushHistory Max History Op = History ++ [Op]
  \/ PushHistory Max History Op = tl (History ++ [Op]).
Proof. unfold PushHistory. destruct (_ >? _); auto. Qed.

Lemma PushHistory_bound Max History Op :
  Num History <= Max -> Num (PushHistory Max History Op) <= Max.
Proof.
  unfold PushHistory. intros H.
  destruct (Z.gtb_spec (Num (History ++ [Op])) Max) as [Hgt|Hle]; [|exact Hle].
  rewrite Num_app_one in Hgt.
  destruct History as [|x r]; cbn [app tl].
  - unfold Num in *. cbn in *. lia.
  - rewrite Num_app_one. unfold Num in *. cbn [List.length] in H. lia.
Qed.

Lemma PushHistory_newest Max History Op :
  0 < Max -> Last (PushHistory Max History Op) = Some Op.
Proof.
  intros HM.
  assert (HL : forall l : list FJsonCRDTOperation.t, Last (l ++ [Op]) = Some Op).
  { intros l. unfold Last. rewrite length_app. cbn.
    replace (List.length l + 1 - 1)%nat with (List.length l) by lia.
    rewrite nth_error_app2 by lia. rewrite Nat.sub_diag. reflexivity. }
  unfold PushHistory.
  destruct (Z.gtb_spec (Num (History ++ [Op])) Max) as [Hgt|Hle]; [|apply HL].
  destruct History as [|x r]; cbn [app tl]; [|apply HL].
  unfold Num in Hgt. cbn in Hgt. lia.
Qed.

Lemma SaveLocally_OperationPart (s : State) :
  OperationPart (self (snd (SaveLocally s))) = OperationPart (self s).
Proof. destruct (SaveLocally_self s) as [-> | [msg ->]]; reflexivity. Qed.

Lemma NotifyDocumentChanged_OperationPart (s : State) :
  OperationPart (self (NotifyDocumentChanged s)) = OperationPart (self s).
Proof.
  unfold NotifyDocumentChanged. cbn.
  destruct (bAutoLocalSave (self s)); [|reflexivity].
  rewrite SaveLocally_OperationPart. reflexivity.
Qed.

Lemma SetContent_OperationPart JsonObject (s : State) :
  OperationPart (self (snd (SetContent JsonObject s))) = OperationPart (self s).
Proof.
  destruct JsonObject as [o|]; [|reflexivity].
  unfold SetContent; cbn [snd]. rewrite NotifyDocumentChanged_OperationPart.
  reflexivity.
Qed.

Lemma SetContentFromString_OperationPart JsonString (s : State) :
  OperationPart (self (snd (SetContentFromString JsonString s)))
  = OperationPart (self s).
Proof.
  unfold SetContentFromString. destruct (Deserialize _); [|reflexivity].
  apply SetContent_OperationPart.
Qed.

Lemma LoadLatestSnapshot_OperationPart LoadData (s : State) :
  OperationPart (self (LoadLatestSnapshot LoadData s)) = OperationPart (self s).
Proof.
  unfold LoadLatestSnapshot.
  destruct (TryGetObjectField _ _); [|reflexivity].
  destruct (_ || _); reflexivity.
Qed.

Lemma LoadFromLocal_OperationPart (s : State) :
  OperationPart (self (snd (LoadFromLocal s))) = OperationPart (self s).
Proof.
  unfold LoadFromLocal.
  destruct (negb (FileExists _ _)); cbn; [auto|].
  destruct (LoadFileToString _ _); cbn; [|auto].
  destruct (Deserialize _) as [LoadData|]; cbn; [|auto].
  destruct (_ || _); cbn; [auto|].
  destruct (TryGetNumberField _ _); cbn;
    destruct (TryGetObjectField LoadData "content"); cbn; auto;
    rewrite NotifyDocumentChanged_OperationPart, LoadLatestSnapshot_OperationPart;
    reflexivity.
Qed.

Lemma RestoreFromSnapshotRef_OperationPart r (s : State) :
  OperationPart (self (snd (RestoreFromSnapshotRef r s))) = OperationPart (self s).
Proof.
  unfold RestoreFromSnapshotRef.
  destruct (FString_ne _ _); [reflexivity|].
  pose proof (SetContentFromString_OperationPart
                (FJsonCRDTSnapshot.Content (ReadSnapshot r s)) s) as H.
  destruct (SetContentFromString _ s) as [[] s1]; cbn in H |- *; [|exact H].
  rewrite NotifyDocumentChanged_OperationPart. exact H.
Qed.

Lemma RecoverDocument_OperationPart (s : State) :
  OperationPart (self (snd (RecoverDocument s))) = OperationPart (self s).
Proof.
  unfold RecoverDocument.
  pose proof (LoadFromLocal_OperationPart s) as HL.
  destruct (LoadFromLocal s) as [[] s1]; cbn in HL |- *; [exact HL|].
  destruct (Last _) as [newest|]; [|exact HL].
  pose proof (RestoreFromSnapshotRef_OperationPart
                (HistorySlot (List.length (SnapshotHistory (self s1)) - 1)
                   newest) s1) as HR.
  destruct (RestoreFromSnapshotRef _ s1) as [[] s2]; cbn in HR |- *;
    rewrite <- HL; exact HR.
Qed.

Lemma LogOperation_OperationPart Operation OldValue NewValue b Conflict (s : State) :
  OperationPart (self (LogOperation Operation OldValue NewValue b Conflict s))
  = OperationPart (self s).
Proof.
  unfold LogOperation. destruct (Logger (self s)) as [L|]; [|reflexivity].
  destruct (negb _); reflexivity.
Qed.

Lemma ResolveConflict_OperationPart Conflict (s : State) :
  OperationPart (self (snd (ResolveConflict Conflict s))) = OperationPart (self s).
Proof.
  unfold ResolveConflict. destruct (Resolver_ResolveConflict _ _). reflexivity.
Qed.

Lemma OperationPart_Bounded d d' :
  OperationPart d' = OperationPart d ->
  OperationHistoryBounded d -> OperationHistoryBounded d'.
Proof.
  unfold OperationPart, OperationHistoryBounded. intros H.
  injection H as -> -> _. auto.
Qed.

Lemma AddToOperationHistory_Bounded Op (s : State) :
  OperationHistoryBounded (self s) ->
  OperationHistoryBounded (self (AddToOperationHistory Op s)).
Proof. unfold OperationHistoryBounded. cbn. apply PushHistory_bound. Qed.

Lemma ApplyVerbatim_Bounded OldValue Op (s : State) :
  OperationHistoryBounded (self s) ->
  OperationHistoryBounded (self (ApplyVerbatim OldValue Op s)).
Proof.
  intros H. unfold ApplyVerbatim. apply AddToOperationHistory_Bounded.
  eapply OperationPart_Bounded; [apply LogOperation_OperationPart|].
  rewrite ApplyOperation_self. exact H.
Qed.

Lemma ScanHistory_Bounded n Operation OldValue :
  forall b Conflict (s : State),
    OperationHistoryBounded (self s) ->
    OperationHistoryBounded
      (self (snd (ScanHistory n Operation OldValue b Conflict s))).
Proof.
  induction n as [|i IH]; intros b Conflict s H; cbn [ScanHistory]; [exact H|].
  destruct (nth_error _ i) as [LocalOperation|]; [|exact H].
  destruct (Collides _ _); [|apply IH, H].
  pose proof (ResolveConflict_OperationPart
                (FillConflict LocalOperation Operation Conflict) s) as HR.
  destruct (ResolveConflict _ s) as [[[] c'] s']; cbn in HR.
  - apply IH. apply AddToOperationHistory_Bounded.
    eapply OperationPart_Bounded; [apply LogOperation_OperationPart|].
    cbn. rewrite ApplyOperation_self.
    eapply OperationPart_Bounded; [exact HR|exact H].
  - apply IH. eapply OperationPart_Bounded; [exact HR|exact H].
Qed.

Lemma ProcessOperation_Bounded (s : State) Operation :
  OperationHistoryBounded (self s) ->
  OperationHistoryBounded (self (ProcessOperation s Operation)).
Proof.
  intros H. unfold ProcessOperation.
  set (OldValue := OldValueOf Operation s).
  destruct (EJsonCRDTOperationType.eqb _ _).
  - pose proof (ScanHistory_Bounded (List.length (OperationHistory (self s)))
                  Operation OldValue false
                  (FJsonCRDTConflict.Default (UtcNow (world s))) s H) as HS.
    destruct (ScanHistory _ _ _ _ _ _) as [[[] c] s']; cbn in HS |- *.
    + exact HS.
    + apply ApplyVerbatim_Bounded, HS.
  - cbn. apply ApplyVerbatim_Bounded, H.
Qed.

Lemma fold_ProcessOperation_Bounded ops :
  forall s : State,
    OperationHistoryBounded (self s) ->
    OperationHistoryBounded (self (fold_left ProcessOperation ops s)).
Proof.
  induction ops as [|op ops IH]; intros s H; cbn; [exact H|].
  apply IH, ProcessOperation_Bounded, H.
Qed.

Lemma ApplyPatch_Bounded Patch (s : State) :
  OperationHistoryBounded (self s) ->
  OperationHistoryBounded (self (snd (ApplyPatch Patch s))).
Proof.
  intros H. unfold ApplyPatch. destruct (FString_ne _ _); cbn [snd]; [exact H|].
  eapply OperationPart_Bounded; [apply NotifyDocumentChanged_OperationPart|].
  cbn. apply (fold_ProcessOperation_Bounded _ s H).
Qed.

(** The half of C5 that holds: over any sequence of calls the operation
    history stays within its maximum. *)
Lemma Calls_OperationHistoryBounded (cs : list Command) :
  forall s : State,
    OperationHistoryBounded (self s) ->
    OperationHistoryBounded (self (Calls cs s)).
Proof.
  induction cs as [|c cs IH]; intros s H; [exact H|].
  cbn [Calls fold_left]. apply IH. clear IH.
  destruct c; cbn [Call].
  - exact H.
  - eapply OperationPart_Bounded; [apply SetContent_OperationPart|exact H].
  - eapply OperationPart_Bounded; [apply SetContentFromString_OperationPart|exact H].
  - apply ApplyPatch_Bounded, H.
  - eapply OperationPart_Bounded; [apply SaveLocally_OperationPart|exact H].
  - eapply OperationPart_Bounded; [apply LoadFromLocal_OperationPart|exact H].
  - eapply OperationPart_Bounded; [apply RestoreFromSnapshotRef_OperationPart|exact H].
  - eapply OperationPart_Bounded; [apply RecoverDocument_OperationPart|exact H].
  - unfold SetAutoLocalSave. destruct bEnable; cbn; [|exact H].
    eapply OperationPart_Bounded; [apply SaveLocally_OperationPart|exact H].
  - unfold SetConflictStrategy. cbn.
    destruct (ConflictResolver (self s)) as [[old|f st]|]; try exact H.
    destruct (negb _); exact H.
  - destruct InConflictResolver; exact H.
  - unfold SetLoggingEnabled. destruct (Logger (self s)); exact H.
Qed.

(** A new snapshot is added at the end and the oldest ones leave: the
    history is within its maximum afterwards, whatever it was before. *)
Lemma CreateAndAddSnapshot_Bounded (s : State) :
  0 <= MaxSnapshotHistory (self s) ->
  SnapshotHistoryBounded (self (CreateAndAddSnapshot s))
  /\ exists k, SnapshotHistory (self (CreateAndAddSnapshot s))
               = skipn k (SnapshotHistory (self s) ++ [CreateSnapshot s]).
Proof.
  intros HM. unfold SnapshotHistoryBounded, CreateAndAddSnapshot. cbn.
  set (added := SnapshotHistory (self s) ++ [CreateSnapshot s]).
  destruct (Z.gtb_spec (Num added) (MaxSnapshotHistory (self s))) as [Hgt|Hle].
  - split; [|eexists; reflexivity].
    unfold Num in *. rewrite length_skipn. lia.
  - split; [exact Hle|]. exists 0%nat. reflexivity.
Qed.

(** What [LoadFromLocal] does to the snapshot history when the record has
    a latest snapshot of this document: it adds one entry and removes
    none. *)
Lemma LoadFromLocal_adds_untrimmed (s : State) LoadData SnapshotObject id :
  LoadableRecord s = Some LoadData ->
  TryGetObjectField LoadData "latestSnapshot" = Some SnapshotObject ->
  TryGetStringField SnapshotObject "documentId" = Some id ->
  FString_ne id (DocumentID (self s)) = false ->
  fst (LoadFromLocal s) = true
  /\ exists Snapshot,
       SnapshotHistory (self (snd (LoadFromLocal s)))
       = SnapshotHistory (self s) ++ [Snapshot].
Proof.
  unfold LoadableRecord, LoadFromLocal.
  destruct (negb (FileExists _ _)); [discriminate|].
  destruct (LoadFileToString _ _); [|discriminate].
  destruct (Deserialize _) as [data|]; [|discriminate].
  destruct (TryGetStringField data "documentId"); [|discriminate].
  destruct (FString_ne _ _); [discriminate|]. cbn [orb].
  destruct (TryGetObjectField data "content") eqn:EC; [|discriminate].
  intros H; injection H as ->. intros HS Hid Hne.
  assert (HX : forall st : State,
             DocumentID (self st) = DocumentID (self s) ->
             exists Snapshot,
               SnapshotHistory (self (NotifyDocumentChanged
                                        (LoadLatestSnapshot LoadData st)))
               = SnapshotHistory (self st) ++ [Snapshot]).
  { intros st Hd.
    rewrite (proj1 (proj2 (proj2 (proj2
               (Core_fields _ _ (NotifyDocumentChanged_Core _)))))).
    unfold LoadLatestSnapshot. rewrite HS, Hid, Hd, Hne. cbn.
    eexists. reflexivity. }
  destruct (TryGetNumberField LoadData "version"); cbn [fst snd];
    (split; [reflexivity|]);
    match goal with
    | |- exists _, SnapshotHistory
                     (self (NotifyDocumentChanged (LoadLatestSnapshot _ ?st))) = _ =>
        destruct (HX st eq_refl) as [x Hx]; exists x; exact Hx
    end.
Qed.

(** ** Collisions that are not resolved *)

Lemma SetDoc_same_ConflictResolver (s : State) r :
  ConflictResolver (self s) = Some r ->
  SetDoc (set_ConflictResolver (Some r)) s = s.
Proof.
  destruct s as [d w]. destruct d. cbn. intros ->. reflexivity.
Qed.

Lemma ResolveConflict_installed (s : State) r Conflict :
  ConflictResolver (self s) = Some r ->
  ResolveConflict Conflict s
  = (fst (Resolver_ResolveConflict r Conflict),
     snd (Resolver_ResolveConflict r Conflict), s).
Proof.
  intros H. unfold ResolveConflict. rewrite H.
  rewrite (SetDoc_same_ConflictResolver s r H).
  destruct (Resolver_ResolveConflict r Conflict). reflexivity.
Qed.

Lemma Custom_NeverResolves :
  NeverResolves (DefaultConflictResolver EJsonCRDTConflictStrategy.Custom).
Proof. intros c. reflexivity. Qed.

Lemma firstn_succ_nth {A : Type} (l : list A) (i : nat) (x : A) :
  nth_error l i = Some x -> firstn (S i) l = firstn i l ++ [x].
Proof.
  revert i. induction l as [|y l IH]; intros [|i] H; cbn in *; try discriminate.
  - injection H as ->. reflexivity.
  - rewrite (IH i H). reflexivity.
Qed.

Lemma ScanHistory_NeverResolves (s : State) r Operation OldValue :
  ConflictResolver (self s) = Some r ->
  NeverResolves r ->
  forall n b Conflict,
    (n <= List.length (OperationHistory (self s)))%nat ->
    fst (fst (ScanHistory n Operation OldValue b Conflict s))
    = b || existsb (fun L => Collides L Operation)
                   (firstn n (OperationHistory (self s)))
    /\ snd (ScanHistory n Operation OldValue b Conflict s) = s.
Proof.
  intros Hr Hnever. induction n as [|i IH]; intros b Conflict Hn.
  - cbn. rewrite orb_false_r. auto.
  - cbn [ScanHistory].
    destruct (nth_error (OperationHistory (self s)) i) as [L|] eqn:EL.
    2:{ apply nth_error_None in EL. lia. }
    rewrite (firstn_succ_nth _ _ _ EL), existsb_app. cbn [existsb].
    rewrite orb_false_r.
    destruct (Collides L Operation).
    + rewrite (ResolveConflict_installed s r _ Hr), Hnever.
      destruct (IH true (snd (Resolver_ResolveConflict r
                                (FillConflict L Operation Conflict)))
                  ltac:(lia)) as [H1 H2].
      rewrite H1, H2. cbn. rewrite !orb_true_r. auto.
    + rewrite orb_false_r. apply IH. lia.
Qed.

(** What the code does with a collision that is not resolved: the incoming
    [Replace] is dropped, and the state is as it was before it. *)
Lemma ProcessOperation_NeverResolves (s : State) r Operation :
  FJsonCRDTOperation.Type_ Operation = EJsonCRDTOperationType.Replace ->
  ConflictResolver (self s) = Some r ->
  NeverResolves r ->
  Collisions Operation (OperationHistory (self s)) <> [] ->
  ProcessOperation s Operation = s.
Proof.
  intros Hty Hr Hnever Hcol. unfold ProcessOperation. rewrite Hty. cbn [EJsonCRDTOperationType.eqb].
  destruct (ScanHistory_NeverResolves s r Operation (OldValueOf Operation s)
              Hr Hnever (List.length (OperationHistory (self s))) false
              (FJsonCRDTConflict.Default (UtcNow (world s))) (le_n _))
    as [H1 H2].
  rewrite firstn_all in H1. cbn [orb] in H1.
  assert (He : existsb (fun L => Collides L Operation)
                 (OperationHistory (self s)) = true).
  { unfold Collisions in Hcol.
    destruct (filter _ _) as [|L rest] eqn:EF; [contradiction|].
    assert (HIn : In L (filter (fun L => Collides L Operation)
                          (OperationHistory (self s))))
      by (rewrite EF; left; reflexivity).
    apply filter_In in HIn. apply existsb_exists. exists L. exact HIn. }
  rewrite He in H1.
  destruct (ScanHistory _ _ _ _ _ _) as [[b c] s']; cbn in H1, H2.
  subst. reflexivity.
Qed.

(** ** Collisions that are resolved *)

Lemma LogOperation_ConflictResolver Operation OldValue NewValue b Conflict (s : State) :
  ConflictResolver (self (LogOperation Operation OldValue NewValue b Conflict s))
  = ConflictResolver (self s).
Proof.
  unfold LogOperation. destruct (Logger (self s)) as [L|]; [|reflexivity].
  destruct (negb _); reflexivity.
Qed.

Lemma Collisions_firstn_succ Operation History i L :
  nth_error History i = Some L ->
  Collisions Operation (firstn (S i) History)
  = Collisions Operation (firstn i History)
    ++ (if Collides L Operation then [L] else []).
Proof.
  intros H. unfold Collisions.
  rewrite (firstn_succ_nth _ _ _ H), filter_app. cbn.
  destruct (Collides L Operation); reflexivity.
Qed.

Lemma PushHistory_room Max History Op :
  Num History + 1 <= Max -> PushHistory Max History Op = History ++ [Op].
Proof.
  intros H. unfold PushHistory. rewrite Num_app_one.
  destruct (Z.gtb_spec (Num History + 1) Max); [lia|reflexivity].
Qed.

(** The state after the resolved branch of the inner loop. *)
Lemma ResolvedBranch_effects (t : State) Operation OldValue Conflict History r :
  OperationHistory (self t) = History ->
  ConflictResolver (self t) = Some r ->
  Num History + 1 <= MaxOperationHistory (self t) ->
  let ResolvedOperation :=
    FJsonCRDTOperation.SetValue (FJsonCRDTConflict.ResolvedValue Conflict)
      Operation in
  let t1 :=
    AddToOperationHistory ResolvedOperation
      (LogOperation ResolvedOperation OldValue
         (FJsonCRDTConflict.ResolvedValue Conflict) true Conflict
         (Emit (ConflictDetected Conflict) (ApplyOperation ResolvedOperation t))) in
  OperationHistory (self t1) = History ++ [ResolvedOperation]
  /\ ConflictResolver (self t1) = Some r
  /\ MaxOperationHistory (self t1) = MaxOperationHistory (self t)
  /\ exists new,
       Events (world t1) = Events (world t) ++ new
       /\ List.length (ConflictsDetected new) = 1%nat
       /\ List.length (AppliedOperations new) = 1%nat.
Proof.
  intros HH Hr Hroom ro t1.
  set (t0 := Emit (ConflictDetected Conflict) (ApplyOperation ro t)).
  assert (H0 : self t0 = self t) by (subst t0; cbn; apply ApplyOperation_self).
  set (tl := LogOperation ro OldValue (FJsonCRDTConflict.ResolvedValue Conflict)
               true Conflict t0).
  assert (HP : OperationPart (self tl) = OperationPart (self t)).
  { subst tl. rewrite LogOperation_OperationPart, H0. reflexivity. }
  unfold OperationPart in HP. injection HP as HP1 HP2 _.
  assert (HR : ConflictResolver (self tl) = Some r).
  { subst tl. rewrite LogOperation_ConflictResolver, H0. exact Hr. }
  repeat split.
  - subst t1. cbn. fold t0. fold tl. rewrite HP1, HP2, HH.
    apply PushHistory_room. exact Hroom.
  - subst t1. cbn. fold t0. fold tl. exact HR.
  - subst t1. cbn. fold t0. fold tl. exact HP2.
  - subst t1. change (world (AddToOperationHistory ro ?x)) with (world x).
    fold t0. fold tl. subst tl. rewrite LogOperation_Events.
    subst t0. cbn [Emit SetWorld world Events set_Events].
    rewrite ApplyOperation_Events.
    eexists. rewrite <- !app_assoc. split; [reflexivity|].
    unfold ConflictsDetected, AppliedOperations. rewrite !flat_map_app.
    destruct (LoggingEnabled _); cbn; split; reflexivity.
Qed.

Lemma ScanHistory_AlwaysResolves (History : list FJsonCRDTOperation.t) Max r
  Operation OldValue :
  AlwaysResolves r ->
  forall n (t : State) extra b Conflict,
    (n <= List.length History)%nat ->
    OperationHistory (self t) = History ++ extra ->
    ConflictResolver (self t) = Some r ->
    MaxOperationHistory (self t) = Max ->
    Num (History ++ extra)
    + Num (Collisions Operation (firstn n History)) <= Max ->
    let R := ScanHistory n Operation OldValue b Conflict t in
    let k := List.length (Collisions Operation (firstn n History)) in
    fst (fst R) = b || negb (k =? 0)%nat
    /\ Num (OperationHistory (self (snd R))) = Num (History ++ extra) + Z.of_nat k
    /\ exists new,
         Events (world (snd R)) = Events (world t) ++ new
         /\ List.length (ConflictsDetected new) = k
         /\ List.length (AppliedOperations new) = k.
Proof.
  intros Halways. induction n as [|i IH];
    intros t extra b Conflict Hn HH Hr HM Hroom R k.
  - subst R k. cbn. rewrite orb_false_r, HH. split; [reflexivity|].
    split; [lia|]. exists []. rewrite app_nil_r. auto.
  - assert (Hi : (i < List.length History)%nat) by lia.
    destruct (nth_error History i) as [L|] eqn:EL.
    2:{ apply nth_error_None in EL. lia. }
    assert (EL' : nth_error (OperationHistory (self t)) i = Some L).
    { rewrite HH, nth_error_app1 by exact Hi. exact EL. }
    pose proof (Collisions_firstn_succ Operation History i L EL) as HC.
    subst R k. cbn [ScanHistory]. rewrite EL', HC.
    rewrite HC in Hroom.
    destruct (Collides L Operation).
    + rewrite (ResolveConflict_installed t r _ Hr), Halways.
      set (c' := snd (Resolver_ResolveConflict r (FillConflict L Operation Conflict))).
      rewrite Num_app_one in Hroom.
      destruct (ResolvedBranch_effects t Operation OldValue c' (History ++ extra) r
                  HH Hr ltac:(unfold Num in *; lia))
        as (H1 & H2 & H3 & new1 & Hev1 & Hc1 & Ha1).
      set (t1 := AddToOperationHistory _ _) in *.
      rewrite <- app_assoc in H1.
      destruct (IH t1 (extra ++ [FJsonCRDTOperation.SetValue
                                   (FJsonCRDTConflict.ResolvedValue c') Operation])
                  true c' ltac:(lia) H1 H2 ltac:(lia)
                  ltac:(rewrite app_assoc, Num_app_one; unfold Num in *; lia))
        as (Hb & Hlen & new2 & Hev2 & Hc2 & Ha2).
      split; [|split].
      * rewrite Hb, length_app. cbn.
        rewrite Nat.add_1_r. cbn. rewrite !orb_true_r. reflexivity.
      * rewrite Hlen, app_assoc, Num_app_one, length_app. cbn.
        unfold Num. lia.
      * exists (new1 ++ new2). rewrite Hev2, Hev1, app_assoc.
        split; [reflexivity|].
        unfold ConflictsDetected, AppliedOperations in *.
        rewrite !flat_map_app, !length_app, Hc1, Hc2, Ha1, Ha2. cbn. lia.
    + rewrite app_nil_r in Hroom |- *.
      apply (IH t extra b Conflict); auto. lia.
Qed.

(** What the code does with an incoming [Replace] when every collision is
    resolved and the history has room: one conflict is broadcast and one
    resolved operation applied and added for each entry of the history that
    collides, not for the most recent one alone. *)
Lemma ProcessOperation_AlwaysResolves (s : State) r Operation :
  FJsonCRDTOperation.Type_ Operation = EJsonCRDTOperationType.Replace ->
  ConflictResolver (self s) = Some r ->
  AlwaysResolves r ->
  let k := List.length (Collisions Operation (OperationHistory (self s))) in
  (0 < k)%nat ->
  Num (OperationHistory (self s)) + Z.of_nat k <= MaxOperationHistory (self s) ->
  Num (OperationHistory (self (ProcessOperation s Operation)))
  = Num (OperationHistory (self s)) + Z.of_nat k
  /\ exists new,
       Events (world (ProcessOperation s Operation)) = Events (world s) ++ new
       /\ List.length (ConflictsDetected new) = k
       /\ List.length (AppliedOperations new) = k.
Proof.
  intros Hty Hr Halways k Hk Hroom. unfold ProcessOperation. rewrite Hty.
  cbn [EJsonCRDTOperationType.eqb].
  destruct (ScanHistory_AlwaysResolves (OperationHistory (self s))
              (MaxOperationHistory (self s)) r Operation
              (OldValueOf Operation s) Halways
              (List.length (OperationHistory (self s))) s [] false
              (FJsonCRDTConflict.Default (UtcNow (world s))) (le_n _)
              (eq_sym (app_nil_r _)) Hr eq_refl)
    as (Hb & Hlen & new & Hev & Hc & Ha).
  { rewrite firstn_all, app_nil_r. exact Hroom. }
  rewrite firstn_all in Hb, Hlen, Hc, Ha. rewrite app_nil_r in Hlen.
  fold k in Hb, Hlen, Hc, Ha.
  destruct (ScanHistory _ _ _ _ _ _) as [[b c] s']; cbn in Hb, Hlen, Hev |- *.
  assert (b = true) as ->.
  { rewrite Hb. destruct k; [lia|reflexivity]. }
  cbn. split; [exact Hlen|]. exists new. auto.
Qed.

End Properties.

(** * The properties on the example inputs *)

(** A conflict of Y, written at 2, with Z, written at 1, resolves to Y. *)
Lemma LastWriterWins_on_ConflictYZ :
  FJsonCRDTConflict.LocalValue ConflictYZ <> FJsonCRDTConflict.RemoteValue ConflictYZ
  /\ FJsonCRDTConflict.ResolvedValue
       (snd (FJsonCRDTDefaultConflictResolver.ResolveConflict
               EJsonCRDTConflictStrategy.LastWriterWins ConflictYZ)) = "Y".
Proof.
  assert (H : FJsonCRDTConflict.LocalValue ConflictYZ
              <> FJsonCRDTConflict.RemoteValue ConflictYZ) by discriminate.
  split; [exact H|].
  destruct (LastWriterWins_resolves_by_timestamp ConflictYZ)
    as (_ & _ & _ & _ & Hiff & _).
  apply (proj1 (Hiff H)). reflexivity.
Defined.

(** A patch for another document is refused and changes nothing. *)
Lemma ApplyPatch_refuses_other_document :
  FString_ne (UE := Reference.Engine) "other" (DocumentID (self DocX)) = true
  /\ ApplyPatch (UE := Reference.Engine) (PatchOf "other" [TestContent]) DocX
     = (false, DocX).
Proof.
  assert (H : FString_ne (UE := Reference.Engine) "other" (DocumentID (self DocX))
              = true) by reflexivity.
  split; [exact H|].
  destruct (ApplyPatch_fails_iff_DocumentID_differs (UE := Reference.Engine)
              (PatchOf "other" [TestContent]) DocX) as (Hfail & Hsame & _).
  apply injective_projections;
    [exact (proj2 Hfail H) | exact (proj1 (Hsame H))].
Defined.

(** On the initialised document, at version 2: a new content and a patch
    each give version 3, and restoring a snapshot of version 1 gives 1. *)
Lemma Version_after_success_on_DocX :
  Version (self DocX) = 2
  /\ Version (self (snd (SetContent (UE := Reference.Engine) (Some ContentX) DocX)))
     = 3
  /\ Version (self (snd (ApplyPatch (UE := Reference.Engine)
                           (PatchOf "doc" [ReplaceContent "Y" 1]) DocX))) = 3
  /\ Version (self (snd (RestoreFromSnapshot (UE := Reference.Engine)
                           (CreateSnapshot (UE := Reference.Engine) Doc0) DocX)))
     = 1.
Proof.
  destruct (Version_after_success (UE := Reference.Engine) DocX (Some ContentX)
              (PatchOf "doc" [ReplaceContent "Y" 1])
              (CreateSnapshot (UE := Reference.Engine) Doc0)) as (H1 & H2 & H3).
  assert (Hrange : Int64Min <= Version (self DocX) < Int64Max)
    by (vm_compute; split; [discriminate | reflexivity]).
  split; [reflexivity|]. split; [|split].
  - apply (H1 eq_refl Hrange).
  - apply (H2 eq_refl Hrange).
  - apply (H3 eq_refl).
Defined.

(** The empty path gives nothing, not the whole root. *)
Lemma GetValueAtPath_empty_path_is_nothing :
  GetValueAtPath (UE := Reference.Engine) (Some ContentX) ""
  <> Some (FJsonValueObject ContentX).
Proof. discriminate. Qed.

(** A key that is missing, and an index beyond the array. *)
Lemma GetValueAtPath_on_ContentWithArray :
  GetValueAtPath (UE := Reference.Engine) (Some ContentWithArray) "/b/c" = None
  /\ GetValueAtPath (UE := Reference.Engine) (Some ContentWithArray) "/a/5" = None
  /\ GetValueAtPath (UE := Reference.Engine) (Some ContentWithArray) "/a/0"
     = Some (FJsonValueNumber 1).
Proof.
  destruct (GetValueAtPath_empty_and_missing (UE := Reference.Engine)
              ContentWithArray) as (_ & _ & _ & H).
  split; [|split; [|reflexivity]].
  - destruct (H "/b/c" [] "b" ["c"]) as [Hkey _];
      [discriminate | reflexivity |].
    apply (Hkey ContentWithArray); reflexivity.
  - destruct (H "/a/5" ["a"] "5" []) as [_ Hidx];
      [discriminate | reflexivity |].
    apply (Hidx [FJsonValueNumber 1]); [reflexivity|].
    right. vm_compute. discriminate.
Defined.

(** Recovery from the local record, from the newest snapshot, and from
    nothing. *)
Lemma RecoverDocument_on_examples :
  (fst (LoadFromLocal (UE := Reference.Engine)
          (snd (SaveLocally (UE := Reference.Engine) DocX))) = true
   /\ RecoverDocument (UE := Reference.Engine)
        (snd (SaveLocally (UE := Reference.Engine) DocX))
      = (true,
         Emit (DocumentRecovered "doc" "LocalStorage")
           (snd (LoadFromLocal (UE := Reference.Engine)
                   (snd (SaveLocally (UE := Reference.Engine) DocX))))))
  /\ (fst (LoadFromLocal (UE := Reference.Engine) DocX) = false
      /\ fst (RecoverDocument (UE := Reference.Engine) DocX) = true
      /\ exists before,
           Events (world (snd (RecoverDocument (UE := Reference.Engine) DocX)))
           = before ++ [DocumentRecovered "doc" "Snapshot"])
  /\ (fst (RecoverDocument (UE := Reference.Engine) Fresh) = false
      /\ LastErrorMessage (self (snd (RecoverDocument (UE := Reference.Engine) Fresh)))
         = RecoveryFailure).
Proof.
  split; [|split].
  - split; [reflexivity|].
    apply (RecoverDocument_order (UE := Reference.Engine)
             (snd (SaveLocally (UE := Reference.Engine) DocX))).
    reflexivity.
  - split; [reflexivity|]. split; [reflexivity|].
    destruct (RecoverDocument_order (UE := Reference.Engine) DocX)
      as (_ & _ & _ & H).
    destruct (H eq_refl) as (before & tag & Hev & _ & Htag).
    exists before. rewrite Hev.
    rewrite (proj2 Htag eq_refl). reflexivity.
  - split; [reflexivity|].
    apply (RecoverDocument_order (UE := Reference.Engine) Fresh). reflexivity.
Defined.

(** Recovery from the newest of ten snapshots, the history being full:
    the slot the reference is bound to holds the snapshot just taken by the
    time the version is read, and the version left is 11, not 10. *)
Lemma RecoverDocument_with_full_SnapshotHistory :
  let s := Calls (UE := Reference.Engine) TenSnapshots Fresh in
  let r := RecoverDocument (UE := Reference.Engine) s in
  fst r = true
  /\ option_map FJsonCRDTSnapshot.Version (Last (SnapshotHistory (self s)))
     = Some 10
  /\ Version (self s) = 10
  /\ Version (self (snd r)) = 11.
Proof. cbv zeta. repeat split; vm_compute; reflexivity. Qed.

(** C6, on the code. [RecoverDocument] hands [RestoreFromSnapshot] the last
    slot of the snapshot history, by reference.  On the history of ten
    snapshots, its maximum, that slot holds the snapshot that records
    version 10.  The restore succeeds, and the version it leaves is 11, the
    version before it plus one, not the recorded 10: the version is read
    from the slot after the content was set, when the slot holds the
    snapshot just taken.  The same snapshot given as an object of the
    caller's leaves 10. *)
Theorem RestoreFromSnapshot_of_the_last_slot :
  let s := DocTenSnapshots in
  let slot :=
    HistorySlot (List.length (SnapshotHistory (self s)) - 1) NewestOfTen in
  let r := RestoreFromSnapshotRef (UE := Reference.Engine) slot s in
  Num (SnapshotHistory (self s)) = MaxSnapshotHistory (self s)
  /\ Last (SnapshotHistory (self s)) = Some NewestOfTen
  /\ ReadSnapshot slot s = NewestOfTen
  /\ FJsonCRDTSnapshot.Version NewestOfTen = 10
  /\ Version (self s) = 10
  /\ fst r = true
  /\ Version (self (snd r)) = 11
  /\ Version (self (snd r)) <> FJsonCRDTSnapshot.Version NewestOfTen
  /\ fst (RecoverDocument (UE := Reference.Engine) s) = true
  /\ Version (self (snd (RecoverDocument (UE := Reference.Engine) s))) = 11
  /\ Version (self (snd (RestoreFromSnapshot (UE := Reference.Engine)
                           NewestOfTen s))) = 10.
Proof.
  cbv zeta. repeat split; vm_compute; try reflexivity; discriminate.
Qed.

(** A patch of one [Test] on the silent document: the version moves from
    2 to 3, and no log entry is made. *)
Lemma Test_patch_changes_Version :
  let r := ApplyPatch (UE := Reference.Engine) (PatchOf "doc" [TestContent])
             DocSilent in
  fst r = true
  /\ Version (self DocSilent) = 2
  /\ Version (self (snd r)) = 3
  /\ Version (self (snd r)) <> Version (self DocSilent)
  /\ LoggedEntries (Events (world (snd r))) = [].
Proof.
  cbv zeta. repeat split; try reflexivity. discriminate.
Qed.

(** A patch of one [Test] on the document with its default logger. *)
Lemma Test_patch_on_DocX :
  let r := ApplyPatch (UE := Reference.Engine) (PatchOf "doc" [TestContent]) DocX in
  Content (self (snd r)) = ContentX
  /\ Version (self (snd r)) = 3
  /\ OperationHistory (self (snd r)) = [TestContent]
  /\ map EntrySummary (LoggedEntries (Events (world (snd r))))
     = [TestSummary TestContent].
Proof.
  cbv zeta.
  assert (Hid : FString_ne (UE := Reference.Engine)
                  (FJsonCRDTPatch.DocumentID (PatchOf "doc" [TestContent]))
                  (DocumentID (self DocX)) = false) by reflexivity.
  assert (Hall : Forall IsTest
                   (FJsonCRDTPatch.Operations (PatchOf "doc" [TestContent])))
    by (repeat constructor).
  destruct (Test_patch_effects (UE := Reference.Engine)
              (PatchOf "doc" [TestContent]) DocX Hid Hall)
    as (_ & HC & _ & HV & HH & _).
  split; [exact HC|]. split; [|split; [exact HH|reflexivity]].
  apply HV. vm_compute. split; [discriminate|reflexivity].
Defined.

(** One patch, one entry, and its source is Remote. *)
Lemma LogEntries_of_one_patch :
  exists e,
    In e (LoggedEntries
            (Events (world (snd (ApplyPatch (UE := Reference.Engine)
                                   (PatchOf "doc" [TestContent]) Doc0)))))
    /\ FJsonCRDTLogEntry.Source e = "Remote".
Proof.
  destruct (proj1 (LogEntries_have_Source_Remote (UE := Reference.Engine))
              (PatchOf "doc" [TestContent]) Doc0) as [new [Hev Hsrc]].
  change (Events (world Doc0)) with (@nil Event) in Hev. cbn [app] in Hev.
  rewrite Hev.
  assert (Hne : LoggedEntries new <> []).
  { rewrite <- Hev. discriminate. }
  destruct (LoggedEntries new) as [|e rest] eqn:E; [contradiction|].
  exists e. split; [left; reflexivity|].
  apply Hsrc. rewrite ?E. left. reflexivity.
Defined.

(** C1, on the code. The history holds a [Replace] of the field by A and
    one by Y; one incoming [Replace] of the field by Z is matched with
    both: two conflicts are broadcast, the operation is applied twice, with
    Y and then with A, and two entries join the history. *)
Theorem ApplyPatch_matches_every_colliding_entry :
  let r := ApplyPatch (UE := Reference.Engine)
             (PatchOf "doc" [ReplaceContent "Z" 0]) DocAY in
  let new := skipn (List.length (Events (world DocAY))) (Events (world (snd r))) in
  map FJsonCRDTOperation.Value (OperationHistory (self DocAY)) = ["A"; "Y"]
  /\ fst r = true
  /\ map FJsonCRDTConflict.LocalValue (ConflictsDetected new) = ["Y"; "A"]
  /\ map FJsonCRDTOperation.Value (AppliedOperations new) = ["Y"; "A"]
  /\ map FJsonCRDTOperation.Value (OperationHistory (self (snd r)))
     = ["A"; "Y"; "Y"; "A"].
Proof. cbv zeta. repeat split; reflexivity. Qed.

(** On a full history the entry that collides is matched again at each
    lower index, as each [RemoveAt(0)] moves it down by one: one entry at
    index 50 gives fifty-one conflicts for one incoming operation. *)
Lemma ApplyPatch_rematches_shifted_entry :
  let r := ApplyPatch (UE := Reference.Engine)
             (PatchOf "doc" [ReplaceContent "Z" 1]) DocFull in
  let new := skipn (List.length (Events (world DocFull)))
               (Events (world (snd r))) in
  Num (OperationHistory (self DocFull)) = MaxOperationHistory (self DocFull)
  /\ List.length (Collisions (UE := Reference.Engine) (ReplaceContent "Z" 1)
                    (OperationHistory (self DocFull))) = 1%nat
  /\ nth_error (OperationHistory (self DocFull)) 50 = Some (ReplaceContent "Y" 5)
  /\ List.length (ConflictsDetected new) = 51%nat
  /\ List.length (AppliedOperations new) = 51%nat.
Proof. cbv zeta. repeat split; vm_compute; reflexivity. Qed.

(** C2, on the code. The default resolver has the strategy Custom and the
    history holds a [Replace] of the field by Y; an incoming [Replace] of
    the field by Z collides, is not resolved, and is then dropped: it is
    not applied, not logged and not added to the history, though logging
    is on and the patch succeeds. *)
Theorem ApplyPatch_drops_unresolved_operation :
  let r := ApplyPatch (UE := Reference.Engine)
             (PatchOf "doc" [ReplaceContent "Z" 2]) DocCustomY in
  let new := skipn (List.length (Events (world DocCustomY)))
               (Events (world (snd r))) in
  ConflictResolver (self DocCustomY)
  = Some (DefaultConflictResolver EJsonCRDTConflictStrategy.Custom)
  /\ LoggingEnabled DocCustomY = true
  /\ OperationHistory (self DocCustomY) = [ReplaceContent "Y" 1]
  /\ fst r = true
  /\ new = [DocumentChanged "doc"]
  /\ AppliedOperations new = []
  /\ LoggedEntries new = []
  /\ OperationHistory (self (snd r)) = [ReplaceContent "Y" 1].
Proof. cbv zeta. repeat split; reflexivity. Qed.

(** C5, on the code. After the initialisation and nine changes of content
    the document holds ten snapshots, its maximum; saving it and loading it
    back leaves eleven. *)
Theorem LoadFromLocal_exceeds_MaxSnapshotHistory :
  Num (SnapshotHistory (self (Calls (UE := Reference.Engine) TenSnapshots Fresh)))
  = 10
  /\ MaxSnapshotHistory (self SavedAndLoaded) = 10
  /\ Num (SnapshotHistory (self SavedAndLoaded)) = 11.
Proof. repeat split; vm_compute; reflexivity. Qed.

(** * Further properties of the document *)

Section FurtherProperties.
Context {UE : UnrealEngine}.

(** ** What a patch leaves alone, and what it broadcasts *)

Lemma ApplyPatch_Core Patch (s : State) :
  let d := self s in
  let d' := self (snd (ApplyPatch Patch s)) in
  DocumentID d' = DocumentID d /\ Content d' = Content d
  /\ MaxOperationHistory d' = MaxOperationHistory d
  /\ MaxSnapshotHistory d' = MaxSnapshotHistory d
  /\ bAutoLocalSave d' = bAutoLocalSave d
  /\ ConflictStrategy d' = ConflictStrategy d.
Proof.
  cbv zeta. unfold ApplyPatch. destruct (FString_ne _ _); cbn [snd].
  - repeat split.
  - destruct (Core_fields _ _ (NotifyDocumentChanged_Core
                (CreateAndAddSnapshot
                   (IncrementVersion
                      (fold_left ProcessOperation
                         (FJsonCRDTPatch.Operations Patch) s)))))
      as (H1 & _ & H3 & _ & H5 & H6 & H7 & H8).
    destruct (Core_fields _ _ (fold_ProcessOperation_Core
                (FJsonCRDTPatch.Operations Patch) s))
      as (G1 & _ & G3 & _ & G5 & G6 & G7 & G8).
    rewrite H1, H3, H5, H6, H7, H8. cbn.
    rewrite G1, G3, G5, G6, G7, G8. repeat split.
Qed.

(** X1. No patch changes the content: whatever its operations and
    whether it is accepted or refused, [ApplyPatch] leaves the content,
    the document id, the two maxima, the auto-save flag and the strategy
    as they were. *)
Theorem ApplyPatch_never_changes_Content (Patch : FJsonCRDTPatch.t) (s : State) :
  Content (self (snd (ApplyPatch Patch s))) = Content (self s)
  /\ GetContentAsString (snd (ApplyPatch Patch s)) = GetContentAsString s
  /\ DocumentID (self (snd (ApplyPatch Patch s))) = DocumentID (self s)
  /\ MaxOperationHistory (self (snd (ApplyPatch Patch s)))
     = MaxOperationHistory (self s)
  /\ MaxSnapshotHistory (self (snd (ApplyPatch Patch s)))
     = MaxSnapshotHistory (self s)
  /\ bAutoLocalSave (self (snd (ApplyPatch Patch s))) = bAutoLocalSave (self s)
  /\ ConflictStrategy (self (snd (ApplyPatch Patch s)))
     = ConflictStrategy (self s).
Proof.
  destruct (ApplyPatch_Core Patch s) as (H1 & H2 & H3 & H4 & H5 & H6).
  unfold GetContentAsString. rewrite H2. repeat split; assumption.
Qed.

Lemma EmittedByOperations_same (s s' : State) :
  Events (world s') = Events (world s) -> EmittedByOperations s s'.
Proof. intros H. exists []. rewrite app_nil_r. split; [exact H|constructor]. Qed.

Lemma EmittedByOperations_trans (s s1 s2 : State) :
  EmittedByOperations s s1 -> EmittedByOperations s1 s2 ->
  EmittedByOperations s s2.
Proof.
  intros [a [Ea Ha]] [b [Eb Hb]]. exists (a ++ b).
  rewrite Eb, Ea, app_assoc. split; [reflexivity|].
  apply Forall_app. split; assumption.
Qed.

Lemma EmittedByOperations_Emit (ev : Event) (s : State) :
  PatchEvent ev -> EmittedByOperations s (Emit ev s).
Proof. intros H. exists [ev]. split; [reflexivity|]. repeat constructor. exact H. Qed.

Lemma ApplyOperation_EmittedByOperations Operation (s : State) :
  EmittedByOperations s (ApplyOperation Operation s).
Proof.
  exists [OperationApplied Operation]. split; [apply ApplyOperation_Events|].
  repeat constructor.
Qed.

Lemma LogOperation_EmittedByOperations Operation OldValue NewValue b Conflict
  (s : State) :
  EmittedByOperations s (LogOperation Operation OldValue NewValue b Conflict s).
Proof.
  eexists. split; [apply LogOperation_Events|].
  destruct (LoggingEnabled s); repeat constructor.
Qed.

Lemma ApplyVerbatim_EmittedByOperations OldValue Operation (s : State) :
  EmittedByOperations s (ApplyVerbatim OldValue Operation s).
Proof.
  unfold ApplyVerbatim.
  eapply EmittedByOperations_trans; [apply ApplyOperation_EmittedByOperations|].
  eapply EmittedByOperations_trans; [apply LogOperation_EmittedByOperations|].
  apply EmittedByOperations_same. reflexivity.
Qed.

Lemma ScanHistory_EmittedByOperations n Operation OldValue :
  forall b Conflict (s : State),
    EmittedByOperations s (snd (ScanHistory n Operation OldValue b Conflict s)).
Proof.
  induction n as [|i IH]; intros b Conflict s; cbn [ScanHistory].
  - apply EmittedByOperations_same. reflexivity.
  - destruct (nth_error _ i) as [LocalOperation|];
      [|apply EmittedByOperations_same; reflexivity].
    destruct (Collides _ _); [|apply IH].
    pose proof (ResolveConflict_world
                  (FillConflict LocalOperation Operation Conflict) s) as HW.
    destruct (ResolveConflict _ s) as [[[] c'] s']; cbn in HW.
    + eapply EmittedByOperations_trans; [|apply IH].
      eapply EmittedByOperations_trans;
        [apply EmittedByOperations_same; rewrite HW; reflexivity|].
      eapply EmittedByOperations_trans; [apply ApplyOperation_EmittedByOperations|].
      eapply EmittedByOperations_trans;
        [apply (EmittedByOperations_Emit (ConflictDetected c')); exact I|].
      eapply EmittedByOperations_trans; [apply LogOperation_EmittedByOperations|].
      apply EmittedByOperations_same. reflexivity.
    + eapply EmittedByOperations_trans; [|apply IH].
      apply EmittedByOperations_same. rewrite HW. reflexivity.
Qed.

Lemma ProcessOperation_EmittedByOperations (s : State) Operation :
  EmittedByOperations s (ProcessOperation s Operation).
Proof.
  unfold ProcessOperation.
  set (OldValue := OldValueOf Operation s).
  destruct (EJsonCRDTOperationType.eqb _ _).
  - pose proof (ScanHistory_EmittedByOperations
                  (List.length (OperationHistory (self s)))
                  Operation OldValue false
                  (FJsonCRDTConflict.Default (UtcNow (world s))) s) as HS.
    destruct (ScanHistory _ _ _ _ _ _) as [[[] c] s']; cbn in HS |- *.
    + exact HS.
    + eapply EmittedByOperations_trans;
        [exact HS|apply ApplyVerbatim_EmittedByOperations].
  - cbn. apply ApplyVerbatim_EmittedByOperations.
Qed.

Lemma fold_ProcessOperation_EmittedByOperations ops :
  forall s : State, EmittedByOperations s (fold_left ProcessOperation ops s).
Proof.
  induction ops as [|op ops IH]; intros s; cbn.
  - apply EmittedByOperations_same. reflexivity.
  - eapply EmittedByOperations_trans;
      [apply ProcessOperation_EmittedByOperations|apply IH].
Qed.

Lemma DocumentChanges_PatchEvents (evs : list Event) :
  Forall PatchEvent evs -> DocumentChanges evs = [].
Proof.
  induction 1 as [|ev evs Hev _ IH]; [reflexivity|].
  unfold DocumentChanges in *. cbn. rewrite IH.
  destruct ev; try reflexivity; contradiction.
Qed.

(** X2. A patch that is accepted broadcasts the change of the document
    once, after all its operations, however many they are: the events of
    the call are those of the operations, none of which is a broadcast of a
    change, and then the one broadcast; a patch that is refused gives no
    event. *)
Theorem ApplyPatch_notifies_once (Patch : FJsonCRDTPatch.t) (s : State) :
  (fst (ApplyPatch Patch s) = true ->
   exists new,
     Events (world (snd (ApplyPatch Patch s)))
     = Events (world s) ++ new ++ [DocumentChanged (DocumentID (self s))]
     /\ Forall PatchEvent new
     /\ DocumentChanges (new ++ [DocumentChanged (DocumentID (self s))])
        = [DocumentID (self s)])
  /\ (fst (ApplyPatch Patch s) = false ->
      Events (world (snd (ApplyPatch Patch s))) = Events (world s)).
Proof.
  unfold ApplyPatch. destruct (FString_ne _ _); cbn [fst snd].
  - split; [discriminate|reflexivity].
  - split; [intros _|discriminate].
    destruct (fold_ProcessOperation_EmittedByOperations
                (FJsonCRDTPatch.Operations Patch) s) as [new [Hev Hnew]].
    exists new. rewrite NotifyDocumentChanged_Events. cbn.
    rewrite Hev, <- app_assoc.
    rewrite (proj1 (Core_fields _ _ (fold_ProcessOperation_Core _ s))).
    split; [reflexivity|]. split; [exact Hnew|].
    unfold DocumentChanges. rewrite flat_map_app.
    fold (DocumentChanges new). rewrite (DocumentChanges_PatchEvents _ Hnew).
    reflexivity.
Qed.

(** ** Operations that collide with nothing *)

Lemma ScanHistory_no_collision Operation OldValue (s : State) :
  forall n b Conflict,
    (n <= List.length (OperationHistory (self s)))%nat ->
    Collisions Operation (firstn n (OperationHistory (self s))) = [] ->
    ScanHistory n Operation OldValue b Conflict s = (b, Conflict, s).
Proof.
  induction n as [|i IH]; intros b Conflict Hn Hcol; [reflexivity|].
  cbn [ScanHistory].
  destruct (nth_error (OperationHistory (self s)) i) as [L|] eqn:EL.
  2:{ apply nth_error_None in EL. lia. }
  rewrite (Collisions_firstn_succ _ _ _ _ EL) in Hcol.
  apply app_eq_nil in Hcol. destruct Hcol as [H1 H2].
  destruct (Collides L Operation); [discriminate|].
  apply IH; [lia|exact H1].
Qed.

Lemma ProcessOperation_without_collision (s : State) Operation :
  IsReplace Operation = false
  \/ Collisions Operation (OperationHistory (self s)) = [] ->
  ProcessOperation s Operation
  = ApplyVerbatim (OldValueOf Operation s) Operation s.
Proof.
  intros H. unfold ProcessOperation. unfold IsReplace in H.
  destruct (EJsonCRDTOperationType.eqb _ _); [|reflexivity].
  destruct H as [H|H]; [discriminate|].
  rewrite ScanHistory_no_collision; [reflexivity|lia|].
  rewrite firstn_all. exact H.
Qed.

(** X3. An incoming operation that no entry of the history collides with
    (no [Replace] there has its path and another value), a [Replace] among
    them, is applied as it came: it is handed to [ApplyOperation] once, no
    conflict is broadcast, one entry without conflict is logged when
    logging is on, and the operation itself joins the history, the oldest
    entry leaving if the maximum is passed. *)
Theorem Replace_without_collision_is_applied_verbatim
  (s : State) (Operation : FJsonCRDTOperation.t) :
  Collisions Operation (OperationHistory (self s)) = [] ->
  OperationHistory (self (ProcessOperation s Operation))
  = PushHistory (MaxOperationHistory (self s)) (OperationHistory (self s))
      Operation
  /\ exists new,
       Events (world (ProcessOperation s Operation)) = Events (world s) ++ new
       /\ AppliedOperations new = [Operation]
       /\ ConflictsDetected new = []
       /\ map EntrySummary (LoggedEntries new)
          = if LoggingEnabled s then [VerbatimSummary Operation] else [].
Proof.
  intros H.
  rewrite (ProcessOperation_without_collision s Operation (or_intror H)).
  split; [apply ApplyVerbatim_OperationHistory|].
  destruct (ApplyVerbatim_Events (OldValueOf Operation s) Operation s)
    as [entry [Hsum Hev]].
  eexists. split; [exact Hev|].
  destruct (LoggingEnabled s); cbn; rewrite ?Hsum; repeat split; reflexivity.
Qed.

Lemma fold_ProcessOperation_without_Replace ops :
  forall s : State,
    Forall (fun op => IsReplace op = false) ops ->
    OperationHistory (self (fold_left ProcessOperation ops s))
    = fold_left (PushHistory (MaxOperationHistory (self s))) ops
                (OperationHistory (self s))
    /\ exists new,
         Events (world (fold_left ProcessOperation ops s))
         = Events (world s) ++ new
         /\ AppliedOperations new = ops
         /\ ConflictsDetected new = []
         /\ map EntrySummary (LoggedEntries new)
            = if LoggingEnabled s then map VerbatimSummary ops else [].
Proof.
  induction ops as [|op ops IH]; intros s Hall.
  - cbn. split; [reflexivity|]. exists []. rewrite app_nil_r.
    destruct (LoggingEnabled s); auto.
  - inversion Hall as [|? ? Hop Hops]; subst.
    cbn [fold_left].
    rewrite (ProcessOperation_without_collision s op (or_introl Hop)).
    set (s1 := ApplyVerbatim (OldValueOf op s) op s).
    destruct (IH s1 Hops) as [Hhist [new [Hev [Happ [Hcon Hlog]]]]].
    assert (Hmax : MaxOperationHistory (self s1) = MaxOperationHistory (self s)).
    { subst s1.
      rewrite <- (ProcessOperation_without_collision s op (or_introl Hop)).
      apply (Core_fields _ _ (ProcessOperation_Core s op)). }
    split.
    + rewrite Hhist, Hmax. subst s1.
      rewrite ApplyVerbatim_OperationHistory. reflexivity.
    + destruct (ApplyVerbatim_Events (OldValueOf op s) op s)
        as [entry [Hsum Hev1]].
      fold s1 in Hev1.
      exists ((OperationApplied op
               :: (if LoggingEnabled s then [LoggerLogOperation entry] else []))
              ++ new).
      rewrite Hev, Hev1, <- app_assoc. split; [reflexivity|].
      unfold AppliedOperations, ConflictsDetected, LoggedEntries in *.
      rewrite !flat_map_app.
      assert (HL : LoggingEnabled s1 = LoggingEnabled s)
        by apply ApplyVerbatim_LoggingEnabled.
      rewrite HL in Hlog.
      destruct (LoggingEnabled s); cbn; rewrite ?Happ, ?Hlog, ?Hcon.
      * repeat split; try reflexivity.
        unfold VerbatimSummary. rewrite <- Hsum. reflexivity.
      * repeat split; reflexivity.
Qed.

(** X4. Only [Replace] operations are looked up in the history. A patch
    with the document's id and no [Replace] among its operations (Add,
    Remove, Move, Copy, Test) has each of them handed to [ApplyOperation]
    once and added to the history, in the order of the patch, with no
    conflict broadcast whatever the history holds, and with one log entry
    each, of its own type and without conflict, when logging is on. *)
Theorem ApplyPatch_without_Replace (Patch : FJsonCRDTPatch.t) (s : State) :
  FString_ne (FJsonCRDTPatch.DocumentID Patch) (DocumentID (self s)) = false ->
  Forall (fun op => IsReplace op = false) (FJsonCRDTPatch.Operations Patch) ->
  let ops := FJsonCRDTPatch.Operations Patch in
  let s' := snd (ApplyPatch Patch s) in
  OperationHistory (self s')
  = fold_left (PushHistory (MaxOperationHistory (self s))) ops
              (OperationHistory (self s))
  /\ exists new,
       Events (world s') = Events (world s) ++ new
       /\ AppliedOperations new = ops
       /\ ConflictsDetected new = []
       /\ map EntrySummary (LoggedEntries new)
          = if LoggingEnabled s then map VerbatimSummary ops else [].
Proof.
  intros Hid Hall ops s'.
  destruct (fold_ProcessOperation_without_Replace ops s Hall)
    as [Hhist [new [Hev [Happ [Hcon Hlog]]]]].
  assert (Hs' : s' = NotifyDocumentChanged
                       (CreateAndAddSnapshot
                          (IncrementVersion (fold_left ProcessOperation ops s)))).
  { subst s'. unfold ApplyPatch. rewrite Hid. reflexivity. }
  split.
  - rewrite Hs', NotifyDocumentChanged_OperationHistory. cbn. exact Hhist.
  - exists (new ++ [DocumentChanged (DocumentID (self s))]).
    rewrite Hs', NotifyDocumentChanged_Events. cbn [CreateAndAddSnapshot
      IncrementVersion SetDoc world self DocumentID set_SnapshotHistory
      set_Version].
    rewrite Hev, <- app_assoc.
    rewrite (proj1 (Core_fields _ _ (fold_ProcessOperation_Core ops s))).
    split; [reflexivity|].
    unfold AppliedOperations, ConflictsDetected, LoggedEntries in *.
    rewrite !flat_map_app. cbn. rewrite !app_nil_r. auto.
Qed.

(** ** Collisions the default resolver resolves *)

Lemma DefaultResolver_resolution Strategy LocalOperation Operation Conflict :
  Strategy <> EJsonCRDTConflictStrategy.Custom ->
  Resolver_ResolveConflict (DefaultConflictResolver Strategy)
    (FillConflict LocalOperation Operation Conflict)
  = (true, ResolutionOf Strategy LocalOperation Operation).
Proof.
  intros H. unfold ResolutionOf.
  destruct Strategy; try contradiction; cbn;
    unfold FJsonCRDTDefaultConflictResolver.ResolveLastWriterWins; cbn;
    try destruct (_ >? _); reflexivity.
Qed.

Lemma ResolvedBranch_events (t : State) ro OldValue Conflict :
  let t0 := Emit (ConflictDetected Conflict) (ApplyOperation ro t) in
  let t1 :=
    AddToOperationHistory ro
      (LogOperation ro OldValue (FJsonCRDTConflict.ResolvedValue Conflict)
         true Conflict t0) in
  LoggingEnabled t1 = LoggingEnabled t
  /\ Events (world t1)
     = Events (world t)
       ++ OperationApplied ro :: ConflictDetected Conflict
          :: (if LoggingEnabled t
              then [LoggerLogOperation
                      (MakeLogEntry ro OldValue
                         (FJsonCRDTConflict.ResolvedValue Conflict) true
                         Conflict t0)]
              else []).
Proof.
  intros t0 t1.
  assert (H0 : LoggingEnabled t0 = LoggingEnabled t).
  { subst t0. unfold LoggingEnabled. cbn. rewrite ApplyOperation_self.
    reflexivity. }
  split.
  - subst t1. rewrite <- H0.
    rewrite <- (LogOperation_LoggingEnabled ro OldValue
                  (FJsonCRDTConflict.ResolvedValue Conflict) true Conflict t0).
    reflexivity.
  - subst t1. change (world (AddToOperationHistory ro ?x)) with (world x).
    rewrite LogOperation_Events, H0. subst t0.
    cbn [Emit SetWorld world Events set_Events].
    rewrite ApplyOperation_Events, <- !app_assoc. reflexivity.
Qed.

Lemma ScanHistory_DefaultResolver (History : list FJsonCRDTOperation.t) Max
  Strategy Operation OldValue :
  Strategy <> EJsonCRDTConflictStrategy.Custom ->
  forall n (t : State) extra b Conflict,
    (n <= List.length History)%nat ->
    OperationHistory (self t) = History ++ extra ->
    ConflictResolver (self t) = Some (DefaultConflictResolver Strategy) ->
    MaxOperationHistory (self t) = Max ->
    Num (History ++ extra)
    + Num (Collisions Operation (firstn n History)) <= Max ->
    let R := ScanHistory n Operation OldValue b Conflict t in
    let hits := rev (Collisions Operation (firstn n History)) in
    fst (fst R) = b || negb (List.length hits =? 0)%nat
    /\ OperationHistory (self (snd R))
       = (History ++ extra) ++ map (ResolvedOperationOf Strategy Operation) hits
    /\ exists new,
         Events (world (snd R)) = Events (world t) ++ new
         /\ ConflictsDetected new
            = map (fun L => ResolutionOf Strategy L Operation) hits
         /\ AppliedOperations new
            = map (ResolvedOperationOf Strategy Operation) hits
         /\ map EntrySummary (LoggedEntries new)
            = if LoggingEnabled t
              then map (ResolvedSummary Strategy Operation) hits else [].
Proof.
  intros Hst. induction n as [|i IH];
    intros t extra b Conflict Hn HH Hr HM Hroom R hits.
  - subst R hits. cbn. rewrite orb_false_r, HH, app_nil_r.
    split; [reflexivity|]. split; [reflexivity|].
    exists []. rewrite app_nil_r. destruct (LoggingEnabled t); auto.
  - assert (Hi : (i < List.length History)%nat) by lia.
    destruct (nth_error History i) as [L|] eqn:EL.
    2:{ apply nth_error_None in EL. lia. }
    assert (EL' : nth_error (OperationHistory (self t)) i = Some L).
    { rewrite HH, nth_error_app1 by exact Hi. exact EL. }
    pose proof (Collisions_firstn_succ Operation History i L EL) as HC.
    subst R hits. cbn [ScanHistory]. rewrite EL', HC.
    rewrite HC in Hroom.
    destruct (Collides L Operation).
    + rewrite (ResolveConflict_installed t _ _ Hr).
      rewrite (DefaultResolver_resolution Strategy L Operation Conflict Hst).
      cbn [fst snd].
      set (c' := ResolutionOf Strategy L Operation).
      set (ro := FJsonCRDTOperation.SetValue
                   (FJsonCRDTConflict.ResolvedValue c') Operation).
      rewrite Num_app_one in Hroom.
      destruct (ResolvedBranch_effects t Operation OldValue c' (History ++ extra)
                  (DefaultConflictResolver Strategy)
                  HH Hr ltac:(unfold Num in *; lia))
        as (H1 & H2 & H3 & _).
      destruct (ResolvedBranch_events t ro OldValue c') as (HL & Hev1).
      fold ro in H1, H2, H3.
      set (t1 := AddToOperationHistory ro _) in *.
      rewrite <- app_assoc in H1.
      destruct (IH t1 (extra ++ [ro]) true c' ltac:(lia) H1 H2 ltac:(lia)
                  ltac:(rewrite app_assoc, Num_app_one; unfold Num in *; lia))
        as (Hb & Hhist & new2 & Hev2 & Hc2 & Ha2 & Hl2).
      rewrite rev_app_distr. cbn [rev app map List.length].
      split; [|split].
      * rewrite Hb. cbn. rewrite !orb_true_r. reflexivity.
      * rewrite Hhist. rewrite <- !app_assoc. reflexivity.
      * eexists. rewrite Hev2, Hev1, <- app_assoc. split; [reflexivity|].
        unfold ConflictsDetected, AppliedOperations, LoggedEntries in *.
        rewrite !flat_map_app, Hc2, Ha2, map_app, Hl2, HL.
        destruct (LoggingEnabled t); cbn; repeat split; reflexivity.
    + rewrite app_nil_r in Hroom |- *.
      apply (IH t extra b Conflict); auto. lia.
Qed.

(** X5. With the default resolver under a strategy other than Custom, and
    room in the history, an incoming [Replace] that collides with entries
    of the history gives, for each such entry, from the most recent to
    the oldest: one conflict broadcast, filled with the entry and resolved
    by the strategy; one call of [ApplyOperation] with the incoming
    operation carrying the resolved value; one log entry with the conflict
    flag when logging is on; and that operation added to the history.  The
    incoming operation as it came is not applied again after them. *)
Theorem Replace_with_default_resolver
  (s : State) (Strategy : EJsonCRDTConflictStrategy.t)
  (Operation : FJsonCRDTOperation.t) :
  FJsonCRDTOperation.Type_ Operation = EJsonCRDTOperationType.Replace ->
  ConflictResolver (self s) = Some (DefaultConflictResolver Strategy) ->
  Strategy <> EJsonCRDTConflictStrategy.Custom ->
  Collisions Operation (OperationHistory (self s)) <> [] ->
  Num (OperationHistory (self s))
  + Num (Collisions Operation (OperationHistory (self s)))
  <= MaxOperationHistory (self s) ->
  let hits := rev (Collisions Operation (OperationHistory (self s))) in
  OperationHistory (self (ProcessOperation s Operation))
  = OperationHistory (self s) ++ map (ResolvedOperationOf Strategy Operation) hits
  /\ exists new,
       Events (world (ProcessOperation s Operation)) = Events (world s) ++ new
       /\ ConflictsDetected new
          = map (fun L => ResolutionOf Strategy L Operation) hits
       /\ AppliedOperations new
          = map (ResolvedOperationOf Strategy Operation) hits
       /\ map EntrySummary (LoggedEntries new)
          = if LoggingEnabled s
            then map (ResolvedSummary Strategy Operation) hits else [].
Proof.
  intros Hty Hr Hst Hcol Hroom hits. unfold ProcessOperation. rewrite Hty.
  cbn [EJsonCRDTOperationType.eqb].
  destruct (ScanHistory_DefaultResolver (OperationHistory (self s))
              (MaxOperationHistory (self s)) Strategy Operation
              (OldValueOf Operation s) Hst
              (List.length (OperationHistory (self s))) s [] false
              (FJsonCRDTConflict.Default (UtcNow (world s))) (le_n _)
              (eq_sym (app_nil_r _)) Hr eq_refl)
    as (Hb & Hhist & new & Hev & Hc & Ha & Hl).
  { rewrite firstn_all, app_nil_r. exact Hroom. }
  rewrite firstn_all in Hb, Hhist, Hc, Ha, Hl. rewrite app_nil_r in Hhist.
  fold hits in Hb, Hhist, Hc, Ha, Hl.
  destruct (ScanHistory _ _ _ _ _ _) as [[b c] s']; cbn in Hb, Hhist, Hev |- *.
  assert (b = true) as ->.
  { rewrite Hb. subst hits. rewrite length_rev.
    destruct (Collisions _ _); [contradiction|reflexivity]. }
  cbn. split; [exact Hhist|]. exists new. auto.
Qed.

(** ** The snapshot history *)

Lemma Core_SnapshotsKept d d' :
  Core d' = Core d -> SnapshotsKept d -> SnapshotsKept d'.
Proof.
  intros H. destruct (Core_fields _ _ H) as (_ & _ & _ & HS & _ & HM & _).
  unfold SnapshotsKept, SnapshotHistoryBounded. rewrite HS, HM. auto.
Qed.

Lemma CreateAndAddSnapshot_SnapshotsKept (s : State) :
  0 <= MaxSnapshotHistory (self s) ->
  SnapshotsKept (self (CreateAndAddSnapshot s)).
Proof.
  intros H. split; [exact H|]. apply CreateAndAddSnapshot_Bounded, H.
Qed.

Lemma SetContent_SnapshotsKept JsonObject (s : State) :
  SnapshotsKept (self s) -> SnapshotsKept (self (snd (SetContent JsonObject s))).
Proof.
  intros H. destruct JsonObject as [o|]; [|exact H].
  unfold SetContent; cbn [snd].
  eapply Core_SnapshotsKept; [apply NotifyDocumentChanged_Core|].
  apply CreateAndAddSnapshot_SnapshotsKept. apply H.
Qed.

Lemma SetContentFromString_SnapshotsKept JsonString (s : State) :
  SnapshotsKept (self s) ->
  SnapshotsKept (self (snd (SetContentFromString JsonString s))).
Proof.
  unfold SetContentFromString. destruct (Deserialize _); [|auto].
  apply SetContent_SnapshotsKept.
Qed.

Lemma ApplyPatch_SnapshotsKept Patch (s : State) :
  SnapshotsKept (self s) -> SnapshotsKept (self (snd (ApplyPatch Patch s))).
Proof.
  intros H. unfold ApplyPatch. destruct (FString_ne _ _); cbn [snd]; [exact H|].
  eapply Core_SnapshotsKept; [apply NotifyDocumentChanged_Core|].
  apply CreateAndAddSnapshot_SnapshotsKept. cbn.
  rewrite (proj1 (proj2 (proj2 (proj2 (proj2 (proj2
             (Core_fields _ _ (fold_ProcessOperation_Core _ s)))))))).
  apply H.
Qed.

Lemma RestoreFromSnapshot_SnapshotsKept Snapshot (s : State) :
  SnapshotsKept (self s) ->
  SnapshotsKept (self (snd (RestoreFromSnapshot Snapshot s))).
Proof.
  intros H. unfold RestoreFromSnapshot, RestoreFromSnapshotRef.
  destruct (FString_ne _ _); [exact H|].
  pose proof (SetContentFromString_SnapshotsKept
                (FJsonCRDTSnapshot.Content
                   (ReadSnapshot (CallerSnapshot Snapshot) s)) s H) as HS.
  destruct (SetContentFromString _ s) as [[] s1]; cbn in HS |- *; [|exact HS].
  eapply Core_SnapshotsKept; [apply NotifyDocumentChanged_Core|]. exact HS.
Qed.

Lemma Call_SnapshotsKept (c : Command) (s : State) :
  LoadsFromDisk c = false ->
  SnapshotsKept (self s) -> SnapshotsKept (self (Call s c)).
Proof.
  intros Hc H. destruct c; cbn [Call]; try discriminate.
  - apply CreateAndAddSnapshot_SnapshotsKept. apply H.
  - apply SetContent_SnapshotsKept, H.
  - apply SetContentFromString_SnapshotsKept, H.
  - apply ApplyPatch_SnapshotsKept, H.
  - eapply Core_SnapshotsKept; [apply SaveLocally_Core|exact H].
  - apply RestoreFromSnapshot_SnapshotsKept, H.
  - unfold SetAutoLocalSave. destruct bEnable; cbn; [|exact H].
    eapply Core_SnapshotsKept; [apply SaveLocally_Core|exact H].
  - unfold SetConflictStrategy. cbn.
    destruct (ConflictResolver (self s)) as [[old|f st]|]; try exact H.
    destruct (negb _); exact H.
  - destruct InConflictResolver; exact H.
  - unfold SetLoggingEnabled. destruct (Logger (self s)); exact H.
Qed.

(** X6. Both histories stay within their maxima.  The operation history
    does over any sequence of calls.  The snapshot history does over any
    sequence of calls that does not read the local record (neither
    [LoadFromLocal] nor [RecoverDocument]), its maximum not being
    negative. *)
Theorem Histories_stay_bounded (cs : list Command) (s : State) :
  OperationHistoryBounded (self s) ->
  SnapshotHistoryBounded (self s) ->
  0 <= MaxSnapshotHistory (self s) ->
  OperationHistoryBounded (self (Calls cs s))
  /\ (Forall (fun c => LoadsFromDisk c = false) cs ->
      SnapshotHistoryBounded (self (Calls cs s))).
Proof.
  intros HO HS HM. split; [apply Calls_OperationHistoryBounded, HO|].
  intros Hcs.
  assert (HK : SnapshotsKept (self s)) by (split; assumption).
  clear HO HS HM. revert s HK.
  induction Hcs as [|c cs Hc Hcs IH]; intros s HK; [apply HK|].
  cbn [Calls fold_left]. apply IH. apply Call_SnapshotsKept; assumption.
Qed.

Lemma Last_app_one {A : Type} (l : list A) (x : A) : Last (l ++ [x]) = Some x.
Proof.
  unfold Last. rewrite length_app. cbn.
  replace (List.length l + 1 - 1)%nat with (List.length l) by lia.
  rewrite nth_error_app2 by lia. rewrite Nat.sub_diag. reflexivity.
Qed.

Lemma CreateAndAddSnapshot_newest (s : State) :
  1 <= MaxSnapshotHistory (self s) ->
  Last (SnapshotHistory (self (CreateAndAddSnapshot s))) = Some (CreateSnapshot s).
Proof.
  intros HM. unfold CreateAndAddSnapshot. cbn.
  set (l := SnapshotHistory (self s)). set (x := CreateSnapshot s).
  destruct (Z.gtb_spec (Num (l ++ [x])) (MaxSnapshotHistory (self s)));
    [|apply Last_app_one].
  rewrite Num_app_one in *.
  rewrite skipn_app.
  replace (Z.to_nat (Num l + 1 - MaxSnapshotHistory (self s)) - List.length l)%nat
    with 0%nat by (unfold Num in *; lia).
  cbn [skipn]. apply Last_app_one.
Qed.

Lemma NotifyDocumentChanged_SnapshotHistory (s : State) :
  SnapshotHistory (self (NotifyDocumentChanged s)) = SnapshotHistory (self s).
Proof. apply (Core_fields _ _ (NotifyDocumentChanged_Core s)). Qed.

Lemma NotifyDocumentChanged_GetContentAsString (s : State) :
  GetContentAsString (NotifyDocumentChanged s) = GetContentAsString s.
Proof.
  unfold GetContentAsString.
  rewrite (proj1 (proj2 (proj2 (Core_fields _ _ (NotifyDocumentChanged_Core s))))).
  reflexivity.
Qed.

Lemma Changed_newest (s : State) :
  1 <= MaxSnapshotHistory (self s) ->
  exists newest,
    Last (SnapshotHistory (self (NotifyDocumentChanged (CreateAndAddSnapshot s))))
    = Some newest
    /\ SnapshotMatches newest (NotifyDocumentChanged (CreateAndAddSnapshot s)).
Proof.
  intros HM. exists (CreateSnapshot s). split.
  - rewrite NotifyDocumentChanged_SnapshotHistory.
    apply CreateAndAddSnapshot_newest, HM.
  - unfold SnapshotMatches.
    rewrite NotifyDocumentChanged_DocumentID, NotifyDocumentChanged_Version,
      NotifyDocumentChanged_GetContentAsString.
    repeat split.
Qed.

(** X7. With room for at least one snapshot, the newest snapshot of the
    history records the document as it is, with its id, its version and
    the text of its content, after [Initialize], after a successful
    [SetContent] and after a successful [ApplyPatch].  After a successful
    [RestoreFromSnapshot] it does not: the newest snapshot was taken before
    the version was set, and holds the version before the call plus one
    where the document holds the version of the snapshot restored. *)
Theorem Newest_snapshot_after_a_change (s : State) :
  1 <= MaxSnapshotHistory (self s) ->
  (forall InDocumentID,
      let s' := Initialize InDocumentID s in
      exists newest,
        Last (SnapshotHistory (self s')) = Some newest
        /\ SnapshotMatches newest s')
  /\ (forall o,
        let s' := snd (SetContent (Some o) s) in
        exists newest,
          Last (SnapshotHistory (self s')) = Some newest
          /\ SnapshotMatches newest s')
  /\ (forall Patch,
        fst (ApplyPatch Patch s) = true ->
        let s' := snd (ApplyPatch Patch s) in
        exists newest,
          Last (SnapshotHistory (self s')) = Some newest
          /\ SnapshotMatches newest s')
  /\ (forall Snapshot,
        fst (RestoreFromSnapshot Snapshot s) = true ->
        let s' := snd (RestoreFromSnapshot Snapshot s) in
        exists newest,
          Last (SnapshotHistory (self s')) = Some newest
          /\ FJsonCRDTSnapshot.Version newest = wrap64 (Version (self s) + 1)
          /\ FJsonCRDTSnapshot.Content newest = GetContentAsString s'
          /\ Version (self s') = FJsonCRDTSnapshot.Version Snapshot).
Proof.
  intros HM. split; [|split; [|split]].
  - intros id s'. subst s'. unfold Initialize.
    exists (CreateSnapshot (SetDoc (set_DocumentID id) s)).
    split; [apply CreateAndAddSnapshot_newest; exact HM|].
    repeat split.
  - intros o s'. subst s'. unfold SetContent. cbn [snd].
    apply Changed_newest. exact HM.
  - intros Patch Hok s'. subst s'. revert Hok. unfold ApplyPatch.
    destruct (FString_ne _ _); [discriminate|]. intros _. cbn [snd].
    apply Changed_newest. cbn.
    rewrite (proj1 (proj2 (proj2 (proj2 (proj2 (proj2
               (Core_fields _ _ (fold_ProcessOperation_Core _ s)))))))).
    exact HM.
  - intros Snapshot Hok s'. subst s'. revert Hok.
    unfold RestoreFromSnapshot, RestoreFromSnapshotRef. cbn [ReadSnapshot].
    destruct (FString_ne _ _); [discriminate|].
    unfold SetContentFromString.
    destruct (Deserialize (FJsonCRDTSnapshot.Content Snapshot)) as [o|];
      [|discriminate].
    unfold SetContent. cbn [fst snd negb]. intros _.
    set (s1 := CreateAndAddSnapshot _).
    exists (CreateSnapshot
              (IncrementVersion (SetDoc (set_Content o) s))).
    rewrite NotifyDocumentChanged_SnapshotHistory. cbn [SetDoc self set_Version SnapshotHistory].
    rewrite NotifyDocumentChanged_SnapshotHistory.
    split; [subst s1; apply CreateAndAddSnapshot_newest; exact HM|].
    split; [reflexivity|]. split.
    + unfold GetContentAsString.
      rewrite (proj1 (proj2 (proj2 (Core_fields _ _ (NotifyDocumentChanged_Core _))))).
      cbn [SetDoc self set_Version Content].
      rewrite (proj1 (proj2 (proj2 (Core_fields _ _ (NotifyDocumentChanged_Core _))))).
      reflexivity.
    + rewrite NotifyDocumentChanged_Version. reflexivity.
Qed.

(** ** The local record *)

Lemma SaveLocally_cases (s : State) :
  let FilePath := GetLocalStoragePath s in
  let DirectoryPath := GetPath FilePath in
  SaveLocally s
  = if negb (Directories (world s) DirectoryPath
             || CreatableDirectory (world s) DirectoryPath)
    then (false, SetLastErrorMessage
                   ("Failed to create directory: " ++ DirectoryPath)%string s)
    else if negb (fst (Serialize (FJsonValueObject (SaveData s))))
    then (false, SetLastErrorMessage "Failed to serialize document data"
                   (BuildState (self s) (WithDirectory s)))
    else if negb (WritableFile (world s) FilePath)
    then (false, SetLastErrorMessage
                   ("Failed to save document to file: " ++ FilePath)%string
                   (BuildState (self s) (WithDirectory s)))
    else (true, BuildState (self s) (WithRecord s)).
Proof.
  destruct s as [d w]. cbv zeta. unfold SaveLocally, WithRecord, WithDirectory.
  cbn [self world].
  set (F := GetLocalStoragePath {| self := d; world := w |}).
  destruct (Directories w (GetPath F)) eqn:ED; cbn [orb negb].
  - destruct (Serialize (FJsonValueObject (SaveData {| self := d; world := w |})))
      as [[] SaveString] eqn:ES; cbn [negb fst snd]; [|reflexivity].
    unfold SaveStringToFile. cbn [world].
    destruct (WritableFile w F); reflexivity.
  - unfold CreateDirectoryTree.
    destruct (CreatableDirectory w (GetPath F)); cbn [negb]; [|reflexivity].
    cbn [self world].
    change (SaveData {| self := d; world := set_Directories ?f w |})
      with (SaveData {| self := d; world := w |}).
    destruct (Serialize (FJsonValueObject (SaveData {| self := d; world := w |})))
      as [[] SaveString] eqn:ES; cbn [negb fst snd]; [|reflexivity].
    unfold SaveStringToFile. cbn [world WritableFile set_Directories].
    destruct (WritableFile w F); reflexivity.
Qed.

(** X8. [SaveLocally] succeeds exactly when the directory of the record is
    there or can be made, the record can be written as text, and the file
    can be written.  On success the document is as it was, the file holds
    the text of the record, and no other file is touched.  On failure the
    document differs by its last error message alone, one of three
    messages, and no file is touched. *)
Theorem SaveLocally_outcome (s : State) :
  let FilePath := GetLocalStoragePath s in
  let DirectoryPath := GetPath FilePath in
  let r := SaveLocally s in
  (fst r = true <->
   (Directories (world s) DirectoryPath = true
    \/ CreatableDirectory (world s) DirectoryPath = true)
   /\ fst (Serialize (FJsonValueObject (SaveData s))) = true
   /\ WritableFile (world s) FilePath = true)
  /\ (fst r = true ->
      self (snd r) = self s
      /\ SavedOnDisk (snd r)
      /\ forall q, q <> FilePath -> Files (world (snd r)) q = Files (world s) q)
  /\ (fst r = false ->
      exists msg,
        SaveFailureMessage s msg
        /\ self (snd r) = set_LastErrorMessage msg (self s)
        /\ Files (world (snd r)) = Files (world s)).
Proof.
  cbv zeta. rewrite (SaveLocally_cases s). cbv zeta.
  assert (HF : Files (WithDirectory s) = Files (world s)).
  { unfold WithDirectory. destruct (Directories _ _); reflexivity. }
  destruct (Directories (world s) _ || CreatableDirectory (world s) _) eqn:ED;
    cbn [negb].
  - apply orb_true_iff in ED.
    destruct (fst (Serialize (FJsonValueObject (SaveData s)))) eqn:ES; cbn [negb].
    + destruct (WritableFile (world s) (GetLocalStoragePath s)) eqn:EW;
        cbn [negb fst snd self world].
      * split; [tauto|]. split; [|discriminate]. intros _.
        split; [reflexivity|]. split.
        -- unfold SavedOnDisk, LoadFileToString.
           change (GetLocalStoragePath {| self := self s; world := WithRecord s |})
             with (GetLocalStoragePath s).
           unfold WithRecord at 1. cbn [world Files set_Files].
           rewrite String.eqb_refl. f_equal.
           unfold SaveData. cbn [self world]. unfold WithRecord.
           cbn [UtcNow set_Files]. unfold WithDirectory.
           destruct (Directories _ _); reflexivity.
        -- intros q Hq. unfold WithRecord. cbn [Files set_Files].
           destruct (String.eqb_spec q (GetLocalStoragePath s));
             [contradiction|reflexivity].
      * split; [split; [discriminate|intros (_ & _ & H); discriminate]|].
        split; [discriminate|]. intros _. eexists.
        split; [right; right; reflexivity|]. split; [reflexivity|exact HF].
    + split; [split; [discriminate|intros (_ & H & _); discriminate]|].
      split; [discriminate|]. intros _. eexists. cbn [fst snd].
      split; [right; left; reflexivity|]. split; [reflexivity|exact HF].
  - apply orb_false_iff in ED. destruct ED as [E1 E2]. cbn [fst snd].
    split; [split; [discriminate|intros ([H|H] & _); congruence]|].
    split; [discriminate|]. intros _. eexists.
    split; [left; reflexivity|]. split; reflexivity.
Qed.

Ltac record_key HK :=
  match goal with
  | |- context [FString_eq ?a ?b] =>
      rewrite (HK a b) by (cbn; tauto);
      let v := eval vm_compute in (String.eqb a b) in
      change (String.eqb a b) with v; cbv iota
  end.

Lemma Int64ToDouble_exact (z : Z) :
  Z.abs z <= 2 ^ 53 -> Int64ToDouble z = z.
Proof.
  intros H. unfold Int64ToDouble.
  destruct (Z.ltb_spec (Z.abs z) (2 ^ 53)) as [Hlt|Hge]; [reflexivity|].
  change (2 ^ 53) with 9007199254740992 in *.
  assert (Hz : z = 9007199254740992 \/ z = - 9007199254740992) by lia.
  destruct Hz as [-> | ->]; vm_compute; reflexivity.
Qed.

Lemma SaveData_documentId (s : State) :
  KeysApart RecordKeys -> TextsReadAsTexts ->
  TryGetStringField (SaveData s) "documentId" = Some (DocumentID (self s)).
Proof.
  intros HK HT. unfold TryGetStringField, SaveData. cbn [app FindField].
  repeat record_key HK. apply HT.
Qed.

Lemma SaveData_version (s : State) :
  KeysApart RecordKeys ->
  TryGetNumberField (SaveData s) "version"
  = TryGetNumber (FJsonValueNumber (Int64ToDouble (Version (self s)))).
Proof.
  intros HK. unfold TryGetNumberField, SaveData. cbn [app FindField].
  repeat record_key HK. reflexivity.
Qed.

Lemma SaveData_content (s : State) :
  KeysApart RecordKeys ->
  TryGetObjectField (SaveData s) "content" = Some (Content (self s)).
Proof.
  intros HK. unfold TryGetObjectField, SaveData. cbn [app FindField].
  repeat record_key HK. reflexivity.
Qed.

Lemma LoadLatestSnapshot_SaveData (s t : State) :
  KeysApart RecordKeys -> TextsReadAsTexts ->
  DocumentID (self t) = DocumentID (self s) ->
  SnapshotHistory (self (LoadLatestSnapshot (SaveData s) t))
  = SnapshotHistory (self t) ++ ReloadedSnapshot (UtcNow (world t)) s.
Proof.
  intros HK HT Hid.
  unfold LoadLatestSnapshot, ReloadedSnapshot, RecordedVersion,
    TryGetObjectField, SaveData.
  cbn [app FindField]. repeat record_key HK.
  destruct (Last (SnapshotHistory (self s))) as [snap|]; cbn [app FindField].
  - repeat record_key HK.
    unfold TryGetStringField, TryGetNumberField. cbn [FindField].
    repeat record_key HK. rewrite !HT. cbn [orb]. rewrite Hid.
    destruct (FString_ne _ _); [symmetry; apply app_nil_r|].
    reflexivity.
  - symmetry. apply app_nil_r.
Qed.

(** X9. Saving and loading back.  After a successful [SaveLocally], with an
    engine whose reader gives back the record its writer wrote, which reads
    a text value as its text, and whose string comparison tells the field
    names of the record apart and finds the document's id equal to itself,
    [LoadFromLocal] succeeds and leaves the id, the content and the
    operation history as they were.  The version it leaves is the one the
    record carries, the version converted to [double] and read back: the
    version there was when that is within 2^53 in size and the engine reads
    it as itself, a neighbour with fewer bits beyond.  The load broadcasts
    one change, and it adds to the snapshot history a second copy of the
    newest snapshot, read back from the record. *)
Theorem SaveLocally_then_LoadFromLocal (s : State) :
  fst (SaveLocally s) = true ->
  ReadsBack (SaveData s) ->
  KeysApart RecordKeys ->
  TextsReadAsTexts ->
  FString_eq (DocumentID (self s)) (DocumentID (self s)) = true ->
  let saved := snd (SaveLocally s) in
  let r := LoadFromLocal saved in
  fst r = true
  /\ DocumentID (self (snd r)) = DocumentID (self s)
  /\ Version (self (snd r)) = RecordedVersion (Version (self s)) (Version (self s))
  /\ (Z.abs (Version (self s)) <= 2 ^ 53 ->
      TryGetNumber (FJsonValueNumber (Version (self s))) = Some (Version (self s)) ->
      Version (self (snd r)) = Version (self s))
  /\ Content (self (snd r)) = Content (self s)
  /\ OperationHistory (self (snd r)) = OperationHistory (self s)
  /\ SnapshotHistory (self (snd r))
     = SnapshotHistory (self s) ++ ReloadedSnapshot (UtcNow (world saved)) s
  /\ Events (world (snd r))
     = Events (world s) ++ [DocumentChanged (DocumentID (self s))].
Proof.
  intros Hok HRB HK HT Hid. cbv zeta.
  rewrite (SaveLocally_cases s) in Hok |- *. cbv zeta in Hok |- *.
  destruct (negb (_ || _)); [discriminate|].
  destruct (negb (fst _)); [discriminate|].
  destruct (negb (WritableFile _ _)); [discriminate|]. clear Hok.
  cbn [snd]. set (s1 := {| self := self s; world := WithRecord s |}).
  assert (Hev : Events (world s1) = Events (world s)).
  { subst s1. unfold WithRecord, WithDirectory. cbn.
    destruct (Directories _ _); reflexivity. }
  unfold LoadFromLocal.
  change (GetLocalStoragePath s1) with (GetLocalStoragePath s).
  assert (HF : Files (world s1) (GetLocalStoragePath s)
               = FileText (snd (Serialize (FJsonValueObject (SaveData s))))).
  { subst s1. unfold WithRecord. cbn. rewrite String.eqb_refl. reflexivity. }
  unfold FileExists, LoadFileToString. rewrite HF. cbn [negb].
  unfold ReadsBack in HRB. rewrite HRB.
  rewrite (SaveData_documentId s HK HT), (SaveData_content s HK),
    (SaveData_version s HK).
  change (DocumentID (self s1)) with (DocumentID (self s)).
  unfold FString_ne. rewrite Hid. cbn [negb orb].
  set (read := TryGetNumber (FJsonValueNumber (Int64ToDouble (Version (self s))))).
  set (s2 := match read with
             | Some LoadedVersion => SetDoc (set_Version LoadedVersion) s1
             | None => s1
             end).
  assert (H2 : DocumentID (self s2) = DocumentID (self s)
               /\ Version (self s2)
                  = RecordedVersion (Version (self s)) (Version (self s))
               /\ SnapshotHistory (self s2) = SnapshotHistory (self s)
               /\ OperationHistory (self s2) = OperationHistory (self s)
               /\ world s2 = world s1).
  { subst s2. unfold RecordedVersion. fold read.
    destruct read; repeat split. }
  destruct H2 as (C1 & C2 & C4 & HO & HW).
  cbn [fst snd].
  set (s3 := SetDoc (set_Content (Content (self s))) s2).
  destruct (Core_fields _ _ (NotifyDocumentChanged_Core
                               (LoadLatestSnapshot (SaveData s) s3)))
    as (N1 & N2 & N3 & N4 & _).
  assert (HL : Core (self (LoadLatestSnapshot (SaveData s) s3))
               = (DocumentID (self s3), Version (self s3), Content (self s3),
                  SnapshotHistory (self (LoadLatestSnapshot (SaveData s) s3)),
                  MaxOperationHistory (self s3), MaxSnapshotHistory (self s3),
                  bAutoLocalSave (self s3), ConflictStrategy (self s3))).
  { unfold LoadLatestSnapshot.
    destruct (TryGetObjectField (SaveData s) "latestSnapshot"); [|reflexivity].
    destruct (_ || _); reflexivity. }
  unfold Core in HL. injection HL as L1 L2 L3 _ _ _ _.
  assert (LO : OperationHistory (self (LoadLatestSnapshot (SaveData s) s3))
               = OperationHistory (self s3)).
  { unfold LoadLatestSnapshot.
    destruct (TryGetObjectField (SaveData s) "latestSnapshot"); [|reflexivity].
    destruct (_ || _); reflexivity. }
  assert (LW : world (LoadLatestSnapshot (SaveData s) s3) = world s3).
  { unfold LoadLatestSnapshot.
    destruct (TryGetObjectField (SaveData s) "latestSnapshot"); [|reflexivity].
    destruct (_ || _); reflexivity. }
  assert (HV : Version (self (NotifyDocumentChanged
                                (LoadLatestSnapshot (SaveData s) s3)))
               = RecordedVersion (Version (self s)) (Version (self s))).
  { rewrite N2, L2. exact C2. }
  split; [reflexivity|].
  split; [rewrite N1, L1; exact C1|].
  split; [exact HV|].
  split.
  { intros Hsmall Hread. rewrite HV. unfold RecordedVersion.
    rewrite (Int64ToDouble_exact _ Hsmall), Hread. reflexivity. }
  split; [rewrite N3, L3; reflexivity|].
  split; [rewrite NotifyDocumentChanged_OperationHistory, LO; exact HO|].
  split.
  - rewrite N4.
    rewrite (LoadLatestSnapshot_SaveData s s3 HK HT C1).
    subst s3. cbn [SetDoc self world set_Content SnapshotHistory].
    rewrite C4, HW. reflexivity.
  - rewrite NotifyDocumentChanged_Events, LW, L1. subst s3.
    cbn [SetDoc world self set_Content DocumentID]. rewrite HW, Hev, C1.
    reflexivity.
Qed.



(** ** Restoring a snapshot *)

Lemma RestoreFromSnapshot_cases Snapshot (s : State) :
  RestoreFromSnapshot Snapshot s
  = if FString_ne (FJsonCRDTSnapshot.DocumentID Snapshot) (DocumentID (self s))
    then (false, s)
    else
      match Deserialize (FJsonCRDTSnapshot.Content Snapshot) with
      | None => (false, s)
      | Some o =>
          (true,
           NotifyDocumentChanged
             (SetDoc (set_Version (FJsonCRDTSnapshot.Version Snapshot))
                (snd (SetContent (Some o) s))))
      end.
Proof.
  unfold RestoreFromSnapshot, RestoreFromSnapshotRef. cbn [ReadSnapshot].
  destruct (FString_ne _ _); [reflexivity|].
  unfold SetContentFromString.
  destruct (Deserialize _); reflexivity.
Qed.

Lemma RestoreFromSnapshot_restored Snapshot (s : State) o :
  FString_ne (FJsonCRDTSnapshot.DocumentID Snapshot) (DocumentID (self s)) = false ->
  Deserialize (FJsonCRDTSnapshot.Content Snapshot) = Some o ->
  let r := RestoreFromSnapshot Snapshot s in
  fst r = true
  /\ Content (self (snd r)) = o
  /\ Version (self (snd r)) = FJsonCRDTSnapshot.Version Snapshot
  /\ DocumentID (self (snd r)) = DocumentID (self s)
  /\ OperationHistory (self (snd r)) = OperationHistory (self s)
  /\ Events (world (snd r))
     = Events (world s)
       ++ [DocumentChanged (DocumentID (self s));
           DocumentChanged (DocumentID (self s))].
Proof.
  intros Hid Ho. cbv zeta. rewrite RestoreFromSnapshot_cases, Hid, Ho.
  cbn [fst snd]. unfold SetContent. cbn [snd].
  set (s1 := CreateAndAddSnapshot _).
  destruct (Core_fields _ _ (NotifyDocumentChanged_Core s1))
    as (A1 & A2 & A3 & _).
  set (s2 := SetDoc _ (NotifyDocumentChanged s1)).
  destruct (Core_fields _ _ (NotifyDocumentChanged_Core s2))
    as (B1 & B2 & B3 & _).
  split; [reflexivity|].
  split; [rewrite B3; subst s2; cbn; rewrite A3; reflexivity|].
  split; [rewrite B2; reflexivity|].
  split; [rewrite B1; subst s2; cbn; rewrite A1; reflexivity|].
  split.
  - rewrite NotifyDocumentChanged_OperationHistory. subst s2. cbn.
    rewrite NotifyDocumentChanged_OperationHistory. reflexivity.
  - rewrite NotifyDocumentChanged_Events. subst s2.
    cbn [SetDoc world self set_Version DocumentID].
    rewrite NotifyDocumentChanged_Events, A1, <- app_assoc. reflexivity.
Qed.

(** X11. [RestoreFromSnapshot] succeeds exactly when the snapshot has the
    document's id and its content text is read as a JSON object.  When it
    fails the document, the file system and the events are as they were.
    When it succeeds the content is the object read, the version is the
    snapshot's, the id and the operation history are kept, and the change
    of the document is broadcast twice. *)
Theorem RestoreFromSnapshot_outcome (Snapshot : FJsonCRDTSnapshot.t) (s : State) :
  let r := RestoreFromSnapshot Snapshot s in
  (fst r = true <->
   FString_ne (FJsonCRDTSnapshot.DocumentID Snapshot) (DocumentID (self s)) = false
   /\ Deserialize (FJsonCRDTSnapshot.Content Snapshot) <> None)
  /\ (fst r = false -> snd r = s)
  /\ (fst r = true ->
      Deserialize (FJsonCRDTSnapshot.Content Snapshot) = Some (Content (self (snd r)))
      /\ Version (self (snd r)) = FJsonCRDTSnapshot.Version Snapshot
      /\ DocumentID (self (snd r)) = DocumentID (self s)
      /\ OperationHistory (self (snd r)) = OperationHistory (self s)
      /\ Events (world (snd r))
         = Events (world s)
           ++ [DocumentChanged (DocumentID (self s));
               DocumentChanged (DocumentID (self s))]).
Proof.
  cbv zeta.
  destruct (FString_ne (FJsonCRDTSnapshot.DocumentID Snapshot)
              (DocumentID (self s))) eqn:Hid.
  { rewrite RestoreFromSnapshot_cases, Hid. cbn [fst snd].
    split; [split; [discriminate|intros [H _]; discriminate]|].
    split; [reflexivity|discriminate]. }
  destruct (Deserialize (FJsonCRDTSnapshot.Content Snapshot)) as [o|] eqn:Ho.
  - destruct (RestoreFromSnapshot_restored Snapshot s o Hid Ho)
      as (R1 & R2 & R3 & R4 & R5 & R6).
    rewrite R1. split; [split; [intros _; split; [reflexivity|discriminate]
                               |reflexivity]|].
    split; [discriminate|]. intros _. rewrite R2. auto.
  - rewrite RestoreFromSnapshot_cases, Hid, Ho. cbn [fst snd].
    split; [split; [discriminate|intros [_ H]; contradiction]|].
    split; [reflexivity|discriminate].
Qed.

(** X12. A snapshot restores what it was taken of.  When the engine reads
    the content text of a document back as the content, restoring a
    snapshot of that document, on a document with the same id, succeeds
    and gives the content and the version the document had when the
    snapshot was taken. *)
Theorem CreateSnapshot_then_RestoreFromSnapshot (taken s : State) :
  Deserialize (GetContentAsString taken) = Some (Content (self taken)) ->
  FString_ne (DocumentID (self taken)) (DocumentID (self s)) = false ->
  let r := RestoreFromSnapshot (CreateSnapshot taken) s in
  fst r = true
  /\ Content (self (snd r)) = Content (self taken)
  /\ Version (self (snd r)) = Version (self taken).
Proof.
  intros Hread Hid.
  destruct (RestoreFromSnapshot_restored (CreateSnapshot taken) s
              (Content (self taken)) Hid Hread) as (R1 & R2 & R3 & _).
  cbv zeta. auto.
Qed.

(** ** Paths *)

Lemma ParseIntoArray_go_app (a b : string) :
  forall cur,
    ParseIntoArray_go (a ++ String "/" b) cur
    = ParseIntoArray_go a cur ++ ParseIntoArray b.
Proof.
  induction a as [|c r IH]; intros cur.
  - cbn. destruct cur; reflexivity.
  - cbn [append ParseIntoArray_go].
    destruct (Ascii.eqb c "/").
    + rewrite IH. destruct cur; reflexivity.
    + apply IH.
Qed.

Lemma ParseIntoArray_app (a b : string) :
  ParseIntoArray (a ++ "/" ++ b) = ParseIntoArray a ++ ParseIntoArray b.
Proof. apply ParseIntoArray_go_app. Qed.

Lemma PathPartsOf_ParseIntoArray (Path : string) :
  PathPartsOf Path = ParseIntoArray Path.
Proof.
  unfold PathPartsOf. destruct Path as [|c r]; [reflexivity|].
  cbn [StartsWithSlash RemoveFirstChar].
  destruct (Ascii.eqb c "/") eqn:E; [|reflexivity].
  unfold ParseIntoArray. cbn [ParseIntoArray_go]. rewrite E. reflexivity.
Qed.

Lemma GetValueAtPath_parts (root : FJsonObject) (Path : string) :
  Path <> "" ->
  GetValueAtPath (Some root) Path
  = WalkPath (FJsonValueObject root) (ParseIntoArray Path).
Proof.
  intros H. rewrite (GetValueAtPath_walks root Path H).
  rewrite PathPartsOf_ParseIntoArray. reflexivity.
Qed.

Lemma append_not_empty (a b : string) : b <> "" -> (a ++ b)%string <> "".
Proof. destruct a; cbn; [auto|discriminate]. Qed.

(** X13. Resolution composes.  When a path resolves to an object, the path
    continued by a slash and a second path resolves, from the root, to
    what the second path resolves to from that object. *)
Theorem GetValueAtPath_composes (root o : FJsonObject) (Path Rest : string) :
  GetValueAtPath (Some root) Path = Some (FJsonValueObject o) ->
  GetValueAtPath (Some root) (Path ++ "/" ++ Rest)
  = GetValueAtPath (Some o) ("/" ++ Rest).
Proof.
  intros H.
  assert (Hne : Path <> "") by (intros ->; discriminate).
  rewrite (GetValueAtPath_parts root Path Hne) in H.
  rewrite (GetValueAtPath_parts root (Path ++ "/" ++ Rest))
    by (apply append_not_empty; discriminate).
  rewrite (GetValueAtPath_parts o ("/" ++ Rest)) by discriminate.
  rewrite ParseIntoArray_app.
  rewrite (WalkPath_app _ (ParseIntoArray Rest) _ _ H) by eauto.
  change ("/" ++ Rest)%string with ("" ++ "/" ++ Rest)%string.
  rewrite ParseIntoArray_app. reflexivity.
Qed.

(** X14. Slashes that separate nothing are ignored.  On a path that is not
    empty, a slash put before it or after it changes nothing; and a
    doubled slash inside a path resolves as a single one. *)
Theorem GetValueAtPath_ignores_empty_segments (root : FJsonObject) :
  (forall Path, Path <> "" ->
      GetValueAtPath (Some root) ("/" ++ Path) = GetValueAtPath (Some root) Path
      /\ GetValueAtPath (Some root) (Path ++ "/") = GetValueAtPath (Some root) Path)
  /\ (forall a b,
        GetValueAtPath (Some root) (a ++ "//" ++ b)
        = GetValueAtPath (Some root) (a ++ "/" ++ b)).
Proof.
  split.
  - intros Path Hne.
    rewrite (GetValueAtPath_parts root Path Hne).
    rewrite (GetValueAtPath_parts root ("/" ++ Path)) by discriminate.
    rewrite (GetValueAtPath_parts root (Path ++ "/"))
      by (apply append_not_empty; discriminate).
    split.
    + change ("/" ++ Path)%string with ("" ++ "/" ++ Path)%string.
      rewrite ParseIntoArray_app. reflexivity.
    + change (Path ++ "/")%string with (Path ++ "/" ++ "")%string.
      rewrite ParseIntoArray_app, app_nil_r. reflexivity.
  - intros a b.
    rewrite (GetValueAtPath_parts root (a ++ "//" ++ b))
      by (apply append_not_empty; discriminate).
    rewrite (GetValueAtPath_parts root (a ++ "/" ++ b))
      by (apply append_not_empty; discriminate).
    change (a ++ "//" ++ b)%string with (a ++ "/" ++ ("" ++ "/" ++ b))%string.
    rewrite !ParseIntoArray_app. reflexivity.
Qed.

Lemma WalkPath_scalar (v : FJsonValue) (Parts : list string) :
  IsScalar v = true ->
  WalkPath v Parts
  = match Parts with
    | [] | [_] => Some v
    | _ => None
    end.
Proof.
  intros H. destruct Parts as [|p [|q r]]; destruct v; try discriminate;
    reflexivity.
Qed.

(** X15. The last segments of a path.  Where the segments before it lead
    to an object, a last segment gives the field of that name, unescaped,
    or nothing when there is none.  Where they lead to an array, a last
    segment that [Atoi] reads as an index within the array gives that
    element.  Where a field holds a value that is neither object nor
    array, one segment more still gives that value, whatever the segment
    says; two segments more give nothing. *)
Theorem GetValueAtPath_last_segments (root : FJsonObject) (Path : string)
  (pre : list string) :
  Path <> "" ->
  (forall o Part,
      WalkPath (FJsonValueObject root) pre = Some (FJsonValueObject o) ->
      PathPartsOf Path = pre ++ [Part] ->
      GetValueAtPath (Some root) Path = FindField o (UnescapePart Part))
  /\ (forall a Part,
        WalkPath (FJsonValueObject root) pre = Some (FJsonValueArray a) ->
        PathPartsOf Path = pre ++ [Part] ->
        0 <= Atoi (UnescapePart Part) < Num a ->
        GetValueAtPath (Some root) Path
        = nth_error a (Z.to_nat (Atoi (UnescapePart Part))))
  /\ (forall o Part v more,
        WalkPath (FJsonValueObject root) pre = Some (FJsonValueObject o) ->
        FindField o (UnescapePart Part) = Some v ->
        IsScalar v = true ->
        PathPartsOf Path = pre ++ Part :: more ->
        GetValueAtPath (Some root) Path
        = match more with
          | [] | [_] => Some v
          | _ => None
          end).
Proof.
  intros Hne. rewrite (GetValueAtPath_walks root Path Hne).
  split; [|split].
  - intros o Part Hpre ->.
    rewrite (WalkPath_app pre [Part] _ _ Hpre) by eauto.
    cbn. unfold HasField, GetField.
    destruct (FindField o (UnescapePart Part)); reflexivity.
  - intros a Part Hpre -> [H0 H1].
    rewrite (WalkPath_app pre [Part] _ _ Hpre) by eauto.
    cbn.
    destruct (Z.ltb_spec (Atoi (UnescapePart Part)) 0); [lia|].
    destruct (Z.geb_spec (Atoi (UnescapePart Part)) (Num a)); [lia|].
    cbn. destruct (nth_error a _); reflexivity.
  - intros o Part v more Hpre Hv Hs ->.
    rewrite (WalkPath_app pre (Part :: more) _ _ Hpre) by eauto.
    cbn [WalkPath]. unfold HasField, GetField. rewrite Hv. cbn [negb].
    apply WalkPath_scalar, Hs.
Qed.

(** ** Automatic saving *)

Lemma ApplyOperation_Disk Operation (s : State) :
  Disk (world (ApplyOperation Operation s)) = Disk (world s).
Proof. unfold ApplyOperation. destruct (FJsonCRDTOperation.Type_ _); reflexivity. Qed.

Lemma LogOperation_Disk Operation OldValue NewValue b Conflict (s : State) :
  Disk (world (LogOperation Operation OldValue NewValue b Conflict s))
  = Disk (world s).
Proof.
  unfold LogOperation. destruct (Logger (self s)) as [L|]; [|reflexivity].
  destruct (negb _); reflexivity.
Qed.

Lemma ApplyVerbatim_Disk OldValue Operation (s : State) :
  Disk (world (ApplyVerbatim OldValue Operation s)) = Disk (world s).
Proof.
  unfold ApplyVerbatim.
  change (world (AddToOperationHistory Operation ?x)) with (world x).
  rewrite LogOperation_Disk. apply ApplyOperation_Disk.
Qed.

Lemma ScanHistory_Disk n Operation OldValue :
  forall b Conflict (s : State),
    Disk (world (snd (ScanHistory n Operation OldValue b Conflict s)))
    = Disk (world s).
Proof.
  induction n as [|i IH]; intros b Conflict s; cbn [ScanHistory]; [reflexivity|].
  destruct (nth_error _ i) as [LocalOperation|]; [|reflexivity].
  destruct (Collides _ _); [|apply IH].
  pose proof (ResolveConflict_world
                (FillConflict LocalOperation Operation Conflict) s) as HW.
  destruct (ResolveConflict _ s) as [[[] c'] s']; cbn [snd] in HW.
  - rewrite IH.
    change (world (AddToOperationHistory ?o ?x)) with (world x).
    rewrite LogOperation_Disk.
    change (Disk (world (Emit ?e ?x))) with (Disk (world x)).
    rewrite ApplyOperation_Disk, HW. reflexivity.
  - rewrite IH, HW. reflexivity.
Qed.

Lemma ProcessOperation_Disk (s : State) Operation :
  Disk (world (ProcessOperation s Operation)) = Disk (world s).
Proof.
  unfold ProcessOperation.
  set (OldValue := OldValueOf Operation s).
  destruct (EJsonCRDTOperationType.eqb _ _).
  - pose proof (ScanHistory_Disk (List.length (OperationHistory (self s)))
                  Operation OldValue false
                  (FJsonCRDTConflict.Default (UtcNow (world s))) s) as HS.
    destruct (ScanHistory _ _ _ _ _ _) as [[[] c] s']; cbn [fst snd negb] in HS |- *.
    + exact HS.
    + rewrite ApplyVerbatim_Disk. exact HS.
  - cbn [negb]. apply ApplyVerbatim_Disk.
Qed.

Lemma fold_ProcessOperation_Disk ops :
  forall s : State,
    Disk (world (fold_left ProcessOperation ops s)) = Disk (world s).
Proof.
  induction ops as [|op ops IH]; intros s; cbn; [reflexivity|].
  rewrite IH. apply ProcessOperation_Disk.
Qed.

Lemma NotifyDocumentChanged_without_save (s : State) :
  bAutoLocalSave (self s) = false ->
  NotifyDocumentChanged s = Emit (DocumentChanged (DocumentID (self s))) s.
Proof. unfold NotifyDocumentChanged. cbn. intros ->. reflexivity. Qed.

Lemma SaveLocally_SavedOrReported (s : State) :
  SavedOrReported (snd (SaveLocally s)).
Proof.
  rewrite (SaveLocally_cases s). cbv zeta. unfold SavedOrReported.
  destruct (negb (_ || _));
    [right; cbn; left; reflexivity|].
  destruct (negb (fst _));
    [right; cbn; right; left; reflexivity|].
  destruct (negb (WritableFile _ _));
    [right; cbn; right; right; reflexivity|].
  left. cbn [snd]. unfold SavedOnDisk, LoadFileToString.
  change (GetLocalStoragePath {| self := self s; world := WithRecord s |})
    with (GetLocalStoragePath s).
  unfold WithRecord at 1. cbn [world Files set_Files].
  rewrite String.eqb_refl. f_equal.
  unfold SaveData. cbn [self world]. unfold WithRecord.
  cbn [UtcNow set_Files]. unfold WithDirectory.
  destruct (Directories _ _); reflexivity.
Qed.

Lemma NotifyDocumentChanged_with_save (s : State) :
  bAutoLocalSave (self s) = true -> SavedOrReported (NotifyDocumentChanged s).
Proof.
  unfold NotifyDocumentChanged. cbn [Emit SetWorld self]. intros ->.
  apply SaveLocally_SavedOrReported.
Qed.

(** X16. The file system is written by a change of the document only when
    automatic saving is on.  With it off, [SetContent], [ApplyPatch] and
    [RestoreFromSnapshot] leave every file and directory as it was.  With
    it on, after a [SetContent] or an [ApplyPatch] that succeeds, and after
    [SetAutoLocalSave] has switched it on, either the local record holds
    the document as it then is, or the last error message is one of the
    three that a failed save leaves; the change itself is kept either
    way. *)
Theorem Changes_save_when_AutoLocalSave (s : State) :
  (bAutoLocalSave (self s) = false ->
   (forall JsonObject,
       Disk (world (snd (SetContent JsonObject s))) = Disk (world s))
   /\ (forall Patch,
         Disk (world (snd (ApplyPatch Patch s))) = Disk (world s))
   /\ (forall Snapshot,
         Disk (world (snd (RestoreFromSnapshot Snapshot s))) = Disk (world s)))
  /\ (bAutoLocalSave (self s) = true ->
      (forall o, SavedOrReported (snd (SetContent (Some o) s)))
      /\ (forall Patch,
            fst (ApplyPatch Patch s) = true ->
            SavedOrReported (snd (ApplyPatch Patch s))))
  /\ SavedOrReported (SetAutoLocalSave true s).
Proof.
  split; [|split].
  - intros Hoff.
    assert (HS : forall o,
               Disk (world (snd (SetContent (Some o) s))) = Disk (world s)).
    { intros o. unfold SetContent. cbn [snd].
      rewrite NotifyDocumentChanged_without_save by exact Hoff. reflexivity. }
    split; [|split].
    + intros [o|]; [apply HS|reflexivity].
    + intros Patch. unfold ApplyPatch.
      destruct (FString_ne _ _); cbn [snd]; [reflexivity|].
      rewrite NotifyDocumentChanged_without_save.
      * change (Disk (world (Emit ?e (CreateAndAddSnapshot (IncrementVersion ?x)))))
          with (Disk (world x)).
        apply fold_ProcessOperation_Disk.
      * cbn.
        rewrite (proj1 (proj2 (proj2 (proj2 (proj2 (proj2 (proj2
                   (Core_fields _ _ (fold_ProcessOperation_Core _ s))))))))).
        exact Hoff.
    + intros Snapshot. rewrite RestoreFromSnapshot_cases.
      destruct (FString_ne _ _); [reflexivity|].
      destruct (Deserialize _) as [o|]; [|reflexivity].
      cbn [snd]. rewrite NotifyDocumentChanged_without_save.
      * change (Disk (world (Emit ?e (SetDoc ?f ?x)))) with (Disk (world x)).
        apply HS.
      * cbn.
        rewrite (proj1 (proj2 (proj2 (proj2 (proj2 (proj2 (proj2
                   (Core_fields _ _ (NotifyDocumentChanged_Core _))))))))).
        exact Hoff.
  - intros Hon. split.
    + intros o. unfold SetContent. cbn [snd].
      apply NotifyDocumentChanged_with_save. exact Hon.
    + intros Patch. unfold ApplyPatch.
      destruct (FString_ne _ _); [discriminate|]. intros _. cbn [snd].
      apply NotifyDocumentChanged_with_save. cbn.
      rewrite (proj1 (proj2 (proj2 (proj2 (proj2 (proj2 (proj2
                 (Core_fields _ _ (fold_ProcessOperation_Core _ s))))))))).
      exact Hon.
  - unfold SetAutoLocalSave. cbn. apply SaveLocally_SavedOrReported.
Qed.

(** ** The resolver and the settings *)

Lemma SaveLocally_ResolverPart (s : State) :
  ResolverPart (self (snd (SaveLocally s))) = ResolverPart (self s).
Proof. destruct (SaveLocally_self s) as [-> | [msg ->]]; reflexivity. Qed.

Lemma NotifyDocumentChanged_ResolverPart (s : State) :
  ResolverPart (self (NotifyDocumentChanged s)) = ResolverPart (self s).
Proof.
  unfold NotifyDocumentChanged. cbn.
  destruct (bAutoLocalSave (self s)); [|reflexivity].
  rewrite SaveLocally_ResolverPart. reflexivity.
Qed.

Lemma SetContent_ResolverPart JsonObject (s : State) :
  ResolverPart (self (snd (SetContent JsonObject s))) = ResolverPart (self s).
Proof.
  destruct JsonObject as [o|]; [|reflexivity].
  unfold SetContent; cbn [snd]. rewrite NotifyDocumentChanged_ResolverPart.
  reflexivity.
Qed.

Lemma SetContentFromString_ResolverPart JsonString (s : State) :
  ResolverPart (self (snd (SetContentFromString JsonString s)))
  = ResolverPart (self s).
Proof.
  unfold SetContentFromString. destruct (Deserialize _); [|reflexivity].
  apply SetContent_ResolverPart.
Qed.

Lemma LoadFromLocal_ResolverPart (s : State) :
  ResolverPart (self (snd (LoadFromLocal s))) = ResolverPart (self s).
Proof.
  unfold LoadFromLocal.
  destruct (negb (FileExists _ _)); cbn; [auto|].
  destruct (LoadFileToString _ _); cbn; [|auto].
  destruct (Deserialize _) as [LoadData|]; cbn; [|auto].
  destruct (_ || _); cbn; [auto|].
  destruct (TryGetNumberField _ _); cbn;
    destruct (TryGetObjectField LoadData "content"); cbn; auto;
    rewrite NotifyDocumentChanged_ResolverPart; unfold LoadLatestSnapshot;
    destruct (TryGetObjectField _ _); try reflexivity;
    destruct (_ || _); reflexivity.
Qed.

Lemma RestoreFromSnapshotRef_ResolverPart r (s : State) :
  ResolverPart (self (snd (RestoreFromSnapshotRef r s))) = ResolverPart (self s).
Proof.
  unfold RestoreFromSnapshotRef.
  destruct (FString_ne _ _); [reflexivity|].
  pose proof (SetContentFromString_ResolverPart
                (FJsonCRDTSnapshot.Content (ReadSnapshot r s)) s) as H.
  destruct (SetContentFromString _ s) as [[] s1]; cbn in H |- *; [|exact H].
  rewrite NotifyDocumentChanged_ResolverPart. exact H.
Qed.

Lemma RecoverDocument_ResolverPart (s : State) :
  ResolverPart (self (snd (RecoverDocument s))) = ResolverPart (self s).
Proof.
  unfold RecoverDocument.
  pose proof (LoadFromLocal_ResolverPart s) as HL.
  destruct (LoadFromLocal s) as [[] s1]; cbn in HL |- *; [exact HL|].
  destruct (Last _) as [newest|]; [|exact HL].
  pose proof (RestoreFromSnapshotRef_ResolverPart
                (HistorySlot (List.length (SnapshotHistory (self s1)) - 1)
                   newest) s1) as HR.
  destruct (RestoreFromSnapshotRef _ s1) as [[] s2]; cbn in HR |- *;
    rewrite <- HL; exact HR.
Qed.

Lemma LogOperation_ResolverPart Operation OldValue NewValue b Conflict (s : State) :
  ResolverPart (self (LogOperation Operation OldValue NewValue b Conflict s))
  = ResolverPart (self s).
Proof.
  unfold LogOperation. destruct (Logger (self s)) as [L|]; [|reflexivity].
  destruct (negb _); reflexivity.
Qed.

Lemma ApplyVerbatim_ResolverPart OldValue Operation (s : State) :
  ResolverPart (self (ApplyVerbatim OldValue Operation s)) = ResolverPart (self s).
Proof.
  unfold ApplyVerbatim.
  change (ResolverPart (self (AddToOperationHistory Operation ?x)))
    with (ResolverPart (self x)).
  rewrite LogOperation_ResolverPart, ApplyOperation_self. reflexivity.
Qed.

Lemma ResolverPart_resolver d d' r :
  ResolverPart d' = ResolverPart d ->
  ConflictResolver d = Some r -> ConflictResolver d' = Some r.
Proof.
  intros H Hr. apply (f_equal fst) in H. cbn in H. rewrite H. exact Hr.
Qed.

Lemma ScanHistory_ResolverPart r n Operation OldValue :
  forall b Conflict (s : State),
    ConflictResolver (self s) = Some r ->
    ResolverPart (self (snd (ScanHistory n Operation OldValue b Conflict s)))
    = ResolverPart (self s).
Proof.
  induction n as [|i IH]; intros b Conflict s Hr; cbn [ScanHistory];
    [reflexivity|].
  destruct (nth_error _ i) as [LocalOperation|]; [|reflexivity].
  destruct (Collides _ _); [|apply IH, Hr].
  rewrite (ResolveConflict_installed s r _ Hr).
  destruct (fst (Resolver_ResolveConflict r _)); [|apply IH, Hr].
  set (t := AddToOperationHistory _ _).
  assert (Ht : ResolverPart (self t) = ResolverPart (self s)).
  { subst t.
    change (ResolverPart (self (AddToOperationHistory ?o ?x)))
      with (ResolverPart (self x)).
    rewrite LogOperation_ResolverPart. cbn [Emit SetWorld self].
    rewrite ApplyOperation_self. reflexivity. }
  rewrite IH; [exact Ht|].
  apply (ResolverPart_resolver _ _ r Ht Hr).
Qed.

Lemma ProcessOperation_ResolverPart r (s : State) Operation :
  ConflictResolver (self s) = Some r ->
  ResolverPart (self (ProcessOperation s Operation)) = ResolverPart (self s).
Proof.
  intros Hr. unfold ProcessOperation.
  set (OldValue := OldValueOf Operation s).
  destruct (EJsonCRDTOperationType.eqb _ _).
  - pose proof (ScanHistory_ResolverPart r
                  (List.length (OperationHistory (self s)))
                  Operation OldValue false
                  (FJsonCRDTConflict.Default (UtcNow (world s))) s Hr) as HS.
    destruct (ScanHistory _ _ _ _ _ _) as [[[] c] s'];
      cbn [fst snd negb] in HS |- *.
    + exact HS.
    + rewrite ApplyVerbatim_ResolverPart. exact HS.
  - cbn [negb]. apply ApplyVerbatim_ResolverPart.
Qed.

Lemma fold_ProcessOperation_ResolverPart r ops :
  forall s : State,
    ConflictResolver (self s) = Some r ->
    ResolverPart (self (fold_left ProcessOperation ops s))
    = ResolverPart (self s).
Proof.
  induction ops as [|op ops IH]; intros s Hr; cbn; [reflexivity|].
  pose proof (ProcessOperation_ResolverPart r s op Hr) as H1.
  rewrite IH; [exact H1|].
  apply (ResolverPart_resolver _ _ r H1 Hr).
Qed.

Lemma ApplyPatch_ResolverPart r Patch (s : State) :
  ConflictResolver (self s) = Some r ->
  ResolverPart (self (snd (ApplyPatch Patch s))) = ResolverPart (self s).
Proof.
  intros Hr. unfold ApplyPatch. destruct (FString_ne _ _); [reflexivity|].
  cbn [snd]. rewrite NotifyDocumentChanged_ResolverPart.
  change (ResolverPart (self (CreateAndAddSnapshot (IncrementVersion ?x))))
    with (ResolverPart (self x)).
  apply (fold_ProcessOperation_ResolverPart r), Hr.
Qed.

Lemma ResolverPart_Agrees d d' :
  ResolverPart d' = ResolverPart d ->
  DefaultResolverAgrees d -> DefaultResolverAgrees d'.
Proof.
  unfold ResolverPart, DefaultResolverAgrees. intros H.
  injection H as -> ->. auto.
Qed.

Lemma Strategy_eqb_eq (a b : EJsonCRDTConflictStrategy.t) :
  EJsonCRDTConflictStrategy.eqb a b = true -> a = b.
Proof. destruct a, b; cbn; congruence. Qed.

Lemma Call_DefaultResolverAgrees (c : Command) (s : State) :
  InstallsResolver c = false ->
  DefaultResolverAgrees (self s) -> DefaultResolverAgrees (self (Call s c)).
Proof.
  intros Hc H. destruct c; cbn [Call]; try discriminate.
  - exact H.
  - eapply ResolverPart_Agrees; [apply SetContent_ResolverPart|exact H].
  - eapply ResolverPart_Agrees; [apply SetContentFromString_ResolverPart|exact H].
  - eapply ResolverPart_Agrees; [eapply ApplyPatch_ResolverPart; exact H|exact H].
  - eapply ResolverPart_Agrees; [apply SaveLocally_ResolverPart|exact H].
  - eapply ResolverPart_Agrees; [apply LoadFromLocal_ResolverPart|exact H].
  - eapply ResolverPart_Agrees; [apply RestoreFromSnapshotRef_ResolverPart|exact H].
  - eapply ResolverPart_Agrees; [apply RecoverDocument_ResolverPart|exact H].
  - unfold SetAutoLocalSave. destruct bEnable; cbn; [|exact H].
    eapply ResolverPart_Agrees; [apply SaveLocally_ResolverPart|exact H].
  - unfold SetConflictStrategy, DefaultResolverAgrees in *. cbn. rewrite H.
    destruct (EJsonCRDTConflictStrategy.eqb _ _) eqn:E; cbn; [|reflexivity].
    rewrite H. apply Strategy_eqb_eq in E. rewrite E. reflexivity.
  - unfold SetLoggingEnabled. destruct (Logger (self s)); exact H.
Qed.

(** X17. The strategy a document reports is the strategy its conflicts are
    resolved by.  A document whose resolver is the default one with the
    document's strategy, as a new document is, stays so over every
    sequence of calls that installs no resolver, [SetConflictStrategy]
    among them; and [ResolveConflict] then gives what the default resolver
    gives under the strategy of the document, and leaves the document as
    it is. *)
Theorem Strategy_and_resolver_agree (cs : list Command) (s : State) :
  DefaultResolverAgrees (self s) ->
  Forall (fun c => InstallsResolver c = false) cs ->
  let s' := Calls cs s in
  DefaultResolverAgrees (self s')
  /\ forall Conflict,
       ResolveConflict Conflict s'
       = (fst (FJsonCRDTDefaultConflictResolver.ResolveConflict
                 (ConflictStrategy (self s')) Conflict),
          snd (FJsonCRDTDefaultConflictResolver.ResolveConflict
                 (ConflictStrategy (self s')) Conflict),
          s').
Proof.
  intros H Hcs. cbv zeta.
  assert (HA : DefaultResolverAgrees (self (Calls cs s))).
  { revert s H. induction Hcs as [|c cs Hc Hcs IH]; intros s H; [exact H|].
    cbn [Calls fold_left]. apply IH. apply Call_DefaultResolverAgrees; assumption. }
  split; [exact HA|]. intros Conflict.
  apply (ResolveConflict_installed (Calls cs s) _ Conflict HA).
Qed.

Lemma ApplyPatch_Settings Patch (s : State) :
  Settings (self (snd (ApplyPatch Patch s))) = Settings (self s).
Proof.
  destruct (ApplyPatch_Core Patch s) as (H1 & _ & H5 & H6 & H7 & H8).
  unfold Settings. rewrite H1, H5, H6, H7, H8. reflexivity.
Qed.

Lemma Core_Settings d d' : Core d' = Core d -> Settings d' = Settings d.
Proof.
  intros H. destruct (Core_fields _ _ H) as (H1 & _ & _ & _ & H5 & H6 & H7 & H8).
  unfold Settings. rewrite H1, H5, H6, H7, H8. reflexivity.
Qed.

Lemma SetContent_Settings JsonObject (s : State) :
  Settings (self (snd (SetContent JsonObject s))) = Settings (self s).
Proof.
  destruct JsonObject as [o|]; [|reflexivity].
  unfold SetContent; cbn [snd].
  rewrite (Core_Settings _ _ (NotifyDocumentChanged_Core _)). reflexivity.
Qed.

Lemma SetContentFromString_Settings JsonString (s : State) :
  Settings (self (snd (SetContentFromString JsonString s))) = Settings (self s).
Proof.
  unfold SetContentFromString. destruct (Deserialize _); [|reflexivity].
  apply SetContent_Settings.
Qed.

Lemma LoadFromLocal_Settings (s : State) :
  Settings (self (snd (LoadFromLocal s))) = Settings (self s).
Proof.
  unfold LoadFromLocal.
  destruct (negb (FileExists _ _)); cbn; [auto|].
  destruct (LoadFileToString _ _); cbn; [|auto].
  destruct (Deserialize _) as [LoadData|]; cbn; [|auto].
  destruct (_ || _); cbn; [auto|].
  destruct (TryGetNumberField _ _); cbn;
    destruct (TryGetObjectField LoadData "content"); cbn; auto;
    rewrite (Core_Settings _ _ (NotifyDocumentChanged_Core _));
    unfold LoadLatestSnapshot;
    destruct (TryGetObjectField _ _); try reflexivity;
    destruct (_ || _); reflexivity.
Qed.

Lemma RestoreFromSnapshotRef_Settings r (s : State) :
  Settings (self (snd (RestoreFromSnapshotRef r s))) = Settings (self s).
Proof.
  unfold RestoreFromSnapshotRef.
  destruct (FString_ne _ _); [reflexivity|].
  pose proof (SetContentFromString_Settings
                (FJsonCRDTSnapshot.Content (ReadSnapshot r s)) s) as H.
  destruct (SetContentFromString _ s) as [[] s1]; cbn in H |- *; [|exact H].
  rewrite (Core_Settings _ _ (NotifyDocumentChanged_Core _)). exact H.
Qed.

Lemma RecoverDocument_Settings (s : State) :
  Settings (self (snd (RecoverDocument s))) = Settings (self s).
Proof.
  unfold RecoverDocument.
  pose proof (LoadFromLocal_Settings s) as HL.
  destruct (LoadFromLocal s) as [[] s1]; cbn in HL |- *; [exact HL|].
  destruct (Last _) as [newest|]; [|exact HL].
  pose proof (RestoreFromSnapshotRef_Settings
                (HistorySlot (List.length (SnapshotHistory (self s1)) - 1)
                   newest) s1) as HR.
  destruct (RestoreFromSnapshotRef _ s1) as [[] s2]; cbn in HR |- *;
    rewrite <- HL; exact HR.
Qed.

(** X18. The settings of a document are written by their setters alone.
    Over every sequence of calls without [Initialize], [SetAutoLocalSave],
    [SetConflictStrategy] and [SetConflictResolver], whatever succeeds or
    fails in it, the document keeps its id, its automatic saving flag and
    its strategy; and the two maxima of the histories are kept over every
    sequence of calls whatever. *)
Theorem Settings_change_only_by_setters (cs : list Command) (s : State) :
  MaxOperationHistory (self (Calls cs s)) = MaxOperationHistory (self s)
  /\ MaxSnapshotHistory (self (Calls cs s)) = MaxSnapshotHistory (self s)
  /\ (Forall (fun c => IsSetter c = false) cs ->
      Settings (self (Calls cs s)) = Settings (self s)).
Proof.
  assert (HM : forall cs (s : State),
             MaxOperationHistory (self (Calls cs s)) = MaxOperationHistory (self s)
             /\ MaxSnapshotHistory (self (Calls cs s))
                = MaxSnapshotHistory (self s)).
  { clear cs s. induction cs as [|c cs IH]; intros s; [auto|].
    change (Calls (c :: cs) s) with (Calls cs (Call s c)).
    destruct (IH (Call s c)) as [-> ->]. clear IH.
    assert (HS : forall t : State,
               Settings (self t) = Settings (self s) ->
               MaxOperationHistory (self t) = MaxOperationHistory (self s)
               /\ MaxSnapshotHistory (self t) = MaxSnapshotHistory (self s)).
    { intros t Ht. unfold Settings in Ht. injection Ht as _ -> -> _ _. auto. }
    destruct c; cbn [Call].
    - auto.
    - apply HS, SetContent_Settings.
    - apply HS, SetContentFromString_Settings.
    - apply HS, ApplyPatch_Settings.
    - apply HS, Core_Settings, SaveLocally_Core.
    - apply HS, LoadFromLocal_Settings.
    - apply HS, RestoreFromSnapshotRef_Settings.
    - apply HS, RecoverDocument_Settings.
    - unfold SetAutoLocalSave. destruct bEnable; cbn; [|auto].
      destruct (Core_fields _ _ (SaveLocally_Core
                  (SetDoc (set_bAutoLocalSave true) s)))
        as (_ & _ & _ & _ & -> & -> & _). auto.
    - unfold SetConflictStrategy. cbn.
      destruct (ConflictResolver (self s)) as [[old|f st]|]; auto.
      destruct (negb _); auto.
    - destruct InConflictResolver; auto.
    - unfold SetLoggingEnabled. destruct (Logger (self s)); auto. }
  destruct (HM cs s) as [H1 H2]. split; [exact H1|]. split; [exact H2|].
  clear HM H1 H2. intros Hcs. revert s.
  induction Hcs as [|c cs Hc Hcs IH]; intros s; [reflexivity|].
  change (Calls (c :: cs) s) with (Calls cs (Call s c)).
  rewrite IH. clear IH.
  destruct c; cbn [Call]; try discriminate.
  - apply SetContent_Settings.
  - apply SetContentFromString_Settings.
  - apply ApplyPatch_Settings.
  - apply Core_Settings, SaveLocally_Core.
  - apply LoadFromLocal_Settings.
  - apply RestoreFromSnapshotRef_Settings.
  - apply RecoverDocument_Settings.
  - unfold SetLoggingEnabled. destruct (Logger (self s)); reflexivity.
Qed.

(** ** The default resolver *)

(** X19. The default resolver.  It resolves exactly when its strategy is
    not Custom.  When it does not, the conflict is left as it was.  When
    it does, the conflict is marked resolved, its resolved value is the
    local value or the remote one (the local one under LocalWins, the
    remote one under RemoteWins), and its paths, values and operations
    are kept.  Resolving a conflict it has resolved changes nothing. *)
Theorem DefaultResolver_strategies
  (Strategy : EJsonCRDTConflictStrategy.t) (Conflict : FJsonCRDTConflict.t) :
  let r := FJsonCRDTDefaultConflictResolver.ResolveConflict Strategy Conflict in
  (fst r = true <-> Strategy <> EJsonCRDTConflictStrategy.Custom)
  /\ (fst r = false -> snd r = Conflict)
  /\ (fst r = true ->
      FJsonCRDTConflict.bResolved (snd r) = true
      /\ (FJsonCRDTConflict.ResolvedValue (snd r)
          = FJsonCRDTConflict.LocalValue Conflict
          \/ FJsonCRDTConflict.ResolvedValue (snd r)
             = FJsonCRDTConflict.RemoteValue Conflict)
      /\ snd r = FJsonCRDTConflict.Resolve
                   (FJsonCRDTConflict.ResolvedValue (snd r)) Conflict)
  /\ (Strategy = EJsonCRDTConflictStrategy.LocalWins ->
      FJsonCRDTConflict.ResolvedValue (snd r)
      = FJsonCRDTConflict.LocalValue Conflict)
  /\ (Strategy = EJsonCRDTConflictStrategy.RemoteWins ->
      FJsonCRDTConflict.ResolvedValue (snd r)
      = FJsonCRDTConflict.RemoteValue Conflict)
  /\ FJsonCRDTDefaultConflictResolver.ResolveConflict Strategy (snd r) = r.
Proof.
  cbv zeta.
  destruct Strategy; cbn;
    unfold FJsonCRDTDefaultConflictResolver.ResolveLastWriterWins;
    try destruct (_ >? _) eqn:E; cbn; rewrite ?E;
    repeat split; try discriminate; try congruence; auto.
Qed.

(** ** Setting the content, and loading it *)

(** X24. [SetContentFromString] succeeds exactly when the text is read as
    a JSON object, and [SetContent] exactly when it is given an object.
    On failure the document and the world are as they were.  On success
    the content is that object, the operation history is kept, and the
    change is broadcast once, after the events there were. *)
Theorem SetContent_outcome (s : State) :
  (forall JsonString,
      let r := SetContentFromString JsonString s in
      (fst r = true <-> Deserialize JsonString <> None)
      /\ (fst r = false -> snd r = s)
      /\ (fst r = true ->
          Deserialize JsonString = Some (Content (self (snd r)))))
  /\ (forall JsonObject,
        let r := SetContent JsonObject s in
        (fst r = true <-> JsonObject <> None)
        /\ (fst r = false -> snd r = s)
        /\ (fst r = true ->
            JsonObject = Some (Content (self (snd r)))
            /\ OperationHistory (self (snd r)) = OperationHistory (self s)
            /\ Events (world (snd r))
               = Events (world s) ++ [DocumentChanged (DocumentID (self s))])).
Proof.
  assert (HS : forall o,
             fst (SetContent (Some o) s) = true
             /\ Content (self (snd (SetContent (Some o) s))) = o
             /\ OperationHistory (self (snd (SetContent (Some o) s)))
                = OperationHistory (self s)
             /\ Events (world (snd (SetContent (Some o) s)))
                = Events (world s) ++ [DocumentChanged (DocumentID (self s))]).
  { intros o. unfold SetContent. cbn [fst snd].
    split; [reflexivity|]. split; [|split].
    - rewrite (proj1 (proj2 (proj2 (Core_fields _ _
                 (NotifyDocumentChanged_Core _))))). reflexivity.
    - rewrite NotifyDocumentChanged_OperationHistory. reflexivity.
    - rewrite NotifyDocumentChanged_Events. reflexivity. }
  split.
  - intros JsonString. cbv zeta. unfold SetContentFromString.
    destruct (Deserialize JsonString) as [o|].
    + destruct (HS o) as (H1 & H2 & _). rewrite H1, H2.
      split; [split; [discriminate|reflexivity]|].
      split; [discriminate|reflexivity].
    + cbn [fst snd]. split; [split; [discriminate|contradiction]|].
      split; [reflexivity|discriminate].
  - intros [o|]; cbv zeta.
    + destruct (HS o) as (H1 & H2 & H3 & H4). rewrite H1, H2.
      split; [split; [discriminate|reflexivity]|].
      split; [discriminate|]. intros _. auto.
    + cbn [SetContent fst snd]. split; [split; [discriminate|contradiction]|].
      split; [reflexivity|discriminate].
Qed.

(** X25. What a successful [LoadFromLocal] takes from the record.  When
    the local record is read as an object with this document's id and a
    content object, the load succeeds; the content is the content object
    of the record; the version is what the engine reads from the version
    field of the record as a 64-bit integer, be the field a number or a
    text or boolean that the engine converts, and stays when the engine
    reads none; the id and the operation history are kept; and the change
    is broadcast once. *)
Theorem LoadFromLocal_takes_the_record (s : State) (LoadData : FJsonObject) :
  LoadableRecord s = Some LoadData ->
  let r := LoadFromLocal s in
  fst r = true
  /\ TryGetObjectField LoadData "content" = Some (Content (self (snd r)))
  /\ Version (self (snd r))
     = match TryGetNumberField LoadData "version" with
       | Some LoadedVersion => LoadedVersion
       | None => Version (self s)
       end
  /\ DocumentID (self (snd r)) = DocumentID (self s)
  /\ OperationHistory (self (snd r)) = OperationHistory (self s)
  /\ Events (world (snd r))
     = Events (world s) ++ [DocumentChanged (DocumentID (self s))].
Proof.
  unfold LoadableRecord, LoadFromLocal.
  destruct (negb (FileExists _ _)); [discriminate|].
  destruct (LoadFileToString _ _); [|discriminate].
  destruct (Deserialize _) as [data|]; [|discriminate].
  destruct (TryGetStringField data "documentId"); [|discriminate].
  destruct (FString_ne _ _); [discriminate|]. cbn [orb].
  destruct (TryGetObjectField data "content") as [ContentObject|] eqn:EC;
    [|discriminate].
  intros H; injection H as ->. cbv zeta. cbn [fst snd].
  set (st1 := match TryGetNumberField LoadData "version" with
             | Some LoadedVersion => SetDoc (set_Version LoadedVersion) s
             | None => s
             end).
  set (st2 := SetDoc (set_Content ContentObject) st1).
  assert (H1 : DocumentID (self st1) = DocumentID (self s)
               /\ OperationHistory (self st1) = OperationHistory (self s)
               /\ world st1 = world s
               /\ Version (self st1)
                  = match TryGetNumberField LoadData "version" with
                    | Some LoadedVersion => LoadedVersion
                    | None => Version (self s)
                    end).
  { subst st1. destruct (TryGetNumberField LoadData "version"); cbn; auto. }
  destruct H1 as (A1 & A2 & A3 & A4).
  assert (HL : DocumentID (self (LoadLatestSnapshot LoadData st2)) = DocumentID (self st2)
               /\ Version (self (LoadLatestSnapshot LoadData st2)) = Version (self st2)
               /\ Content (self (LoadLatestSnapshot LoadData st2)) = Content (self st2)
               /\ OperationHistory (self (LoadLatestSnapshot LoadData st2))
                  = OperationHistory (self st2)
               /\ world (LoadLatestSnapshot LoadData st2) = world st2).
  { unfold LoadLatestSnapshot.
    destruct (TryGetObjectField LoadData "latestSnapshot"); [|auto].
    destruct (_ || _); cbn; auto. }
  destruct HL as (L1 & L2 & L3 & L4 & L5).
  destruct (Core_fields _ _ (NotifyDocumentChanged_Core
                               (LoadLatestSnapshot LoadData st2)))
    as (N1 & N2 & N3 & _).
  split; [reflexivity|].
  split; [rewrite EC, N3, L3; reflexivity|].
  split; [rewrite N2, L2; exact A4|].
  split; [rewrite N1, L1; exact A1|].
  split; [rewrite NotifyDocumentChanged_OperationHistory, L4; exact A2|].
  rewrite NotifyDocumentChanged_Events, L5, L1. subst st2.
  cbn [SetDoc world self set_Content DocumentID]. rewrite A3, A1. reflexivity.
Qed.

(** ** Patches whose collisions are not resolved *)

Lemma fold_ProcessOperation_NeverResolves r ops :
  forall s : State,
    ConflictResolver (self s) = Some r ->
    NeverResolves r ->
    Forall (fun op =>
              FJsonCRDTOperation.Type_ op = EJsonCRDTOperationType.Replace
              /\ Collisions op (OperationHistory (self s)) <> []) ops ->
    fold_left ProcessOperation ops s = s.
Proof.
  induction ops as [|op ops IH]; intros s Hr Hnever Hall; [reflexivity|].
  inversion Hall as [|? ? [Hty Hcol] Hrest]; subst.
  cbn [fold_left].
  rewrite (ProcessOperation_NeverResolves s r op Hty Hr Hnever Hcol).
  apply IH; assumption.
Qed.

(** X26. With a resolver that never resolves, as the default one under
    Custom, a patch of the document made of [Replace] operations that each
    collide with the history is accepted and does nothing of what it
    carries: no operation is applied, logged or added to the history, and
    no conflict is broadcast.  The call returns true, and the document is
    as after a patch without operations: the version one step on, a new
    snapshot, one change broadcast. *)
Theorem ApplyPatch_drops_every_unresolved_Replace
  (Patch : FJsonCRDTPatch.t) (s : State) (r : IJsonCRDTConflictResolver) :
  FString_ne (FJsonCRDTPatch.DocumentID Patch) (DocumentID (self s)) = false ->
  ConflictResolver (self s) = Some r ->
  NeverResolves r ->
  Forall (fun op =>
            FJsonCRDTOperation.Type_ op = EJsonCRDTOperationType.Replace
            /\ Collisions op (OperationHistory (self s)) <> [])
    (FJsonCRDTPatch.Operations Patch) ->
  ApplyPatch Patch s
  = (true, NotifyDocumentChanged (CreateAndAddSnapshot (IncrementVersion s)))
  /\ OperationHistory (self (snd (ApplyPatch Patch s))) = OperationHistory (self s)
  /\ Events (world (snd (ApplyPatch Patch s)))
     = Events (world s) ++ [DocumentChanged (DocumentID (self s))].
Proof.
  intros Hid Hr Hnever Hall.
  assert (H : ApplyPatch Patch s
              = (true, NotifyDocumentChanged
                         (CreateAndAddSnapshot (IncrementVersion s)))).
  { unfold ApplyPatch. rewrite Hid.
    rewrite (fold_ProcessOperation_NeverResolves r _ s Hr Hnever Hall).
    reflexivity. }
  rewrite H. cbn [snd]. split; [reflexivity|]. split.
  - rewrite NotifyDocumentChanged_OperationHistory. reflexivity.
  - rewrite NotifyDocumentChanged_Events. reflexivity.
Qed.

(** ** The version after a recovery from the newest snapshot *)

Lemma nth_last_app_one {A : Type} (l : list A) (x d : A) :
  nth (List.length l) (l ++ [x]) d = x.
Proof. rewrite app_nth2 by lia. rewrite Nat.sub_diag. reflexivity. Qed.

(** X27. Recovery from the newest snapshot, and the version it leaves.
    When the local load fails and the newest snapshot is of this document
    with a content text that is read, [RecoverDocument] succeeds with that
    content.  The version it leaves is the version of that snapshot only
    while the snapshot history has room: [RestoreFromSnapshot] is given
    the last slot of the history by reference and reads the version after
    a new snapshot has been added, so that on a full history, where the
    slot by then holds the snapshot just taken, the version left is the
    version before the restore plus one. *)
Theorem RecoverDocument_version_from_snapshot
  (s : State) (newest : FJsonCRDTSnapshot.t) (o : FJsonObject) :
  fst (LoadFromLocal s) = false ->
  Last (SnapshotHistory (self s)) = Some newest ->
  FString_ne (FJsonCRDTSnapshot.DocumentID newest) (DocumentID (self s)) = false ->
  Deserialize (FJsonCRDTSnapshot.Content newest) = Some o ->
  1 <= MaxSnapshotHistory (self s) ->
  Num (SnapshotHistory (self s)) <= MaxSnapshotHistory (self s) ->
  let r := RecoverDocument s in
  fst r = true
  /\ Content (self (snd r)) = o
  /\ Version (self (snd r))
     = if Num (SnapshotHistory (self s)) <? MaxSnapshotHistory (self s)
       then FJsonCRDTSnapshot.Version newest
       else wrap64 (Version (self (snd (LoadFromLocal s))) + 1).
Proof.
  intros Hfail Hlast Hid Ho HM Hb. cbv zeta.
  destruct (LoadFromLocal_failure s Hfail) as (F1 & F2 & _ & _ & _).
  pose proof (LoadFromLocal_Settings s) as FS.
  unfold RecoverDocument.
  destruct (LoadFromLocal s) as [b s1]. cbn [fst snd] in *. subst b.
  assert (FM : MaxSnapshotHistory (self s1) = MaxSnapshotHistory (self s)).
  { unfold Settings in FS. injection FS as _ _ FS _ _. exact FS. }
  rewrite F2, Hlast.
  set (i := (List.length (SnapshotHistory (self s)) - 1)%nat).
  assert (Hlen : (0 < List.length (SnapshotHistory (self s)))%nat).
  { destruct (SnapshotHistory (self s)); [discriminate|cbn; lia]. }
  assert (Hslot : nth i (SnapshotHistory (self s1)) newest = newest).
  { rewrite F2. apply Last_Some_nth. exact Hlast. }
  unfold RestoreFromSnapshotRef. cbn [ReadSnapshot].
  rewrite Hslot, F1, Hid. unfold SetContentFromString. rewrite Ho.
  unfold SetContent. cbn [fst snd negb].
  set (s2 := IncrementVersion (SetDoc (set_Content o) s1)).
  set (s3 := NotifyDocumentChanged (CreateAndAddSnapshot s2)).
  set (v := FJsonCRDTSnapshot.Version (nth i (SnapshotHistory (self s3)) newest)).
  assert (Hv : v = if Num (SnapshotHistory (self s)) <? MaxSnapshotHistory (self s)
                   then FJsonCRDTSnapshot.Version newest
                   else wrap64 (Version (self s1) + 1)).
  { subst v s3. rewrite NotifyDocumentChanged_SnapshotHistory.
    unfold CreateAndAddSnapshot. cbn [SetDoc self set_SnapshotHistory SnapshotHistory].
    change (SnapshotHistory (self s2)) with (SnapshotHistory (self s1)).
    change (MaxSnapshotHistory (self s2)) with (MaxSnapshotHistory (self s1)).
    rewrite F2, FM, Num_app_one.
    destruct (Z.ltb_spec (Num (SnapshotHistory (self s)))
                (MaxSnapshotHistory (self s))) as [Hroom|Hfull].
    - destruct (Z.gtb_spec (Num (SnapshotHistory (self s)) + 1)
                  (MaxSnapshotHistory (self s))); [lia|].
      rewrite app_nth1 by (subst i; lia).
      rewrite <- F2. rewrite Hslot. reflexivity.
    - destruct (Z.gtb_spec (Num (SnapshotHistory (self s)) + 1)
                  (MaxSnapshotHistory (self s))); [|lia].
      replace (Z.to_nat (Num (SnapshotHistory (self s)) + 1
                         - MaxSnapshotHistory (self s))) with 1%nat by lia.
      destruct (SnapshotHistory (self s)) as [|x rest] eqn:EH; [cbn in Hlen; lia|].
      cbn [app skipn]. subst i. cbn [List.length].
      replace (S (List.length rest) - 1)%nat with (List.length rest) by lia.
      rewrite nth_last_app_one. reflexivity. }
  cbn [fst snd]. split; [reflexivity|].
  cbn [Emit SetWorld self].
  destruct (Core_fields _ _ (NotifyDocumentChanged_Core
                               (SetDoc (set_Version v) s3)))
    as (_ & N2 & N3 & _).
  split.
  - rewrite N3. cbn [SetDoc self set_Version Content]. subst s3.
    rewrite (proj1 (proj2 (proj2 (Core_fields _ _
               (NotifyDocumentChanged_Core _))))). reflexivity.
  - rewrite N2. cbn [SetDoc self set_Version Version]. exact Hv.
Qed.

End FurtherProperties.


(** * Properties of the default logger *)

Section LoggerProperties.
Context {UE : UnrealEngine}.
Variable Contains : string -> string -> bool.

Lemma LogOperation_bound LogEntry (l : FJsonCRDTDefaultLogger.t) :
  Num (FJsonCRDTDefaultLogger.LogEntries l)
  <= FJsonCRDTDefaultLogger.MaxLogEntries l ->
  Num (FJsonCRDTDefaultLogger.LogEntries
         (FJsonCRDTDefaultLogger.LogOperation LogEntry l))
  <= FJsonCRDTDefaultLogger.MaxLogEntries l.
Proof.
  intros H. unfold FJsonCRDTDefaultLogger.LogOperation.
  destruct (negb _); [exact H|]. cbn.
  destruct (Z.gtb_spec
              (Num (FJsonCRDTDefaultLogger.LogEntries l ++ [LogEntry]))
              (FJsonCRDTDefaultLogger.MaxLogEntries l)) as [Hgt|Hle];
    [|exact Hle].
  rewrite Num_app_one in Hgt.
  destruct (FJsonCRDTDefaultLogger.LogEntries l) as [|x r]; cbn [app tl].
  - unfold Num in *. cbn in *. lia.
  - rewrite Num_app_one. unfold Num in *. cbn [List.length] in H. lia.
Qed.

Lemma Newest_step {A : Type} (Max : Z) (l : list A) (x : A) (rest : list A) :
  0 <= Max -> Num l <= Max ->
  Newest Max ((if Num (l ++ [x]) >? Max then tl (l ++ [x]) else l ++ [x]) ++ rest)
  = Newest Max (l ++ x :: rest).
Proof.
  intros HM Hl. unfold Newest.
  destruct (Z.gtb_spec (Num (l ++ [x])) Max) as [Hgt|Hle].
  - rewrite Num_app_one in Hgt.
    assert (Hlen : Num l = Max) by lia.
    destruct l as [|y r]; cbn [app tl].
    + unfold Num in *. cbn [List.length] in *.
      replace (Z.to_nat (Z.of_nat (List.length rest) - Max))
        with (List.length rest) by lia.
      replace (Z.to_nat (Z.of_nat (S (List.length rest)) - Max))
        with (S (List.length rest)) by lia.
      reflexivity.
    + rewrite <- app_assoc. cbn [app].
      unfold Num in *. cbn [List.length] in *. rewrite !length_app in *.
      cbn [List.length] in *.
      replace (Z.to_nat (Z.of_nat (S (List.length r + S (List.length rest))) - Max))
        with (S (Z.to_nat (Z.of_nat (List.length r + S (List.length rest)) - Max)))
        by lia.
      reflexivity.
  - rewrite <- app_assoc. reflexivity.
Qed.

Lemma LogOperations_Newest (logged : list FJsonCRDTLogEntry.t) :
  forall l : FJsonCRDTDefaultLogger.t,
    FJsonCRDTDefaultLogger.bLoggingEnabled l = true ->
    0 <= FJsonCRDTDefaultLogger.MaxLogEntries l ->
    Num (FJsonCRDTDefaultLogger.LogEntries l)
    <= FJsonCRDTDefaultLogger.MaxLogEntries l ->
    LogOperations logged l
    = FJsonCRDTDefaultLogger.Build
        (Newest (FJsonCRDTDefaultLogger.MaxLogEntries l)
           (FJsonCRDTDefaultLogger.LogEntries l ++ logged))
        (FJsonCRDTDefaultLogger.MaxLogEntries l) true.
Proof.
  induction logged as [|e logged IH]; intros l Hon HM Hl.
  - cbn. rewrite app_nil_r. unfold Newest.
    replace (Z.to_nat _) with 0%nat by lia.
    destruct l. cbn in *. subst. reflexivity.
  - unfold LogOperations in *. cbn [fold_left].
    pose proof (LogOperation_bound e l Hl) as Hb.
    rewrite IH.
    + unfold FJsonCRDTDefaultLogger.LogOperation. rewrite Hon. cbn.
      rewrite (Newest_step _ _ e logged HM Hl). reflexivity.
    + unfold FJsonCRDTDefaultLogger.LogOperation. rewrite Hon. reflexivity.
    + unfold FJsonCRDTDefaultLogger.LogOperation. rewrite Hon. exact HM.
    + unfold FJsonCRDTDefaultLogger.LogOperation in Hb |- *.
      rewrite Hon in Hb |- *. exact Hb.
Qed.

(** X20. The default logger holds the newest entries up to its maximum.
    An enabled logger within its maximum, after any run of [LogOperation]
    calls, holds the entries it held followed by the entries logged, less
    as many of the oldest as pass the maximum; it is still enabled and
    within its maximum.  A disabled logger is left as it is by every such
    run. *)
Theorem Logger_keeps_newest_entries
  (l : FJsonCRDTDefaultLogger.t) (logged : list FJsonCRDTLogEntry.t) :
  0 <= FJsonCRDTDefaultLogger.MaxLogEntries l ->
  Num (FJsonCRDTDefaultLogger.LogEntries l)
  <= FJsonCRDTDefaultLogger.MaxLogEntries l ->
  let l' := LogOperations logged l in
  (FJsonCRDTDefaultLogger.bLoggingEnabled l = false -> l' = l)
  /\ (FJsonCRDTDefaultLogger.bLoggingEnabled l = true ->
      FJsonCRDTDefaultLogger.LogEntries l'
      = Newest (FJsonCRDTDefaultLogger.MaxLogEntries l)
          (FJsonCRDTDefaultLogger.LogEntries l ++ logged)
      /\ Num (FJsonCRDTDefaultLogger.LogEntries l')
         <= FJsonCRDTDefaultLogger.MaxLogEntries l
      /\ FJsonCRDTDefaultLogger.MaxLogEntries l'
         = FJsonCRDTDefaultLogger.MaxLogEntries l
      /\ FJsonCRDTDefaultLogger.bLoggingEnabled l' = true).
Proof.
  intros HM Hl l'. subst l'. split.
  - intros Hoff. unfold LogOperations.
    induction logged as [|e logged IH]; [reflexivity|].
    cbn [fold_left]. unfold FJsonCRDTDefaultLogger.LogOperation at 2.
    rewrite Hoff. cbn [negb]. exact IH.
  - intros Hon. rewrite (LogOperations_Newest logged l Hon HM Hl). cbn.
    repeat split. unfold Newest, Num. rewrite length_skipn. unfold Num in Hl.
    rewrite length_app. lia.
Qed.

Lemma GetLogs_loop_filter Filter (Entries : list FJsonCRDTLogEntry.t) :
  forall FilteredLogs,
    GetLogs_loop Contains Entries Filter FilteredLogs
    = FilteredLogs ++ filter (fun e => ApplyFilter Contains e Filter) Entries.
Proof.
  induction Entries as [|e rest IH]; intros acc; cbn.
  - symmetry. apply app_nil_r.
  - destruct (ApplyFilter Contains e Filter); rewrite IH;
      [rewrite <- app_assoc|]; reflexivity.
Qed.

Lemma length_firstn_le {A : Type} (n : nat) (l : list A) :
  (n <= List.length l)%nat -> List.length (firstn n l) = n.
Proof. intros H. rewrite length_firstn. lia. Qed.

Lemma skipn_nth_cons {A : Type} (l : list A) (i : nat) (x : A) :
  nth_error l i = Some x -> skipn i l = x :: skipn (S i) l.
Proof.
  revert i. induction l as [|y l IH]; intros [|i] H; cbn in *; try discriminate.
  - injection H as ->. reflexivity.
  - apply IH, H.
Qed.

Lemma ClearLogs_loop_filter Filter :
  forall n (Entries : list FJsonCRDTLogEntry.t),
    (n <= List.length Entries)%nat ->
    ClearLogs_loop Contains n Filter Entries
    = filter (fun e => negb (ApplyFilter Contains e Filter)) (firstn n Entries)
      ++ skipn n Entries.
Proof.
  induction n as [|i IH]; intros Entries Hn; [reflexivity|].
  cbn [ClearLogs_loop].
  destruct (nth_error Entries i) as [e|] eqn:Ee.
  2:{ apply nth_error_None in Ee. lia. }
  rewrite (firstn_succ_nth _ _ _ Ee), filter_app. cbn [filter].
  destruct (ApplyFilter Contains e Filter); cbn [negb].
  - rewrite IH.
    + unfold RemoveAt.
      rewrite firstn_app, (length_firstn_le i Entries) by lia.
      rewrite Nat.sub_diag, firstn_firstn, Nat.min_id. cbn [firstn].
      rewrite skipn_app, (length_firstn_le i Entries) by lia.
      rewrite Nat.sub_diag. cbn [skipn].
      rewrite skipn_firstn_comm, Nat.sub_diag. cbn [firstn].
      rewrite !app_nil_r. reflexivity.
    + unfold RemoveAt. rewrite length_app, length_skipn,
        (length_firstn_le i Entries) by lia. lia.
  - rewrite IH by lia. rewrite (skipn_nth_cons _ _ _ Ee), <- app_assoc.
    reflexivity.
Qed.

Lemma IsEmptyFilter_passes Filter e :
  IsEmptyFilter Filter = true -> ApplyFilter Contains e Filter = true.
Proof.
  unfold IsEmptyFilter, ApplyFilter. intros H.
  repeat (apply andb_true_iff in H; destruct H as [H ?]).
  repeat match goal with
         | H : IsEmpty _ = true |- _ => rewrite H; clear H
         | H : negb _ = true |- _ => apply negb_true_iff in H; rewrite H; clear H
         | H : (_ =? 0) = true |- _ => apply Z.eqb_eq in H; rewrite H; clear H
         end.
  reflexivity.
Qed.

Lemma filter_all {A : Type} (P : A -> bool) (l : list A) :
  (forall x, P x = true) -> filter P l = l.
Proof.
  intros H. induction l as [|x r IH]; [reflexivity|].
  cbn. rewrite H, IH. reflexivity.
Qed.

Lemma filter_none_of_the_rest {A : Type} (P : A -> bool) (l : list A) :
  filter P (filter (fun x => negb (P x)) l) = [].
Proof.
  induction l as [|x r IH]; [reflexivity|].
  cbn. destruct (P x) eqn:E; cbn; [exact IH|]. rewrite E. exact IH.
Qed.

(** X21. [GetLogs] gives the entries that pass the filter, in the order
    they were logged, and the default filter passes every entry.
    [ClearLogs] removes exactly those entries: what stays is the entries
    that do not pass, in their order, so that [GetLogs] with the same
    filter then finds nothing; the maximum and the enabled flag stay. *)
Theorem ClearLogs_removes_what_GetLogs_gives
  (Filter : FJsonCRDTLogFilter.t) (l : FJsonCRDTDefaultLogger.t) :
  GetLogs Contains Filter l
  = filter (fun e => ApplyFilter Contains e Filter)
      (FJsonCRDTDefaultLogger.LogEntries l)
  /\ GetLogs Contains FJsonCRDTLogFilter.Default l
     = FJsonCRDTDefaultLogger.LogEntries l
  /\ FJsonCRDTDefaultLogger.LogEntries (ClearLogs Contains Filter l)
     = filter (fun e => negb (ApplyFilter Contains e Filter))
         (FJsonCRDTDefaultLogger.LogEntries l)
  /\ GetLogs Contains Filter (ClearLogs Contains Filter l) = []
  /\ FJsonCRDTDefaultLogger.MaxLogEntries (ClearLogs Contains Filter l)
     = FJsonCRDTDefaultLogger.MaxLogEntries l
  /\ FJsonCRDTDefaultLogger.bLoggingEnabled (ClearLogs Contains Filter l)
     = FJsonCRDTDefaultLogger.bLoggingEnabled l.
Proof.
  assert (HG : forall F m,
             GetLogs Contains F m
             = filter (fun e => ApplyFilter Contains e F)
                 (FJsonCRDTDefaultLogger.LogEntries m)).
  { intros F m. unfold GetLogs. apply GetLogs_loop_filter. }
  assert (HC : FJsonCRDTDefaultLogger.LogEntries (ClearLogs Contains Filter l)
               = filter (fun e => negb (ApplyFilter Contains e Filter))
                   (FJsonCRDTDefaultLogger.LogEntries l)).
  { unfold ClearLogs. cbn.
    destruct (IsEmptyFilter Filter) eqn:EF.
    - symmetry. induction (FJsonCRDTDefaultLogger.LogEntries l) as [|e r IH];
        [reflexivity|].
      cbn [filter]. rewrite (IsEmptyFilter_passes Filter e EF). exact IH.
    - rewrite ClearLogs_loop_filter by lia.
      rewrite firstn_all, skipn_all, app_nil_r. reflexivity. }
  split; [apply HG|]. split; [|split; [exact HC|split; [|split; reflexivity]]].
  - rewrite HG. apply filter_all.
    intros e. apply IsEmptyFilter_passes. reflexivity.
  - rewrite HG, HC. apply filter_none_of_the_rest.
Qed.

Lemma TrimOldest_Newest (MaxLogEntries : Z) :
  0 <= MaxLogEntries ->
  forall Entries : list FJsonCRDTLogEntry.t,
    TrimOldest MaxLogEntries Entries = Some (Newest MaxLogEntries Entries).
Proof.
  intros HM. induction Entries as [|e r IH]; cbn [TrimOldest].
  - destruct (Z.gtb_spec (Num (@nil FJsonCRDTLogEntry.t)) MaxLogEntries) as [H|H].
    + unfold Num in H. cbn in H. lia.
    + unfold Newest. rewrite skipn_nil. reflexivity.
  - destruct (Z.gtb_spec (Num (e :: r)) MaxLogEntries) as [H|H].
    + rewrite IH. unfold Newest, Num in *. cbn [List.length] in *.
      replace (Z.to_nat (Z.of_nat (S (List.length r)) - MaxLogEntries))
        with (S (Z.to_nat (Z.of_nat (List.length r) - MaxLogEntries))) by lia.
      reflexivity.
    + unfold Newest. replace (Z.to_nat _) with 0%nat by lia. reflexivity.
Qed.

(** X22. [SetMaxLogEntries] with a maximum that is not negative sets the
    maximum and keeps the newest entries up to it, in their order: the
    logger is within the new maximum, and holds every entry it held when
    the maximum is no smaller than their number. *)
Theorem SetMaxLogEntries_keeps_newest
  (InMaxLogEntries : Z) (l : FJsonCRDTDefaultLogger.t) :
  0 <= InMaxLogEntries ->
  exists l',
    SetMaxLogEntries InMaxLogEntries l = Some l'
    /\ FJsonCRDTDefaultLogger.MaxLogEntries l' = InMaxLogEntries
    /\ FJsonCRDTDefaultLogger.bLoggingEnabled l'
       = FJsonCRDTDefaultLogger.bLoggingEnabled l
    /\ FJsonCRDTDefaultLogger.LogEntries l'
       = Newest InMaxLogEntries (FJsonCRDTDefaultLogger.LogEntries l)
    /\ Num (FJsonCRDTDefaultLogger.LogEntries l') <= InMaxLogEntries
    /\ (Num (FJsonCRDTDefaultLogger.LogEntries l) <= InMaxLogEntries ->
        FJsonCRDTDefaultLogger.LogEntries l'
        = FJsonCRDTDefaultLogger.LogEntries l).
Proof.
  intros HM. unfold SetMaxLogEntries.
  rewrite (TrimOldest_Newest InMaxLogEntries HM). eexists.
  split; [reflexivity|]. cbn. repeat split.
  - unfold Newest, Num. rewrite length_skipn. lia.
  - intros H. unfold Newest. replace (Z.to_nat _) with 0%nat by lia.
    reflexivity.
Qed.

End LoggerProperties.


(** * The logger of a document *)

Section DocumentLogger.
Context {UE : UnrealEngine}.

Lemma LogOperations_disabled logged (L : FJsonCRDTDefaultLogger.t) :
  FJsonCRDTDefaultLogger.bLoggingEnabled L = false ->
  LogOperations logged L = L.
Proof.
  intros Hoff. unfold LogOperations.
  induction logged as [|e logged IH]; [reflexivity|].
  cbn [fold_left]. unfold FJsonCRDTDefaultLogger.LogOperation at 2.
  rewrite Hoff. cbn [negb]. exact IH.
Qed.

Lemma Stored_quiet (s s' : State) :
  Events (world s') = Events (world s) ->
  Logger (self s') = Logger (self s) ->
  Stored s s'.
Proof.
  intros HE HL. exists []. rewrite app_nil_r. split; [exact HE|].
  rewrite HL. destruct (Logger (self s)); reflexivity.
Qed.

Lemma Stored_trans (s s' s'' : State) :
  Stored s s' -> Stored s' s'' -> Stored s s''.
Proof.
  intros [a [Ha La]] [b [Hb Lb]]. exists (a ++ b).
  rewrite Hb, Ha, app_assoc. split; [reflexivity|].
  rewrite Lb, La. unfold LoggedEntries. rewrite flat_map_app.
  destruct (Logger (self s)); [|reflexivity]. cbn.
  unfold LogOperations. rewrite fold_left_app. reflexivity.
Qed.

Lemma Stored_Emit (e : Event) (s : State) :
  LoggedEntries [e] = [] -> Stored s (Emit e s).
Proof.
  intros H. exists [e]. split; [reflexivity|]. rewrite H. cbn.
  destruct (Logger (self s)); reflexivity.
Qed.

Lemma ApplyOperation_Stored Operation (s : State) :
  Stored s (ApplyOperation Operation s).
Proof.
  unfold ApplyOperation. destruct (FJsonCRDTOperation.Type_ _);
    apply Stored_Emit; reflexivity.
Qed.

Lemma LogOperation_Stored Operation OldValue NewValue b Conflict (s : State) :
  Stored s (LogOperation Operation OldValue NewValue b Conflict s).
Proof.
  unfold LogOperation.
  destruct (Logger (self s)) as [L|] eqn:EL;
    [|apply Stored_quiet; reflexivity].
  destruct (negb _); [apply Stored_quiet; reflexivity|].
  eexists. split; [reflexivity|]. cbn. rewrite EL. reflexivity.
Qed.

Lemma ApplyVerbatim_Stored OldValue Operation (s : State) :
  Stored s (ApplyVerbatim OldValue Operation s).
Proof.
  unfold ApplyVerbatim.
  eapply Stored_trans; [apply ApplyOperation_Stored|].
  eapply Stored_trans; [apply LogOperation_Stored|].
  apply Stored_quiet; reflexivity.
Qed.

Lemma ResolveConflict_Stored Conflict (s : State) :
  Stored s (snd (ResolveConflict Conflict s)).
Proof.
  unfold ResolveConflict. destruct (Resolver_ResolveConflict _ _).
  apply Stored_quiet; reflexivity.
Qed.

Lemma ScanHistory_Stored n Operation OldValue :
  forall b Conflict (s : State),
    Stored s (snd (ScanHistory n Operation OldValue b Conflict s)).
Proof.
  induction n as [|i IH]; intros b Conflict s; cbn [ScanHistory].
  - apply Stored_quiet; reflexivity.
  - destruct (nth_error _ i) as [LocalOperation|];
      [|apply Stored_quiet; reflexivity].
    destruct (Collides _ _); [|apply IH].
    pose proof (ResolveConflict_Stored
                  (FillConflict LocalOperation Operation Conflict) s) as HR.
    destruct (ResolveConflict _ s) as [[[] c'] s']; cbn [snd] in HR.
    + eapply Stored_trans; [exact HR|].
      eapply Stored_trans; [|apply IH].
      eapply Stored_trans; [apply ApplyOperation_Stored|].
      eapply Stored_trans; [apply (Stored_Emit (ConflictDetected c')); reflexivity|].
      eapply Stored_trans; [apply LogOperation_Stored|].
      apply Stored_quiet; reflexivity.
    + eapply Stored_trans; [exact HR|apply IH].
Qed.

Lemma ProcessOperation_Stored (s : State) Operation :
  Stored s (ProcessOperation s Operation).
Proof.
  unfold ProcessOperation.
  set (OldValue := OldValueOf Operation s).
  destruct (EJsonCRDTOperationType.eqb _ _).
  - pose proof (ScanHistory_Stored (List.length (OperationHistory (self s)))
                  Operation OldValue false
                  (FJsonCRDTConflict.Default (UtcNow (world s))) s) as HS.
    destruct (ScanHistory _ _ _ _ _ _) as [[[] c] s'];
      cbn [fst snd negb] in HS |- *.
    + exact HS.
    + eapply Stored_trans; [exact HS|apply ApplyVerbatim_Stored].
  - cbn [negb]. apply ApplyVerbatim_Stored.
Qed.

Lemma fold_ProcessOperation_Stored ops :
  forall s : State, Stored s (fold_left ProcessOperation ops s).
Proof.
  induction ops as [|op ops IH]; intros s; cbn [fold_left].
  - apply Stored_quiet; reflexivity.
  - eapply Stored_trans; [apply ProcessOperation_Stored|apply IH].
Qed.

Lemma NotifyDocumentChanged_Stored (s : State) :
  Stored s (NotifyDocumentChanged s).
Proof.
  unfold NotifyDocumentChanged.
  set (s1 := Emit (DocumentChanged (DocumentID (self s))) s).
  assert (H1 : Stored s s1) by (apply Stored_Emit; reflexivity).
  destruct (bAutoLocalSave (self s1)); [|exact H1].
  eapply Stored_trans; [exact H1|].
  apply Stored_quiet; [apply SaveLocally_Events|].
  destruct (SaveLocally_self s1) as [-> | [msg ->]]; reflexivity.
Qed.

Lemma ApplyPatch_Stored Patch (s : State) :
  Stored s (snd (ApplyPatch Patch s)).
Proof.
  unfold ApplyPatch. destruct (FString_ne _ _); cbn [snd];
    [apply Stored_quiet; reflexivity|].
  eapply Stored_trans; [apply fold_ProcessOperation_Stored|].
  eapply Stored_trans; [|apply NotifyDocumentChanged_Stored].
  apply Stored_quiet; reflexivity.
Qed.

(** X28. The logger of a document stores what the document logs.  After
    any [ApplyPatch], the logger is the logger there was after one
    [LogOperation] for each entry the call handed to it, in order.  It is
    unchanged when it is disabled; and when it is enabled and within a
    maximum that is not negative, it holds the newest entries, up to the
    maximum, of those it held followed by those handed to it. *)
Theorem Logger_stores_what_ApplyPatch_logs
  (Patch : FJsonCRDTPatch.t) (s : State) (L : FJsonCRDTDefaultLogger.t) :
  Logger (self s) = Some L ->
  let s' := snd (ApplyPatch Patch s) in
  exists new,
    Events (world s') = Events (world s) ++ new
    /\ Logger (self s') = Some (LogOperations (LoggedEntries new) L)
    /\ (FJsonCRDTDefaultLogger.bLoggingEnabled L = false ->
        Logger (self s') = Some L)
    /\ (FJsonCRDTDefaultLogger.bLoggingEnabled L = true ->
        0 <= FJsonCRDTDefaultLogger.MaxLogEntries L ->
        Num (FJsonCRDTDefaultLogger.LogEntries L)
        <= FJsonCRDTDefaultLogger.MaxLogEntries L ->
        Logger (self s')
        = Some (FJsonCRDTDefaultLogger.Build
                  (Newest (FJsonCRDTDefaultLogger.MaxLogEntries L)
                     (FJsonCRDTDefaultLogger.LogEntries L ++ LoggedEntries new))
                  (FJsonCRDTDefaultLogger.MaxLogEntries L) true)).
Proof.
  intros HL. cbv zeta.
  destruct (ApplyPatch_Stored Patch s) as [new [Hev Hlog]].
  rewrite HL in Hlog. cbn [option_map] in Hlog.
  exists new. split; [exact Hev|]. split; [exact Hlog|]. split.
  - intros Hoff. rewrite Hlog. f_equal. apply LogOperations_disabled, Hoff.
  - intros Hon HM Hb. rewrite Hlog.
    rewrite (LogOperations_Newest (LoggedEntries new) L Hon HM Hb).
    reflexivity.
Qed.

End DocumentLogger.

(** * Properties of the CSV field escape *)

Lemma ReplaceQuotes_injective (a : string) :
  forall b, ReplaceQuotes a = ReplaceQuotes b -> a = b.
Proof.
  induction a as [|c r IH]; intros [|d t] H; cbn [ReplaceQuotes] in H.
  - reflexivity.
  - destruct (Ascii.eqb d DoubleQuote); discriminate.
  - destruct (Ascii.eqb c DoubleQuote); discriminate.
  - destruct (Ascii.eqb_spec c DoubleQuote) as [Hc|Hc];
      destruct (Ascii.eqb_spec d DoubleQuote) as [Hd|Hd].
    + injection H as H. subst. f_equal. apply IH, H.
    + injection H as H1 H2. congruence.
    + injection H as H1 H2. congruence.
    + injection H as H1 H2. subst. f_equal. apply IH, H2.
Qed.

Lemma append_one_injective (c : ascii) (a : string) :
  forall b, (a ++ String c "")%string = (b ++ String c "")%string -> a = b.
Proof.
  induction a as [|x r IH]; intros [|y t] H; cbn in H.
  - reflexivity.
  - injection H as _ H. destruct t; discriminate.
  - injection H as _ H. destruct r; discriminate.
  - injection H as -> H. f_equal. apply IH, H.
Qed.

Lemma ReplaceQuotes_plain (Field : string) :
  ContainsChar DoubleQuote Field = false -> ReplaceQuotes Field = Field.
Proof.
  induction Field as [|c r IH]; cbn [ReplaceQuotes ContainsChar]; [reflexivity|].
  destruct (Ascii.eqb c DoubleQuote); cbn [orb]; [discriminate|].
  intros H. rewrite (IH H). reflexivity.
Qed.

Lemma ReplaceQuotes_ContainsChar (c : ascii) (Field : string) :
  ContainsChar c (ReplaceQuotes Field) = ContainsChar c Field.
Proof.
  induction Field as [|x r IH]; cbn [ReplaceQuotes ContainsChar];
    [reflexivity|].
  destruct (Ascii.eqb_spec x DoubleQuote) as [->|Hx];
    cbn [ReplaceQuotes ContainsChar]; rewrite IH;
    [destruct (Ascii.eqb DoubleQuote c)|]; reflexivity.
Qed.

(** X23. The CSV escape of a field.  A field with no comma, double quote
    or line feed is written as it is.  Any other field is written between
    double quotes, with each double quote of its own doubled.  No two
    fields are written alike. *)
Theorem EscapeCSV_is_injective (Field : string) :
  (ContainsChar "," Field || ContainsChar DoubleQuote Field
   || ContainsChar LineFeed Field = false ->
   EscapeCSV Field = Field)
  /\ (ContainsChar "," Field || ContainsChar DoubleQuote Field
      || ContainsChar LineFeed Field = true ->
      EscapeCSV Field
      = String DoubleQuote (ReplaceQuotes Field ++ String DoubleQuote ""))
  /\ (forall Other, EscapeCSV Field = EscapeCSV Other -> Field = Other).
Proof.
  assert (HE : forall F,
             EscapeCSV F
             = if ContainsChar "," F || ContainsChar DoubleQuote F
                  || ContainsChar LineFeed F
               then String DoubleQuote (ReplaceQuotes F ++ String DoubleQuote "")
               else ReplaceQuotes F).
  { intros F. unfold EscapeCSV. rewrite !ReplaceQuotes_ContainsChar.
    reflexivity. }
  split; [|split].
  - intros H. rewrite HE, H. apply ReplaceQuotes_plain.
    destruct (ContainsChar DoubleQuote Field); [|reflexivity].
    rewrite orb_true_r in H. discriminate.
  - intros H. rewrite HE, H. reflexivity.
  - intros Other. rewrite !HE.
    assert (HQ : forall F,
               ContainsChar "," F || ContainsChar DoubleQuote F
               || ContainsChar LineFeed F = false ->
               forall G, ReplaceQuotes F
                         <> String DoubleQuote G).
    { intros F HF G HG.
      assert (HC : ContainsChar DoubleQuote (ReplaceQuotes F) = true)
        by (rewrite HG; cbn [ContainsChar]; rewrite Ascii.eqb_refl; reflexivity).
      rewrite ReplaceQuotes_ContainsChar in HC. rewrite HC in HF.
      rewrite orb_true_r in HF. discriminate. }
    destruct (_ || _ || ContainsChar LineFeed Field) eqn:E1;
      destruct (_ || _ || ContainsChar LineFeed Other) eqn:E2; intros H.
    + injection H as H. apply append_one_injective in H.
      apply ReplaceQuotes_injective, H.
    + symmetry in H. destruct (HQ Other E2 _ H).
    + destruct (HQ Field E1 _ H).
    + apply ReplaceQuotes_injective, H.
Qed.


(** * The further properties on the example inputs *)

(** A [Replace] of another field joins the history of A and Y as it
    came. *)
Lemma Replace_of_another_field :
  Collisions (UE := Reference.Engine) ReplaceOther (OperationHistory (self DocAY))
  = []
  /\ OperationHistory
       (self (ProcessOperation (UE := Reference.Engine) DocAY ReplaceOther))
     = [ReplaceContent "A" 1; ReplaceContent "Y" 2; ReplaceOther].
Proof.
  split; [reflexivity|].
  destruct (Replace_without_collision_is_applied_verbatim
              (UE := Reference.Engine) DocAY ReplaceOther eq_refl) as [H _].
  rewrite H. reflexivity.
Defined.

(** An [Add] and a [Test] of the field the history writes are added in
    the order of the patch, with no conflict. *)
Lemma ApplyPatch_of_Add_and_Test :
  let Patch := PatchOf "doc" [AddOther; TestContent] in
  FString_ne (UE := Reference.Engine) (FJsonCRDTPatch.DocumentID Patch)
    (DocumentID (self DocAY)) = false
  /\ Forall (fun op => IsReplace op = false) (FJsonCRDTPatch.Operations Patch)
  /\ OperationHistory (self (snd (ApplyPatch (UE := Reference.Engine) Patch DocAY)))
     = [ReplaceContent "A" 1; ReplaceContent "Y" 2; AddOther; TestContent].
Proof.
  cbv zeta.
  assert (Hall : Forall (fun op => IsReplace op = false)
                   (FJsonCRDTPatch.Operations
                      (PatchOf "doc" [AddOther; TestContent])))
    by (repeat constructor).
  split; [reflexivity|]. split; [exact Hall|].
  destruct (ApplyPatch_without_Replace (UE := Reference.Engine)
              (PatchOf "doc" [AddOther; TestContent]) DocAY eq_refl Hall)
    as [H _].
  rewrite H. reflexivity.
Defined.

(** The history holds A, written at 1, and Y, written at 2; a [Replace]
    by Z written at 0 loses to both under LastWriterWins: Y and then A
    are applied and added. *)
Lemma Replace_against_A_and_Y :
  let Operation := ReplaceContent "Z" 0 in
  Collisions (UE := Reference.Engine) Operation (OperationHistory (self DocAY))
  = [ReplaceContent "A" 1; ReplaceContent "Y" 2]
  /\ map FJsonCRDTOperation.Value
       (OperationHistory
          (self (ProcessOperation (UE := Reference.Engine) DocAY Operation)))
     = ["A"; "Y"; "Y"; "A"].
Proof.
  cbv zeta. split; [reflexivity|].
  destruct (Replace_with_default_resolver (UE := Reference.Engine) DocAY
              EJsonCRDTConflictStrategy.LastWriterWins (ReplaceContent "Z" 0))
    as [H _].
  - reflexivity.
  - reflexivity.
  - discriminate.
  - discriminate.
  - vm_compute. discriminate.
  - rewrite H. reflexivity.
Defined.

(** Ten snapshots and a patch, from a new document: both histories are
    within their maxima. *)
Lemma Histories_of_ten_changes :
  let cs := TenSnapshots ++ [CallApplyPatch (PatchOf "doc" [TestContent])] in
  Forall (fun c => LoadsFromDisk c = false) cs
  /\ OperationHistoryBounded (self (Calls (UE := Reference.Engine) cs Fresh))
  /\ SnapshotHistoryBounded (self (Calls (UE := Reference.Engine) cs Fresh)).
Proof.
  cbv zeta.
  assert (Hcs : Forall (fun c => LoadsFromDisk c = false)
                  (TenSnapshots ++ [CallApplyPatch (PatchOf "doc" [TestContent])]))
    by (unfold TenSnapshots; cbn [repeat app]; repeat constructor).
  split; [exact Hcs|].
  destruct (Histories_stay_bounded (UE := Reference.Engine)
              (TenSnapshots ++ [CallApplyPatch (PatchOf "doc" [TestContent])])
              Fresh) as [HO HS].
  - vm_compute. discriminate.
  - vm_compute. discriminate.
  - vm_compute. discriminate.
  - split; [exact HO|exact (HS Hcs)].
Defined.

(** After a change of content the newest snapshot has the new version. *)
Lemma Newest_snapshot_on_DocX :
  exists newest,
    Last (SnapshotHistory
            (self (snd (SetContent (UE := Reference.Engine)
                          (Some ContentNested) DocX))))
    = Some newest
    /\ FJsonCRDTSnapshot.Version newest = 3.
Proof.
  destruct (Newest_snapshot_after_a_change (UE := Reference.Engine) DocX)
    as (_ & H & _).
  - vm_compute. discriminate.
  - destruct (H ContentNested) as (newest & HL & _ & HV & _).
    exists newest. split; [exact HL|]. rewrite HV. reflexivity.
Defined.

Lemma Reference_KeysApart : KeysApart (UE := Reference.Engine) RecordKeys.
Proof.
  intros a b Ha Hb. unfold RecordKeys in Ha, Hb. cbn [In] in Ha, Hb.
  destruct Ha as [<-|[<-|[<-|[<-|[<-|[]]]]]];
    destruct Hb as [<-|[<-|[<-|[<-|[<-|[]]]]]]; reflexivity.
Qed.

Lemma Reference_TextsReadAsTexts : TextsReadAsTexts (UE := Reference.Engine).
Proof. intros t. reflexivity. Qed.

(** The document saved and loaded back: content and version as they were,
    and the newest of its two snapshots a second time.  At a version one
    past 2^53 the version loaded back is 2^53. *)
Lemma SaveLocally_then_LoadFromLocal_on_DocX :
  let r := LoadFromLocal (UE := Reference.Engine)
             (snd (SaveLocally (UE := Reference.Engine) DocX)) in
  let big := LoadFromLocal (UE := Reference.Engine)
               (snd (SaveLocally (UE := Reference.Engine) DocBig)) in
  fst (SaveLocally (UE := Reference.Engine) DocX) = true
  /\ fst r = true
  /\ Content (self (snd r)) = ContentX
  /\ Version (self (snd r)) = 2
  /\ map FJsonCRDTSnapshot.Version (SnapshotHistory (self (snd r))) = [1; 2; 2]
  /\ Version (self DocBig) = 9007199254740993
  /\ fst big = true
  /\ Version (self (snd big)) = 9007199254740992.
Proof.
  cbv zeta.
  destruct (SaveLocally_then_LoadFromLocal (UE := Reference.Engine) DocX)
    as (H1 & _ & _ & H3 & H4 & _ & H6 & _).
  - reflexivity.
  - reflexivity.
  - exact Reference_KeysApart.
  - exact Reference_TextsReadAsTexts.
  - reflexivity.
  - destruct (SaveLocally_then_LoadFromLocal (UE := Reference.Engine) DocBig)
      as (B1 & _ & B3 & _).
    + reflexivity.
    + vm_compute. reflexivity.
    + exact Reference_KeysApart.
    + exact Reference_TextsReadAsTexts.
    + reflexivity.
    + split; [reflexivity|]. split; [exact H1|].
      split; [rewrite H4; reflexivity|].
      split; [apply H3; [vm_compute; discriminate|reflexivity]|].
      split; [cbv zeta in H6; rewrite H6; vm_compute; reflexivity|].
      split; [vm_compute; reflexivity|]. split; [exact B1|].
      cbv zeta in B3. rewrite B3. vm_compute. reflexivity.
Defined.


(** The snapshot taken of the initialised document, restored after a
    change of content. *)
Lemma CreateSnapshot_of_Doc0_restored :
  let r := RestoreFromSnapshot (UE := Reference.Engine)
             (CreateSnapshot (UE := Reference.Engine) Doc0) DocX in
  Content (self DocX) = ContentX
  /\ fst r = true
  /\ Content (self (snd r)) = []
  /\ Version (self (snd r)) = 1.
Proof.
  cbv zeta.
  destruct (CreateSnapshot_then_RestoreFromSnapshot (UE := Reference.Engine)
              Doc0 DocX) as (H1 & H2 & H3).
  - reflexivity.
  - reflexivity.
  - split; [reflexivity|]. split; [exact H1|].
    split; [rewrite H2|rewrite H3]; reflexivity.
Defined.

(** A path of two segments, through an object. *)
Lemma GetValueAtPath_on_ContentNested :
  GetValueAtPath (UE := Reference.Engine) (Some ContentNested) "/a"
  = Some (FJsonValueObject [("b", FJsonValueNumber 1)])
  /\ GetValueAtPath (UE := Reference.Engine) (Some ContentNested) "/a/b"
     = Some (FJsonValueNumber 1).
Proof.
  split; [reflexivity|].
  exact (eq_trans
           (GetValueAtPath_composes (UE := Reference.Engine) ContentNested
              [("b", FJsonValueNumber 1)] "/a" "b" eq_refl)
           eq_refl).
Defined.

(** A segment after a text gives the text; two give nothing. *)
Lemma GetValueAtPath_past_a_text :
  GetValueAtPath (UE := Reference.Engine) (Some ContentX) "/content/anything"
  = Some (FJsonValueString "X")
  /\ GetValueAtPath (UE := Reference.Engine) (Some ContentX) "/content/any/thing"
     = None.
Proof.
  split.
  - destruct (GetValueAtPath_last_segments (UE := Reference.Engine) ContentX
                "/content/anything" []) as (_ & _ & H); [discriminate|].
    apply (H ContentX "content" (FJsonValueString "X") ["anything"]);
      reflexivity.
  - destruct (GetValueAtPath_last_segments (UE := Reference.Engine) ContentX
                "/content/any/thing" []) as (_ & _ & H); [discriminate|].
    apply (H ContentX "content" (FJsonValueString "X") ["any"; "thing"]);
      reflexivity.
Defined.

(** The strategy set to RemoteWins, then a patch: the resolver is the
    default one under RemoteWins. *)
Lemma Strategy_after_SetConflictStrategy :
  let cs := [CallSetConflictStrategy EJsonCRDTConflictStrategy.RemoteWins;
             CallApplyPatch (PatchOf "doc" [ReplaceContent "Y" 1])] in
  DefaultResolverAgrees (self DocX)
  /\ ConflictStrategy (self (Calls (UE := Reference.Engine) cs DocX))
     = EJsonCRDTConflictStrategy.RemoteWins
  /\ ConflictResolver (self (Calls (UE := Reference.Engine) cs DocX))
     = Some (DefaultConflictResolver EJsonCRDTConflictStrategy.RemoteWins).
Proof.
  cbv zeta.
  assert (H0 : DefaultResolverAgrees (self DocX)) by reflexivity.
  split; [exact H0|]. split; [vm_compute; reflexivity|].
  destruct (Strategy_and_resolver_agree (UE := Reference.Engine)
              [CallSetConflictStrategy EJsonCRDTConflictStrategy.RemoteWins;
               CallApplyPatch (PatchOf "doc" [ReplaceContent "Y" 1])] DocX H0)
    as [H _].
  - repeat constructor.
  - cbv zeta in H. unfold DefaultResolverAgrees in H. rewrite H.
    vm_compute. reflexivity.
Defined.

(** A logger of two entries at most, after three: the last two. *)
Lemma Logger_of_two_after_three :
  FJsonCRDTDefaultLogger.LogEntries
    (LogOperations [EntryAt 1; EntryAt 2; EntryAt 3]
       (FJsonCRDTDefaultLogger.Build [] 2 true))
  = [EntryAt 2; EntryAt 3].
Proof.
  destruct (Logger_keeps_newest_entries
              (FJsonCRDTDefaultLogger.Build [] 2 true)
              [EntryAt 1; EntryAt 2; EntryAt 3]) as [_ H].
  - vm_compute. discriminate.
  - vm_compute. discriminate.
  - destruct (H eq_refl) as [HE _]. cbv zeta in HE. rewrite HE. reflexivity.
Defined.

(** The maximum of a logger of three entries set to two. *)
Lemma SetMaxLogEntries_to_two :
  option_map FJsonCRDTDefaultLogger.LogEntries
    (SetMaxLogEntries 2
       (FJsonCRDTDefaultLogger.Build [EntryAt 1; EntryAt 2; EntryAt 3] 1000 true))
  = Some [EntryAt 2; EntryAt 3].
Proof.
  destruct (SetMaxLogEntries_keeps_newest 2
              (FJsonCRDTDefaultLogger.Build [EntryAt 1; EntryAt 2; EntryAt 3]
                 1000 true)) as (l' & H1 & _ & _ & H4 & _).
  - vm_compute. discriminate.
  - rewrite H1. cbn [option_map]. rewrite H4. reflexivity.
Defined.

(** The record [SaveLocally] wrote is taken back by [LoadFromLocal]; and
    from a record whose version is written as a text, the version and the
    content are taken. *)
Lemma LoadFromLocal_on_DocSaved :
  LoadableRecord (UE := Reference.Engine) DocSaved
  = Some (SaveData (UE := Reference.Engine) DocX)
  /\ fst (LoadFromLocal (UE := Reference.Engine) DocSaved) = true
  /\ Version (self (snd (LoadFromLocal (UE := Reference.Engine) DocSaved))) = 2
  /\ LoadableRecord (UE := Reference.Engine) DocTextVersion
     = Some RecordWithTextVersion
  /\ Version (self DocTextVersion) = 2
  /\ Version (self (snd (LoadFromLocal (UE := Reference.Engine) DocTextVersion)))
     = 7
  /\ Content (self (snd (LoadFromLocal (UE := Reference.Engine) DocTextVersion)))
     = ContentNested.
Proof.
  assert (H : LoadableRecord (UE := Reference.Engine) DocSaved
              = Some (SaveData (UE := Reference.Engine) DocX)) by reflexivity.
  assert (HT : LoadableRecord (UE := Reference.Engine) DocTextVersion
               = Some RecordWithTextVersion) by reflexivity.
  split; [exact H|].
  destruct (LoadFromLocal_takes_the_record (UE := Reference.Engine) DocSaved
              (SaveData (UE := Reference.Engine) DocX) H)
    as (H1 & _ & H3 & _).
  destruct (LoadFromLocal_takes_the_record (UE := Reference.Engine)
              DocTextVersion RecordWithTextVersion HT)
    as (_ & T2 & T3 & _).
  split; [exact H1|]. split; [cbv zeta in H3; rewrite H3; reflexivity|].
  split; [exact HT|]. split; [reflexivity|].
  split; [cbv zeta in T3; rewrite T3; reflexivity|].
  cbv zeta in T2. apply (f_equal (fun x => match x with
                                         | Some c => c
                                         | None => []
                                         end)) in T2.
  symmetry. exact T2.
Defined.

(** Under Custom, a patch of two [Replace] operations that collide with
    the Y of the history leaves the history as it was. *)
Lemma ApplyPatch_of_two_unresolved :
  let Patch := PatchOf "doc" [ReplaceContent "Z" 2; ReplaceContent "W" 3] in
  fst (ApplyPatch (UE := Reference.Engine) Patch DocCustomY) = true
  /\ OperationHistory (self (snd (ApplyPatch (UE := Reference.Engine) Patch
                                    DocCustomY)))
     = [ReplaceContent "Y" 1].
Proof.
  cbv zeta.
  destruct (ApplyPatch_drops_every_unresolved_Replace (UE := Reference.Engine)
              (PatchOf "doc" [ReplaceContent "Z" 2; ReplaceContent "W" 3])
              DocCustomY
              (DefaultConflictResolver EJsonCRDTConflictStrategy.Custom))
    as (H1 & H2 & _).
  - reflexivity.
  - reflexivity.
  - exact Custom_NeverResolves.
  - constructor; [split; [reflexivity|vm_compute; discriminate]|].
    constructor; [split; [reflexivity|vm_compute; discriminate]|].
    constructor.
  - rewrite H1 at 1. split; [reflexivity|]. rewrite H2. reflexivity.
Defined.

(** Recovery on the full history of ten snapshots: the newest snapshot is
    of version 10, and the version left is 11. *)
Lemma RecoverDocument_on_DocTenSnapshots :
  Last (SnapshotHistory (self DocTenSnapshots)) = Some NewestOfTen
  /\ Num (SnapshotHistory (self DocTenSnapshots))
     = MaxSnapshotHistory (self DocTenSnapshots)
  /\ fst (RecoverDocument (UE := Reference.Engine) DocTenSnapshots) = true
  /\ Version (self (snd (RecoverDocument (UE := Reference.Engine)
                           DocTenSnapshots))) = 11.
Proof.
  assert (HL : Last (SnapshotHistory (self DocTenSnapshots)) = Some NewestOfTen)
    by (vm_compute; reflexivity).
  split; [exact HL|]. split; [vm_compute; reflexivity|].
  destruct (RecoverDocument_version_from_snapshot (UE := Reference.Engine)
              DocTenSnapshots NewestOfTen ContentX) as (H1 & _ & H3).
  - vm_compute. reflexivity.
  - exact HL.
  - vm_compute. reflexivity.
  - vm_compute. reflexivity.
  - vm_compute. discriminate.
  - vm_compute. discriminate.
  - split; [exact H1|]. rewrite H3. vm_compute. reflexivity.
Defined.

(** One patch of one [Test] on the document with its new logger: the
    logger holds one entry. *)
Lemma Logger_after_one_patch :
  option_map (fun l => List.length (FJsonCRDTDefaultLogger.LogEntries l))
    (Logger (self (snd (ApplyPatch (UE := Reference.Engine)
                          (PatchOf "doc" [TestContent]) DocX))))
  = Some 1%nat.
Proof.
  destruct (Logger_stores_what_ApplyPatch_logs (UE := Reference.Engine)
              (PatchOf "doc" [TestContent]) DocX FJsonCRDTDefaultLogger.New
              eq_refl) as (new & Hev & Hlog & _).
  rewrite Hlog. cbn [option_map].
  change (Events (world DocX)) with [DocumentChanged "doc"] in Hev.
  apply (f_equal (@tl Event)) in Hev. cbn [app tl] in Hev. rewrite <- Hev.
  vm_compute. reflexivity.
Defined.
